(** * sync_crexi: the Crexi -> Supabase sync script, embedded in Rocq

    The script [sync_crexi.py] is sequential I/O orchestration around a few
    pure reshaping functions.  The embedding follows the source function by
    function:

    - JSON payloads are Python values ([value]); a Python [dict] is an
      association list in insertion order, holding each key once;
    - everything the script does to the outside (console, clock, HTTP,
      database) is an [event] appended to a trace, and what the outside
      answers is read from a [world] of oracles;
    - a Python function is a computation in the monad [M], which threads the
      trace and either returns a value or raises a Python exception. *)

From Stdlib Require Import String Ascii List ZArith Lia Bool Arith.
From Stdlib Require Import DecimalString SpecFloat.
Import ListNotations.
Local Open Scope string_scope.
Local Open Scope Z_scope.

(** ** Python values *)

(** What [json.loads] can produce.  A [str] is kept as its UTF-8 text. *)
#[warnings="-register-all"]
Inductive value : Type :=
| VNone
| VBool (b : bool)
| VInt (n : Z)
| VFloat (f : spec_float)
| VStr (s : string)
| VList (items : list value)
| VDict (entries : list (string * value)).

(** Exceptions the script can meet.  [RequestException] stands for the whole
    [requests.exceptions.RequestException] family; [OtherException] for any
    other subclass of [Exception]; [BaseExceptionOther] for what is not an
    [Exception] ([KeyboardInterrupt] and the like). *)
Inductive exn : Type :=
| TypeError
| AttributeError
| KeyError (key : string)
| RequestException (msg : string)
| OtherException (name msg : string)
| SystemExit (code : Z)
| BaseExceptionOther (name : string).

Definition is_RequestException (e : exn) : bool :=
  match e with RequestException _ => true | _ => false end.

Definition is_Exception (e : exn) : bool :=
  match e with
  | SystemExit _ | BaseExceptionOther _ => false
  | _ => true
  end.

(** [str(e)] *)
Definition exn_str (e : exn) : string :=
  match e with
  | TypeError | AttributeError => ""
  | KeyError k => "'" ++ k ++ "'"
  | RequestException m => m
  | OtherException _ m => m
  | SystemExit c => NilZero.string_of_int (Z.to_int c)
  | BaseExceptionOther _ => ""
  end.

Inductive outcome (A : Type) : Type :=
| Ret (a : A)
| Raise (e : exn).
Arguments Ret {A} a.
Arguments Raise {A} e.

(** ** Strings: code points of UTF-8 text *)

Definition nl : string := String (ascii_of_nat 10) EmptyString.

(** The double quote, for JSON text. *)
Definition dq : string := String (ascii_of_nat 34) EmptyString.

(** A byte [10xxxxxx] continues the code point begun before it. *)
Definition is_continuation (c : ascii) : bool :=
  let n := nat_of_ascii c in (128 <=? n)%nat && (n <? 192)%nat.

(** [len(s)] for a [str]: the number of code points. *)
Fixpoint str_len (s : string) : nat :=
  match s with
  | EmptyString => 0%nat
  | String c s' => if is_continuation c then str_len s' else S (str_len s')
  end.

(** The continuation bytes at the head of [s], and what follows them. *)
Fixpoint split_continuation (s : string) : string * string :=
  match s with
  | String c s' =>
      if is_continuation c
      then let (h, t) := split_continuation s' in (String c h, t)
      else (EmptyString, s)
  | EmptyString => (EmptyString, EmptyString)
  end.

(** The code points of [s], each as a one-character [str] (what iterating a
    [str] yields). *)
Fixpoint str_chars_fuel (fuel : nat) (s : string) : list string :=
  match fuel, s with
  | S fuel', String c s' =>
      let (h, t) := split_continuation s' in
      String c h :: str_chars_fuel fuel' t
  | _, _ => []
  end.

Definition str_chars (s : string) : list string :=
  str_chars_fuel (String.length s) s.

(** [s[:n]] for a [str]. *)
Definition str_prefix (n : nat) (s : string) : string :=
  String.concat "" (firstn n (str_chars s)).

(** [sep.join(parts)] *)
Definition str_join (sep : string) (parts : list string) : string :=
  String.concat sep parts.

(** [s * n] *)
Fixpoint str_repeat (s : string) (n : nat) : string :=
  match n with
  | O => ""
  | S n' => s ++ str_repeat s n'
  end.

(** [str(n)] for an [int]. *)
Definition str_of_int (n : Z) : string := NilZero.string_of_int (Z.to_int n).

(** ** Built-ins on values *)

(** [d.get(key, default)] on the entries of a dict. *)
Fixpoint dict_get (entries : list (string * value)) (key : string) : option value :=
  match entries with
  | [] => None
  | (k, v) :: rest => if String.eqb k key then Some v else dict_get rest key
  end.

Definition dict_get_default (entries : list (string * value)) (key : string) (default : value) : value :=
  match dict_get entries key with
  | Some v => v
  | None => default
  end.

(** [obj.get(key, default)]: only a dict has the method. *)
Definition py_get (obj : value) (key : string) (default : value) : outcome value :=
  match obj with
  | VDict entries => Ret (dict_get_default entries key default)
  | _ => Raise AttributeError
  end.

(** [obj[key]] with a [str] key, as the script uses it on its own dicts. *)
Definition py_index (obj : value) (key : string) : outcome value :=
  match obj with
  | VDict entries =>
      match dict_get entries key with
      | Some v => Ret v
      | None => Raise (KeyError key)
      end
  | _ => Raise TypeError
  end.

(** [len(obj)] *)
Definition py_len (obj : value) : outcome Z :=
  match obj with
  | VList items => Ret (Z.of_nat (length items))
  | VStr s => Ret (Z.of_nat (str_len s))
  | VDict entries => Ret (Z.of_nat (length entries))
  | _ => Raise TypeError
  end.

(** [iter(obj)], unrolled: a list yields its items, a [str] its characters,
    a dict its keys. *)
Definition py_iter (obj : value) : outcome (list value) :=
  match obj with
  | VList items => Ret items
  | VStr s => Ret (map VStr (str_chars s))
  | VDict entries => Ret (map (fun kv => VStr (fst kv)) entries)
  | _ => Raise TypeError
  end.

(** ** The outside world *)

(** One [requests.get(url, headers=..., params=..., timeout=...)] call.  A
    header whose value is [None] (an unset API key) is kept as [None]. *)
Record request : Type := {
  req_url : string;
  req_headers : list (string * option string);
  req_params : list (string * string);
  req_timeout : Z
}.

(** What a GET comes back with: a response, whose [.json()] either decodes
    or raises, or an exception out of [requests.get] itself. *)
Inductive http_outcome : Type :=
| Response (status_code : Z) (text : string) (json : outcome value)
| RequestRaises (e : exn).

(** The handle [create_client] returns: where it points and with which
    key. *)
Record client : Type := {
  client_url : option string;
  client_key : option string
}.

(** What the script does to the outside, in the order it does it. *)
Inductive event : Type :=
| EvPrint (line : string)
| EvNow (stamp : string)
| EvGet (r : request)
| EvCreateClient (supabase_url supabase_key : option string)
| EvInsert (table : string) (payload : value).

Definition trace : Type := list event.

(** What the outside answers.  The clock, the HTTP server and the database
    may answer differently each time: they are indexed by how many
    readings, requests and inserts came before. *)
Record world : Type := {
  clock : nat -> string;
  http : nat -> request -> http_outcome;
  create_client : option string -> option string -> option exn;
  db_insert : nat -> string -> value -> option exn
}.

Definition is_now (ev : event) : bool :=
  match ev with EvNow _ => true | _ => false end.
Definition is_get (ev : event) : bool :=
  match ev with EvGet _ => true | _ => false end.
Definition is_insert (ev : event) : bool :=
  match ev with EvInsert _ _ => true | _ => false end.
Definition is_network (ev : event) : bool :=
  match ev with
  | EvGet _ | EvCreateClient _ _ | EvInsert _ _ => true
  | _ => false
  end.

(** The requests of a trace, in order. *)
Fixpoint gets (tr : trace) : list request :=
  match tr with
  | [] => []
  | EvGet r :: tr' => r :: gets tr'
  | _ :: tr' => gets tr'
  end.

(** The inserts of a trace, in order. *)
Fixpoint inserts (tr : trace) : list (string * value) :=
  match tr with
  | [] => []
  | EvInsert t p :: tr' => (t, p) :: inserts tr'
  | _ :: tr' => inserts tr'
  end.

Definition count (p : event -> bool) (tr : trace) : nat :=
  length (filter p tr).

(** ** Computations *)

Definition M (A : Type) : Type := world -> trace -> outcome A * trace.

Definition ret {A} (a : A) : M A := fun _ tr => (Ret a, tr).

Definition raise {A} (e : exn) : M A := fun _ tr => (Raise e, tr).

Definition bind {A B} (m : M A) (k : A -> M B) : M B :=
  fun w tr =>
    match m w tr with
    | (Ret a, tr') => k a w tr'
    | (Raise e, tr') => (Raise e, tr')
    end.

(** [try: m  except <caught>: handler] *)
Definition try_except {A} (m : M A) (caught : exn -> bool) (handler : exn -> M A) : M A :=
  fun w tr =>
    match m w tr with
    | (Raise e, tr') => if caught e then handler e w tr' else (Raise e, tr')
    | r => r
    end.

Definition lift {A} (o : outcome A) : M A :=
  match o with
  | Ret a => ret a
  | Raise e => raise e
  end.

Declare Scope py_scope.
Delimit Scope py_scope with py.
Notation "x <- m ;; k" := (bind m (fun x => k))
  (at level 61, m at next level, right associativity) : py_scope.
Notation "m ;; k" := (bind m (fun _ => k))
  (at level 61, right associativity) : py_scope.
Local Open Scope py_scope.

(** The trace after one more event. *)
Definition log (tr : trace) (ev : event) : trace := (tr ++ [ev])%list.

(** [print(line)] *)
Definition print (line : string) : M unit :=
  fun _ tr => (Ret tt, log tr (EvPrint line)).

(** [datetime.now().isoformat()] *)
Definition now_isoformat : M string :=
  fun w tr =>
    let stamp := clock w (count is_now tr) in
    (Ret stamp, log tr (EvNow stamp)).

(** [requests.get(...)] *)
Definition requests_get (r : request) : M http_outcome :=
  fun w tr => (Ret (http w (count is_get tr) r), log tr (EvGet r)).

(** [supabase.table(table).insert(payload).execute()] *)
Definition table_insert_execute (supabase : client) (table : string) (payload : value) : M unit :=
  fun w tr =>
    match db_insert w (count is_insert tr) table payload with
    | None => (Ret tt, log tr (EvInsert table payload))
    | Some e => (Raise e, log tr (EvInsert table payload))
    end.

(** [for x in xs: acc = body(acc, x)], the loop-carried variables passed
    explicitly. *)
Fixpoint for_fold {A S} (body : S -> A -> M S) (acc : S) (xs : list A) : M S :=
  match xs with
  | [] => ret acc
  | x :: xs' => acc' <- body acc x ;; for_fold body acc' xs'
  end.

(** [for x in xs: body(x)] where the body may [return] out of the enclosing
    function: [Some r] is a [return r], [None] falls through to the next
    item. *)
Fixpoint for_return {A R} (body : A -> M (option R)) (xs : list A) : M (option R) :=
  match xs with
  | [] => ret None
  | x :: xs' =>
      r <- body x ;;
      match r with
      | Some v => ret (Some v)
      | None => for_return body xs'
      end
  end.

(** [range(start, stop, step)] for a positive [step]. *)
Definition py_range (start stop step : Z) : list Z :=
  map (fun k => start + step * Z.of_nat k)
      (seq 0 (Z.to_nat ((stop - start + step - 1) / step))).

(** [xs[i:j]] for [0 <= i]: the slice is clamped to the list. *)
Definition py_slice {A} (xs : list A) (i j : Z) : list A :=
  firstn (Z.to_nat (j - i)) (skipn (Z.to_nat i) xs).

(** ** The script *)

(** *** Configuration *)

(** The three module-level [os.getenv] readings. *)
Record config : Type := {
  CREXI_API_KEY : option string;
  SUPABASE_URL : option string;
  SUPABASE_KEY : option string
}.

Definition CREXI_BASE_URL : string := "https://api.crexi.com".
Definition CREXI_STAGE_URL : string := "https://stage-api.crexi.com".

Definition TARGET_MARKET : string := "Los Angeles".
Definition PROPERTY_TYPES : list string :=
  ["Industrial"; "Warehouse"; "Flex"; "Distribution"].

(** [not x] for an [os.getenv] reading: unset, or set to the empty string. *)
Definition env_not (x : option string) : bool :=
  match x with
  | None => true
  | Some s => String.eqb s ""
  end.

(** An [os.getenv] reading inside an f-string. *)
Definition env_format (x : option string) : string :=
  match x with
  | None => "None"
  | Some s => s
  end.

(** [missing.append(name)] under [if not x:] *)
Definition append_if_not (x : option string) (name : string) (missing : list string) : list string :=
  if env_not x then (missing ++ [name])%list else missing.

(** The names [validate_environment] collects, in the order it tests them. *)
Definition missing_names (cfg : config) : list string :=
  let missing := [] in
  let missing := append_if_not (CREXI_API_KEY cfg) "CREXI_API_KEY" missing in
  let missing := append_if_not (SUPABASE_URL cfg) "SUPABASE_URL" missing in
  let missing := append_if_not (SUPABASE_KEY cfg) "SUPABASE_KEY" missing in
  missing.

(** [sys.exit(code)] *)
Definition sys_exit {A} (code : Z) : M A := raise (SystemExit code).

Definition validate_environment (cfg : config) : M unit :=
  let missing := missing_names cfg in
  match missing with
  | [] => ret tt
  | _ =>
      print ("❌ Missing required environment variables: " ++ str_join ", " missing) ;;
      print (nl ++ "Please set them in your environment or .env file:") ;;
      print "  export CREXI_API_KEY='your-api-key'" ;;
      print "  export SUPABASE_URL='your-supabase-url'" ;;
      print "  export SUPABASE_KEY='your-supabase-key'" ;;
      sys_exit 1
  end.

(** [create_client(SUPABASE_URL, SUPABASE_KEY)] *)
Definition get_supabase_client (cfg : config) : M client :=
  fun w tr =>
    let ev := EvCreateClient (SUPABASE_URL cfg) (SUPABASE_KEY cfg) in
    match create_client w (SUPABASE_URL cfg) (SUPABASE_KEY cfg) with
    | None =>
        (Ret {| client_url := SUPABASE_URL cfg; client_key := SUPABASE_KEY cfg |},
         log tr ev)
    | Some e => (Raise e, log tr ev)
    end.

(** *** Endpoint prober *)

Definition headers : Type := list (string * option string).

(** What [fetch_crexi_listings] returns: the dict with [success] true, or
    the one with [success] false. *)
Inductive probe_result : Type :=
| ProbeSuccess (endpoint : string) (hdrs : headers) (data : value)
| ProbeFailure (error : string).

Definition headers_options (cfg : config) : list headers :=
  [ [("Authorization", Some ("Bearer " ++ env_format (CREXI_API_KEY cfg)))];
    [("x-api-key", CREXI_API_KEY cfg)];
    [("api-key", CREXI_API_KEY cfg)] ].

Definition endpoint_options : list string :=
  [ "/v1/listings";
    "/v1/properties";
    "/api/v1/listings";
    "/api/v1/properties";
    "/listings";
    "/properties" ].

Definition base_urls : list string := [CREXI_BASE_URL; CREXI_STAGE_URL].

Definition params : list (string * string) :=
  [ ("market", TARGET_MARKET);
    ("propertyType", "Industrial");
    ("transactionType", "Lease");
    ("status", "Active") ].

Definition probe_request (url : string) (hdrs : headers) : request :=
  {| req_url := url; req_headers := hdrs; req_params := params; req_timeout := 10 |}.

(** The number line 103 puts in its message:
    [len(data.get('results', data.get('data', [])))]. *)
Definition received_count (data : value) : outcome Z :=
  match py_get data "data" (VList []) with
  | Raise e => Raise e
  | Ret from_data =>
      match py_get data "results" from_data with
      | Raise e => Raise e
      | Ret found => py_len found
      end
  end.

(** The body of the innermost loop (lines 95-121): [Some r] is the
    [return r] of line 104, [None] falls through to the next combination. *)
Definition attempt (base_url endpoint : string) (hdrs : headers) : M (option probe_result) :=
  let url := base_url ++ endpoint in
  try_except
    (print ("    Testing: " ++ url) ;;
     response <- requests_get (probe_request url hdrs) ;;
     match response with
     | RequestRaises e => raise e
     | Response status_code text json =>
         if status_code =? 200 then
           print "    ✅ Success! Found working endpoint" ;;
           data <- lift json ;;
           n <- lift (received_count data) ;;
           print ("    📊 Received " ++ str_of_int n ++ " listings") ;;
           ret (Some (ProbeSuccess url hdrs data))
         else if status_code =? 401 then
           print "    ❌ 401 Unauthorized" ;; ret None
         else if status_code =? 403 then
           print "    ❌ 403 Forbidden" ;; ret None
         else if status_code =? 404 then
           print "    ❌ 404 Not Found" ;; ret None
         else
           print ("    ❌ " ++ str_of_int status_code ++ ": " ++ str_prefix 100 text) ;;
           ret None
     end)
    is_RequestException
    (fun e =>
       print ("    ❌ Request failed: " ++ str_prefix 50 (exn_str e)) ;;
       ret None).

Definition fetch_crexi_listings (cfg : config) : M probe_result :=
  print (nl ++ "🔍 Fetching Crexi listings for " ++ TARGET_MARKET ++ "...") ;;
  print (nl ++ "🔑 Testing Crexi API authentication...") ;;
  found <-
    for_return (fun base_url =>
      print (nl ++ "  Trying base URL: " ++ base_url) ;;
      for_return (fun endpoint =>
        for_return (fun hdrs => attempt base_url endpoint hdrs)
                   (headers_options cfg))
        endpoint_options)
      base_urls ;;
  match found with
  | Some r => ret r
  | None =>
      print (nl ++ "❌ Could not find working Crexi API endpoint") ;;
      print (nl ++ "💡 Next steps:") ;;
      print "  1. Check Crexi API documentation for correct endpoint" ;;
      print "  2. Verify API key is activated for staging/production" ;;
      print "  3. Contact Crexi support for endpoint and authentication details" ;;
      ret (ProbeFailure "No working endpoint found")
  end.

(** *** Record builders *)

(** Line 140 and line 157: the three [get]s, innermost first. *)
Definition extract_listings (data : value) : outcome value :=
  match py_get data "listings" (VList []) with
  | Raise e => Raise e
  | Ret from_listings =>
      match py_get data "data" from_listings with
      | Raise e => Raise e
      | Ret from_data => py_get data "results" from_data
      end
  end.

(** Line 147 and line 162: [listing.get('suites', [listing])]. *)
Definition suite_list_of (listing : value) : outcome value :=
  py_get listing "suites" (VList [listing]).

(** The summand of line 147. *)
Definition suite_count (listing : value) : outcome Z :=
  match suite_list_of listing with
  | Raise e => Raise e
  | Ret suite_list => py_len suite_list
  end.

Definition process_market_snapshot (data : value) : M value :=
  listings <- lift (extract_listings data) ;;
  snapshot_date <- now_isoformat ;;
  total_properties <- lift (py_len listings) ;;
  items <- lift (py_iter listings) ;;
  total_suites <-
    for_fold (fun total listing =>
                n <- lift (suite_count listing) ;;
                ret (total + n))
             0 items ;;
  ret (VDict
         [ ("snapshot_date", VStr snapshot_date);
           ("market_area", VStr TARGET_MARKET);
           ("property_type", VStr "Industrial");
           ("total_properties", VInt total_properties);
           ("total_suites", VInt total_suites);
           ("notes", VStr "Synced from Crexi API");
           ("raw_data", data) ]).

Section Script.

(** [repr] of a float, a list or a dict is the interpreter's own: the script
    is modelled for any such function. *)
Variable py_repr : value -> string.

(** [str(obj)] *)
Definition py_str (obj : value) : string :=
  match obj with
  | VStr s => s
  | VNone => "None"
  | VBool true => "True"
  | VBool false => "False"
  | VInt n => str_of_int n
  | _ => py_repr obj
  end.

(** The dict built at lines 165-180 for one suite of one listing. *)
Definition suite_snapshot (listing suite : value) : M value :=
  snapshot_date <- now_isoformat ;;
  asset_alt <- lift (py_get listing "assetId" (VStr "")) ;;
  asset_id <- lift (py_get listing "id" asset_alt) ;;
  suite_alt <- lift (py_get suite "suiteId" (VStr "")) ;;
  suite_id <- lift (py_get suite "id" suite_alt) ;;
  property_type <- lift (py_get listing "propertyType" (VStr "Industrial")) ;;
  size_alt <- lift (py_get suite "squareFeet" VNone) ;;
  suite_size <- lift (py_get suite "size" size_alt) ;;
  rate_alt <- lift (py_get suite "leaseRate" VNone) ;;
  lease_rate <- lift (py_get suite "rate" rate_alt) ;;
  rate_type <- lift (py_get suite "rateType" (VStr "Monthly")) ;;
  status <- lift (py_get suite "status" (VStr "Active")) ;;
  address_alt <- lift (py_get suite "address" VNone) ;;
  address <- lift (py_get listing "address" address_alt) ;;
  city_alt <- lift (py_get suite "city" VNone) ;;
  city <- lift (py_get listing "city" city_alt) ;;
  state_alt <- lift (py_get suite "state" VNone) ;;
  state <- lift (py_get listing "state" state_alt) ;;
  zip_alt <- lift (py_get suite "zipCode" VNone) ;;
  zip <- lift (py_get listing "zip" zip_alt) ;;
  ret (VDict
         [ ("snapshot_date", VStr snapshot_date);
           ("crexi_asset_id", VStr (py_str asset_id));
           ("crexi_suite_id", VStr (py_str suite_id));
           ("market_area", VStr TARGET_MARKET);
           ("property_type", property_type);
           ("suite_size", suite_size);
           ("lease_rate", lease_rate);
           ("rate_type", rate_type);
           ("status", status);
           ("address", address);
           ("city", city);
           ("state", state);
           ("zip", zip);
           ("raw_data", suite) ]).

(** The body of the outer loop (lines 161-181); [suites] is the list the
    loops append to. *)
Definition expand_listing (suites : list value) (listing : value) : M (list value) :=
  suite_list <- lift (suite_list_of listing) ;;
  suite_items <- lift (py_iter suite_list) ;;
  for_fold (fun suites suite =>
              snapshot <- suite_snapshot listing suite ;;
              ret (suites ++ [snapshot])%list)
           suites suite_items.

Definition process_suite_snapshots (data : value) : M (list value) :=
  listings <- lift (extract_listings data) ;;
  items <- lift (py_iter listings) ;;
  for_fold expand_listing [] items.

(** *** Batch persister *)

Definition batch_size : Z := 100.

(** One turn of the loop of lines 202-205. *)
Definition insert_batch (supabase : client) (suite_snapshots : list value) (i : Z) : M unit :=
  let batch := py_slice suite_snapshots i (i + batch_size) in
  table_insert_execute supabase "crexi_suite_snapshots" (VList batch) ;;
  print ("  ✅ Inserted batch " ++ str_of_int (i / batch_size + 1)
         ++ " (" ++ str_of_int (Z.of_nat (length batch)) ++ " suites)").

Definition save_to_supabase (supabase : client) (market_snapshot : value) (suite_snapshots : list value) : M unit :=
  print (nl ++ "💾 Saving data to Supabase...") ;;
  try_except
    (print "  Inserting market snapshot..." ;;
     table_insert_execute supabase "crexi_market_snapshots" market_snapshot ;;
     print "  ✅ Market snapshot saved" ;;
     match suite_snapshots with
     | [] => ret tt
     | _ =>
         print ("  Inserting " ++ str_of_int (Z.of_nat (length suite_snapshots))
                ++ " suite snapshots...") ;;
         for_fold (fun _ i => insert_batch supabase suite_snapshots i) tt
                  (py_range 0 (Z.of_nat (length suite_snapshots)) batch_size)
     end ;;
     print (nl ++ "✅ All data saved successfully!"))
    is_Exception
    (fun e =>
       print (nl ++ "❌ Error saving to Supabase: " ++ exn_str e) ;;
       raise e).

(** *** Main *)

Definition main (cfg : config) : M unit :=
  print (str_repeat "=" 60) ;;
  print "🏭 Crexi to Supabase Sync - Los Angeles Industrial Listings" ;;
  print (str_repeat "=" 60) ;;
  validate_environment cfg ;;
  print (nl ++ "📊 Connecting to Supabase...") ;;
  supabase <- get_supabase_client cfg ;;
  print "✅ Connected to Supabase" ;;
  result <- fetch_crexi_listings cfg ;;
  match result with
  | ProbeFailure _ =>
      print (nl ++ "⚠️  Sync completed with errors. Check output above.") ;;
      sys_exit 1
  | ProbeSuccess _ _ data =>
      print (nl ++ "🔄 Processing API response...") ;;
      market_snapshot <- process_market_snapshot data ;;
      suite_snapshots <- process_suite_snapshots data ;;
      total_properties <- lift (py_index market_snapshot "total_properties") ;;
      print ("  Processed " ++ py_str total_properties ++ " properties") ;;
      print ("  Processed " ++ str_of_int (Z.of_nat (length suite_snapshots)) ++ " suites") ;;
      save_to_supabase supabase market_snapshot suite_snapshots ;;
      print (nl ++ str_repeat "=" 60) ;;
      print "✅ Sync completed successfully!" ;;
      print (str_repeat "=" 60) ;;
      print (nl ++ "📈 Summary:") ;;
      print ("  Market: " ++ TARGET_MARKET) ;;
      total_properties <- lift (py_index market_snapshot "total_properties") ;;
      print ("  Properties: " ++ py_str total_properties) ;;
      print ("  Suites: " ++ str_of_int (Z.of_nat (length suite_snapshots))) ;;
      snapshot_date <- lift (py_index market_snapshot "snapshot_date") ;;
      print ("  Timestamp: " ++ py_str snapshot_date) ;;
      print ""
  end.

End Script.

(** ** Reference definitions

    What the specification says, in its own words, next to what the code
    computes, and the vocabulary the theorems are stated in. *)

Definition is_dict (obj : value) : bool :=
  match obj with VDict _ => true | _ => false end.

(** [key] is present in [obj] and holds a non-empty array. *)
Definition nonempty_array_at (obj : value) (key : string) : option (list value) :=
  match obj with
  | VDict entries =>
      match dict_get entries key with
      | Some (VList (x :: xs)) => Some (x :: xs)
      | _ => None
      end
  | _ => None
  end.

(** Specification, section 4.3: "the suite list is [listing.suites] if
    present and non-empty, else a single-element list containing the listing
    itself". *)
Definition spec_suite_list (listing : value) : list value :=
  match nonempty_array_at listing "suites" with
  | Some suites => suites
  | None => [listing]
  end.

(** Specification, section 4.3: "checking keys in fixed priority order:
    [results], then [data], then [listings], defaulting to an empty sequence
    if none are present as non-empty arrays". *)
Definition spec_extract_listings (data : value) : list value :=
  match nonempty_array_at data "results" with
  | Some l => l
  | None =>
      match nonempty_array_at data "data" with
      | Some l => l
      | None =>
          match nonempty_array_at data "listings" with
          | Some l => l
          | None => []
          end
      end
  end.

(** Specification, section 4.4: "sum over listings of (count of that
    listing's suite list, per the 4.3 fallback rule - minimum 1 per
    listing)". *)
Definition spec_total_suites (listings : list value) : Z :=
  fold_right (fun listing total => Z.of_nat (length (spec_suite_list listing)) + total)
             0 listings.

(** The listings a builder loops over. *)
Definition listing_items (data : value) : outcome (list value) :=
  match extract_listings data with
  | Raise e => Raise e
  | Ret listings => py_iter listings
  end.

(** The suites the suite builder loops over for one listing. *)
Definition suite_items (listing : value) : outcome (list value) :=
  match suite_list_of listing with
  | Raise e => Raise e
  | Ret suite_list => py_iter suite_list
  end.

(** A listing the suite builder can expand: an object whose [suites], when
    present, is an array of objects. *)
Definition listing_ok (listing : value) : bool :=
  match listing with
  | VDict entries =>
      match dict_get entries "suites" with
      | None => true
      | Some (VList suites) => forallb is_dict suites
      | Some _ => false
      end
  | _ => false
  end.

(** A payload of the expected shape: an object whose listings are an array
    of such listings. *)
Definition well_shaped (data : value) : bool :=
  match extract_listings data with
  | Ret (VList listings) => forallb listing_ok listings
  | _ => false
  end.

Definition sum_Z (ns : list Z) : Z := fold_right Z.add 0 ns.

(** [record] is what the suite builder makes of [suite] under [listing], at
    some reading of the clock. *)
Definition snapshot_of (py_repr : value -> string) (listing suite record : value) : Prop :=
  exists w tr tr', suite_snapshot py_repr listing suite w tr = (Ret record, tr').

(** The records the suite builder makes of one listing: one per suite. *)
Definition records_of (py_repr : value -> string) (listing : value) (records : list value) : Prop :=
  exists suites,
    suite_items listing = Ret suites /\
    Forall2 (snapshot_of py_repr listing) suites records.


(** The count of one listing in line 147, spelled out: the length of what
    [suites] holds when the key is there, and 1 when it is not. *)
Definition suite_count_rule (listing : value) (n : Z) : Prop :=
  exists entries,
    listing = VDict entries /\
    match dict_get entries "suites" with
    | Some suites => py_len suites = Ret n
    | None => n = 1
    end.

(** [record] was made of a suite object under one of [listings]; its two
    identifiers are present and hold the [str()] of the listing's [id], else
    [assetId], and of the suite's [id], else [suiteId], and the empty string
    where neither key is there. *)
Definition identifiers_coerced (py_repr : value -> string) (listings : list value) (record : value) : Prop :=
  exists le se asset_id suite_id,
    In (VDict le) listings /\
    snapshot_of py_repr (VDict le) (VDict se) record /\
    py_index record "crexi_asset_id" = Ret (VStr asset_id) /\
    py_index record "crexi_suite_id" = Ret (VStr suite_id) /\
    asset_id = py_str py_repr (dict_get_default le "id" (dict_get_default le "assetId" (VStr ""))) /\
    suite_id = py_str py_repr (dict_get_default se "id" (dict_get_default se "suiteId" (VStr ""))) /\
    (dict_get le "id" = None -> dict_get le "assetId" = None -> asset_id = "") /\
    (dict_get se "id" = None -> dict_get se "suiteId" = None -> suite_id = "").

(** [record] was made of a suite object, which it keeps as [raw_data]; a
    numeric field is [None] where the suite has neither of its two keys. *)
Definition numeric_fields_propagated (py_repr : value -> string) (listings : list value) (record : value) : Prop :=
  exists le se,
    In (VDict le) listings /\
    snapshot_of py_repr (VDict le) (VDict se) record /\
    py_index record "raw_data" = Ret (VDict se) /\
    py_index record "suite_size"
    = Ret (dict_get_default se "size" (dict_get_default se "squareFeet" VNone)) /\
    py_index record "lease_rate"
    = Ret (dict_get_default se "rate" (dict_get_default se "leaseRate" VNone)) /\
    (dict_get se "size" = None -> dict_get se "squareFeet" = None ->
     py_index record "suite_size" = Ret VNone) /\
    (dict_get se "rate" = None -> dict_get se "leaseRate" = None ->
     py_index record "lease_rate" = Ret VNone).

(** [record] is the record made of the suite object [suite], under one of
    [listings]: it keeps [suite] as [raw_data], and each of its two numeric
    fields holds what the suite's first present key of the two holds, so
    [None] where the suite has neither key. *)
Definition suite_numbers_propagated (py_repr : value -> string) (listings : list value) (suite record : value) : Prop :=
  exists le se,
    In (VDict le) listings /\
    suite = VDict se /\
    snapshot_of py_repr (VDict le) suite record /\
    py_index record "raw_data" = Ret suite /\
    py_index record "suite_size"
    = Ret (dict_get_default se "size" (dict_get_default se "squareFeet" VNone)) /\
    py_index record "lease_rate"
    = Ret (dict_get_default se "rate" (dict_get_default se "leaseRate" VNone)) /\
    (dict_get se "size" = None -> dict_get se "squareFeet" = None ->
     py_index record "suite_size" = Ret VNone) /\
    (dict_get se "rate" = None -> dict_get se "leaseRate" = None ->
     py_index record "lease_rate" = Ret VNone).

(** ** Vocabulary for the prober *)

(** One (base URL, endpoint path, header scheme) combination. *)
Definition combination : Type := (string * string * headers)%type.

(** The combinations in the order of the three nested loops. *)
Definition combinations (cfg : config) : list combination :=
  flat_map (fun base_url =>
    flat_map (fun endpoint =>
      flat_map (fun hdrs => [(base_url, endpoint, hdrs)]) (headers_options cfg))
      endpoint_options)
    base_urls.

Definition combination_url (c : combination) : string :=
  let '(base_url, endpoint, _) := c in base_url ++ endpoint.

Definition combination_headers (c : combination) : headers :=
  let '(_, _, hdrs) := c in hdrs.

Definition combination_request (c : combination) : request :=
  probe_request (combination_url c) (combination_headers c).

(** An answer the loop recovers from: a transport failure, or a status
    other than 200. *)
Definition recoverable (answer : http_outcome) : bool :=
  match answer with
  | RequestRaises e => is_RequestException e
  | Response status_code _ _ => negb (status_code =? 200)
  end.

(** How one attempt ends, given the answer to its request: [Ret None] goes
    on to the next combination, [Ret (Some r)] returns [r], [Raise e] leaves
    the prober with [e]. *)
Definition attempt_outcome (c : combination) (answer : http_outcome) : outcome (option probe_result) :=
  let swallow e := if is_RequestException e then Ret None else Raise e in
  match answer with
  | RequestRaises e => swallow e
  | Response status_code _ json =>
      if status_code =? 200 then
        match json with
        | Raise e => swallow e
        | Ret data =>
            match received_count data with
            | Raise e => swallow e
            | Ret _ => Ret (Some (ProbeSuccess (combination_url c) (combination_headers c) data))
            end
        end
      else Ret None
  end.

(** The attempts over [cs], the first of them being request number [n]: how
    the scan ends, and after how many attempts. *)
Fixpoint probe_scan (w : world) (n : nat) (cs : list combination) : outcome (option probe_result) * nat :=
  match cs with
  | [] => (Ret None, 0%nat)
  | c :: cs' =>
      match attempt_outcome c (http w n (combination_request c)) with
      | Ret None => let (o, k) := probe_scan w (S n) cs' in (o, S k)
      | o => (o, 1%nat)
      end
  end.

(** The computation [m] runs the attempts over [cs]: it issues their
    requests, in order, up to the one that ends the scan, inserts nothing,
    and ends as the scan does. *)
Definition probes (m : M (option probe_result)) (cs : list combination) : Prop :=
  forall w tr,
  exists evs,
    snd (m w tr) = (tr ++ evs)%list /\
    inserts evs = [] /\
    fst (m w tr) = fst (probe_scan w (count is_get tr) cs) /\
    gets evs = map combination_request (firstn (snd (probe_scan w (count is_get tr) cs)) cs).

(** ** Vocabulary for the persister *)

(** The batches of lines 202-203, in order. *)
Definition batches (suite_snapshots : list value) : list (list value) :=
  map (fun i => py_slice suite_snapshots i (i + batch_size))
      (py_range 0 (Z.of_nat (length suite_snapshots)) batch_size).

(** The inserts [save_to_supabase] sets out to make, in order: the market
    snapshot, then one insert per batch. *)
Definition planned_inserts (market_snapshot : value) (suite_snapshots : list value) : list (string * value) :=
  ("crexi_market_snapshots", market_snapshot)
  :: map (fun batch => ("crexi_suite_snapshots", VList batch)) (batches suite_snapshots).

(** The first of the inserts [plan] that the database refuses, and with
    which exception, the first insert of [plan] being insert number [n]. *)
Fixpoint first_refusal (w : world) (n : nat) (plan : list (string * value)) : option (nat * exn) :=
  match plan with
  | [] => None
  | (table, payload) :: rest =>
      match db_insert w n table payload with
      | Some e => Some (0%nat, e)
      | None =>
          match first_refusal w (S n) rest with
          | Some (k, e) => Some (S k, e)
          | None => None
          end
      end
  end.

(** A computation that inserts nothing. *)
Definition quiet {A} (m : M A) : Prop :=
  forall w tr, exists evs, snd (m w tr) = (tr ++ evs)%list /\ inserts evs = [].

(** A computation that stops at the first insert the database refuses, and
    raises what the database raised. *)
Definition stops_at_refusal {A} (m : M A) : Prop :=
  forall w tr,
  exists evs,
    snd (m w tr) = (tr ++ evs)%list /\
    match first_refusal w (count is_insert tr) (inserts evs) with
    | None => True
    | Some (k, e) => S k = length (inserts evs) /\ fst (m w tr) = Raise e
    end.

(** ** Vocabulary for the configuration loader *)

(** The three required variables, by name. *)
Definition required_variables : list (string * (config -> option string)) :=
  [ ("CREXI_API_KEY", CREXI_API_KEY);
    ("SUPABASE_URL", SUPABASE_URL);
    ("SUPABASE_KEY", SUPABASE_KEY) ].

(** The names of the required variables that are unset or empty. *)
Definition unset_names (cfg : config) : list string :=
  map fst (filter (fun variable => env_not (snd variable cfg)) required_variables).

(** ** Sample payloads, configurations and worlds *)

(** [{"results": [{"id": "A1", "suites": [{"id":"S1","size":1000},
    {"id":"S2","size":2000}]}]}] *)
Definition payload_A1 : value :=
  VDict [("results",
          VList [VDict [("id", VStr "A1");
                        ("suites",
                         VList [VDict [("id", VStr "S1"); ("size", VInt 1000)];
                                VDict [("id", VStr "S2"); ("size", VInt 2000)]])]])].

(** [{"data": [{"assetId":"A2","squareFeet":500}]}] *)
Definition listing_A2 : value :=
  VDict [("assetId", VStr "A2"); ("squareFeet", VInt 500)].
Definition payload_A2 : value := VDict [("data", VList [listing_A2])].

(** [{"suites": []}]: a listing that lists no suite. *)
Definition listing_no_suite : value := VDict [("suites", VList [])].

(** [{"results": [{"suites": []}]}] *)
Definition payload_no_suite : value := VDict [("results", VList [listing_no_suite])].

(** [{"results": [], "data": [{"id": 1}]}] *)
Definition payload_empty_results : value :=
  VDict [("results", VList []); ("data", VList [VDict [("id", VInt 1)]])].

(** A world in which every request is answered 404 and every insert is
    accepted. *)
Definition sample_world : world :=
  {| clock := fun _ => "2025-01-01T00:00:00.000000";
     http := fun _ _ => Response 404 "Not Found" (Raise (RequestException "Expecting value"));
     create_client := fun _ _ => None;
     db_insert := fun _ _ _ => None |}.

(** A [repr] to run the script with where one is needed. *)
Definition sample_repr (obj : value) : string := "<repr>".

(** A world in which the first five requests are answered 404 and every
    later one 200 with an empty [results] array. *)
Definition sixth_answers_world : world :=
  {| clock := fun _ => "2025-01-01T00:00:00.000000";
     http := fun n _ =>
       if (n <? 5)%nat
       then Response 404 "Not Found" (Raise (RequestException "Expecting value"))
       else Response 200 ("{" ++ dq ++ "results" ++ dq ++ ": []}")
                         (Ret (VDict [("results", VList [])]));
     create_client := fun _ _ => None;
     db_insert := fun _ _ _ => None |}.

(** A world in which the first eighteen requests are answered 404 and every
    later one 200. *)
Definition nineteenth_answers_world : world :=
  {| clock := fun _ => "2025-01-01T00:00:00.000000";
     http := fun n _ =>
       if (n <? 18)%nat
       then Response 404 "Not Found" (Raise (RequestException "Expecting value"))
       else Response 200 ("{" ++ dq ++ "results" ++ dq ++ ": []}")
                         (Ret (VDict [("results", VList [])]));
     create_client := fun _ _ => None;
     db_insert := fun _ _ _ => None |}.

(** A world in which every request is answered 200 with the body
    [{"results": null}]. *)
Definition null_results_world : world :=
  {| clock := fun _ => "2025-01-01T00:00:00.000000";
     http := fun _ _ => Response 200 ("{" ++ dq ++ "results" ++ dq ++ ": null}")
                                 (Ret (VDict [("results", VNone)]));
     create_client := fun _ _ => None;
     db_insert := fun _ _ _ => None |}.

Definition sample_client : client :=
  {| client_url := Some "https://project.supabase.co"; client_key := Some "secret" |}.

Definition sample_config : config :=
  {| CREXI_API_KEY := Some "key";
     SUPABASE_URL := Some "https://project.supabase.co";
     SUPABASE_KEY := Some "secret" |}.

(** A world whose database refuses the first insert. *)
Definition refusing_world : world :=
  {| clock := fun _ => "2025-01-01T00:00:00.000000";
     http := fun _ _ => Response 404 "Not Found" (Raise (RequestException "Expecting value"));
     create_client := fun _ _ => None;
     db_insert := fun n _ _ =>
       match n with
       | O => Some (OtherException "APIError" "permission denied")
       | _ => None
       end |}.

(** A configuration with only the database URL set. *)
Definition url_only_config : config :=
  {| CREXI_API_KEY := None;
     SUPABASE_URL := Some "https://project.supabase.co";
     SUPABASE_KEY := Some "" |}.

(** ** Vocabulary for the further properties *)

(** What a record builder may do and raise: it only reads the clock, and
    what it raises is a [TypeError] or an [AttributeError]. *)
Definition clock_only {A} (m : M A) : Prop :=
  forall w tr,
  exists evs,
    snd (m w tr) = (tr ++ evs)%list /\
    Forall (fun ev => is_now ev = true) evs /\
    forall e, fst (m w tr) = Raise e -> e = TypeError \/ e = AttributeError.

(** The readings of the clock from number [n] on, [k] of them. *)
Definition clock_readings (w : world) (n k : nat) : list string :=
  map (fun i => clock w (n + i)%nat) (seq 0 k).

(** The requests of the prober all look alike: the fixed query parameters,
    the 10-second timeout, and one header. *)
Definition probe_shaped (r : request) : Prop :=
  req_params r = params /\ req_timeout r = 10 /\ length (req_headers r) = 1%nat.

(** A world in which every request is interrupted from the keyboard. *)
Definition interrupted_world : world :=
  {| clock := fun _ => "2025-01-01T00:00:00.000000";
     http := fun _ _ => RequestRaises (BaseExceptionOther "KeyboardInterrupt");
     create_client := fun _ _ => None;
     db_insert := fun _ _ _ => None |}.

(** A world in which every request is answered 200 with a body that is not
    JSON, which [response.json()] reports with an exception of the
    [RequestException] family. *)
Definition undecodable_world : world :=
  {| clock := fun _ => "2025-01-01T00:00:00.000000";
     http := fun _ _ => Response 200 "<html>" (Raise (RequestException "Expecting value"));
     create_client := fun _ _ => None;
     db_insert := fun _ _ _ => None |}.

(** A run from [(acc, tr)] to [(out, tr')] that appended records to [acc],
    reading the clock once for each and dating each with its own reading. *)
Definition stamped (w : world) (tr : trace) (acc out : list value) (tr' : trace) : Prop :=
  exists records,
    let stamps := clock_readings w (count is_now tr) (length records) in
    out = (acc ++ records)%list /\
    tr' = (tr ++ map EvNow stamps)%list /\
    map (fun record => py_index record "snapshot_date") records
    = map (fun stamp => Ret (VStr stamp)) stamps.

(** [group] holds the records of [listing]; when [listing] has no [suites]
    key, that is one record, made of the listing itself, and a listing [id]
    is then the asset identifier and the suite identifier at once. *)
Definition own_suite_record (py_repr : value -> string) (listing : value) (group : list value) : Prop :=
  forall le,
    listing = VDict le ->
    dict_get le "suites" = None ->
    exists record,
      group = [record] /\
      py_index record "raw_data" = Ret listing /\
      forall v,
        dict_get le "id" = Some v ->
        py_index record "crexi_asset_id" = Ret (VStr (py_str py_repr v)) /\
        py_index record "crexi_suite_id" = Ret (VStr (py_str py_repr v)).

(** [record] was made of a suite object under one of [listings], and
    wherever the key a field looks up first is present, the field holds what
    that key holds, [None] included, whatever the alternate key holds. *)
Definition preferred_keys_win (py_repr : value -> string) (listings : list value) (record : value) : Prop :=
  exists le se,
    In (VDict le) listings /\
    snapshot_of py_repr (VDict le) (VDict se) record /\
    (forall v, dict_get le "id" = Some v ->
               py_index record "crexi_asset_id" = Ret (VStr (py_str py_repr v))) /\
    (forall v, dict_get se "id" = Some v ->
               py_index record "crexi_suite_id" = Ret (VStr (py_str py_repr v))) /\
    (dict_get le "id" = Some VNone -> py_index record "crexi_asset_id" = Ret (VStr "None")) /\
    (forall v, dict_get se "size" = Some v -> py_index record "suite_size" = Ret v) /\
    (forall v, dict_get se "rate" = Some v -> py_index record "lease_rate" = Ret v) /\
    (forall v, dict_get le "address" = Some v -> py_index record "address" = Ret v) /\
    (forall v, dict_get le "city" = Some v -> py_index record "city" = Ret v) /\
    (forall v, dict_get le "state" = Some v -> py_index record "state" = Ret v) /\
    (forall v, dict_get le "zip" = Some v -> py_index record "zip" = Ret v).

(** [record] was made of a suite object under one of [listings]; a shared
    field the listing lacks comes from the suite ([zip] from the suite's
    [zipCode]) and is [None] when the suite lacks it too; the other fields
    have their defaults. *)
Definition fallbacks_and_defaults (py_repr : value -> string) (listings : list value) (record : value) : Prop :=
  exists le se,
    In (VDict le) listings /\
    snapshot_of py_repr (VDict le) (VDict se) record /\
    (dict_get le "address" = None ->
     py_index record "address" = Ret (dict_get_default se "address" VNone)) /\
    (dict_get le "city" = None ->
     py_index record "city" = Ret (dict_get_default se "city" VNone)) /\
    (dict_get le "state" = None ->
     py_index record "state" = Ret (dict_get_default se "state" VNone)) /\
    (dict_get le "zip" = None ->
     py_index record "zip" = Ret (dict_get_default se "zipCode" VNone)) /\
    py_index record "rate_type" = Ret (dict_get_default se "rateType" (VStr "Monthly")) /\
    py_index record "status" = Ret (dict_get_default se "status" (VStr "Active")) /\
    py_index record "property_type"
    = Ret (dict_get_default le "propertyType" (VStr "Industrial")) /\
    py_index record "market_area" = Ret (VStr "Los Angeles").

(** A computation whose inserts, however it ends, are the first few of the
    inserts of one plan: a market snapshot, then batches of suite
    snapshots. *)
Definition follows_plan {A} (m : M A) : Prop :=
  forall w tr,
  exists evs market suites j,
    snd (m w tr) = (tr ++ evs)%list /\
    inserts evs = firstn j (planned_inserts market suites).

(** What the script has done when it turns to the prober: its banner, and
    the creation of the database client. *)
Definition opening_events (cfg : config) : list event :=
  [ EvPrint (str_repeat "=" 60);
    EvPrint "🏭 Crexi to Supabase Sync - Los Angeles Industrial Listings";
    EvPrint (str_repeat "=" 60);
    EvPrint (nl ++ "📊 Connecting to Supabase...");
    EvCreateClient (SUPABASE_URL cfg) (SUPABASE_KEY cfg) ].

(** A world in which the database client cannot be created. *)
Definition no_client_world : world :=
  {| clock := fun _ => "2025-01-01T00:00:00.000000";
     http := fun _ _ => Response 404 "Not Found" (Raise (RequestException "Expecting value"));
     create_client := fun _ _ => Some (OtherException "SupabaseException" "Invalid URL");
     db_insert := fun _ _ _ => None |}.

(** A computation that sends no request. *)
Definition sends_nothing {A} (m : M A) : Prop :=
  forall w tr, exists evs, snd (m w tr) = (tr ++ evs)%list /\ gets evs = [].

(** A world whose first request is answered 200 with the A1 payload of the
    specification, and whose database accepts everything. *)
Definition serving_world : world :=
  {| clock := fun n => ("2025-01-01T00:00:0" ++ str_of_int (Z.of_nat n))%string;
     http := fun _ _ => Response 200 "" (Ret payload_A1);
     create_client := fun _ _ => None;
     db_insert := fun _ _ _ => None |}.

(** [{"results": [5]}]: a payload whose one listing is not an object. *)
Definition payload_number_listing : value := VDict [("results", VList [VInt 5])].

(** A world whose first request is answered 200 with that payload. *)
Definition malformed_world : world :=
  {| clock := fun _ => "2025-01-01T00:00:00.000000";
     http := fun _ _ => Response 200 "" (Ret payload_number_listing);
     create_client := fun _ _ => None;
     db_insert := fun _ _ _ => None |}.
(** ** Strings *)

Example str_len_code_points : str_len "❌ ok" = 4%nat.
Proof. reflexivity. Qed.

Example str_prefix_code_points : str_prefix 2 "❌ ok" = "❌ ".
Proof. reflexivity. Qed.

Example str_chars_code_points : str_chars "❌ ok" = ["❌"; " "; "o"; "k"].
Proof. reflexivity. Qed.

Example str_of_int_decimal :
  str_of_int 0 = "0" /\ str_of_int 404 = "404" /\ str_of_int (-7) = "-7".
Proof. repeat split. Qed.

Example py_range_by_100 : py_range 0 250 100 = [0; 100; 200].
Proof. reflexivity. Qed.

(** ** Running computations *)

Lemma bind_run {A B} (m : M A) (k : A -> M B) w tr :
  bind m k w tr =
  match m w tr with
  | (Ret a, tr') => k a w tr'
  | (Raise e, tr') => (Raise e, tr')
  end.
Proof. reflexivity. Qed.

Lemma bind_Ret_inv {A B} (m : M A) (k : A -> M B) w tr b tr2 :
  bind m k w tr = (Ret b, tr2) ->
  exists a tr1, m w tr = (Ret a, tr1) /\ k a w tr1 = (Ret b, tr2).
Proof.
  rewrite bind_run. destruct (m w tr) as [[a | e] tr1]; intro H.
  - exists a, tr1. split; [reflexivity | exact H].
  - discriminate H.
Qed.

Lemma lift_run {A} (o : outcome A) w tr : lift o w tr = (o, tr).
Proof. destruct o; reflexivity. Qed.

Lemma lift_Ret_inv {A} (o : outcome A) w tr a tr' :
  lift o w tr = (Ret a, tr') -> o = Ret a /\ tr' = tr.
Proof. rewrite lift_run. intro H. inversion H. split; reflexivity. Qed.

(** Peel the leading step off a run that returned. *)
Tactic Notation "bind_inv" hyp(H) "as" ident(a) ident(tr1) ident(Hm) :=
  apply bind_Ret_inv in H; destruct H as (a & tr1 & Hm & H).

(** The same for a leading pure step, which leaves the trace alone. *)
Tactic Notation "lift_inv" hyp(H) "as" ident(a) ident(Hm) :=
  let tr1 := fresh "tr" in
  apply bind_Ret_inv in H; destruct H as (a & tr1 & Hm & H);
  apply lift_Ret_inv in Hm; destruct Hm as [Hm ->].

(** A loop whose body only appends to its accumulator returns the
    accumulator followed by one group per item. *)
Lemma for_fold_collect {A B} (body : list B -> A -> M (list B)) (R : A -> list B -> Prop) :
  (forall acc x w tr out tr',
      body acc x w tr = (Ret out, tr') -> exists ys, out = (acc ++ ys)%list /\ R x ys) ->
  forall xs acc w tr out tr',
    for_fold body acc xs w tr = (Ret out, tr') ->
    exists groups, out = (acc ++ concat groups)%list /\ Forall2 R xs groups.
Proof.
  intros Hbody xs. induction xs as [| x xs IH]; intros acc w tr out tr' H.
  - inversion H; subst. exists []. split; [now rewrite app_nil_r | constructor].
  - simpl in H. bind_inv H as acc1 tr1 Hstep.
    destruct (Hbody _ _ _ _ _ _ Hstep) as (ys & -> & Hx).
    destruct (IH _ _ _ _ _ H) as (groups & -> & Hgs).
    exists (ys :: groups). split; [simpl; now rewrite app_assoc | now constructor].
Qed.

(** ** The record builders *)

Lemma py_get_dict entries key default :
  py_get (VDict entries) key default = Ret (dict_get_default entries key default).
Proof. reflexivity. Qed.

Lemma py_get_Ret_inv obj key default v :
  py_get obj key default = Ret v ->
  exists entries, obj = VDict entries /\ v = dict_get_default entries key default.
Proof.
  destruct obj; simpl; intro H; try discriminate H.
  inversion H. eexists. split; reflexivity.
Qed.

Lemma extract_listings_dict entries :
  extract_listings (VDict entries) =
  Ret (dict_get_default entries "results"
         (dict_get_default entries "data"
            (dict_get_default entries "listings" (VList [])))).
Proof. reflexivity. Qed.

Lemma extract_listings_Ret_inv data listings :
  extract_listings data = Ret listings -> exists entries, data = VDict entries.
Proof.
  destruct data; simpl; intro H; try discriminate H. eexists; reflexivity.
Qed.

Lemma str_chars_nil s : str_chars s = [] -> s = "".
Proof.
  destruct s as [| c s]; [reflexivity |].
  unfold str_chars. simpl. destruct (split_continuation s). discriminate.
Qed.

Lemma str_len_empty : str_len "" = 0%nat.
Proof. reflexivity. Qed.

(** What one suite record holds, read off the dict literal of lines
    165-180. *)
Lemma suite_snapshot_dict py_repr le se w tr :
  suite_snapshot py_repr (VDict le) (VDict se) w tr =
  (Ret (VDict
     [ ("snapshot_date", VStr (clock w (count is_now tr)));
       ("crexi_asset_id",
        VStr (py_str py_repr (dict_get_default le "id" (dict_get_default le "assetId" (VStr "")))));
       ("crexi_suite_id",
        VStr (py_str py_repr (dict_get_default se "id" (dict_get_default se "suiteId" (VStr "")))));
       ("market_area", VStr TARGET_MARKET);
       ("property_type", dict_get_default le "propertyType" (VStr "Industrial"));
       ("suite_size", dict_get_default se "size" (dict_get_default se "squareFeet" VNone));
       ("lease_rate", dict_get_default se "rate" (dict_get_default se "leaseRate" VNone));
       ("rate_type", dict_get_default se "rateType" (VStr "Monthly"));
       ("status", dict_get_default se "status" (VStr "Active"));
       ("address", dict_get_default le "address" (dict_get_default se "address" VNone));
       ("city", dict_get_default le "city" (dict_get_default se "city" VNone));
       ("state", dict_get_default le "state" (dict_get_default se "state" VNone));
       ("zip", dict_get_default le "zip" (dict_get_default se "zipCode" VNone));
       ("raw_data", VDict se) ]),
   log tr (EvNow (clock w (count is_now tr)))).
Proof. reflexivity. Qed.

Lemma suite_snapshot_Ret_inv py_repr listing suite w tr record tr' :
  suite_snapshot py_repr listing suite w tr = (Ret record, tr') ->
  exists le se, listing = VDict le /\ suite = VDict se.
Proof.
  intro H. destruct listing; try discriminate H.
  destruct suite; try discriminate H.
  eexists _, _. split; reflexivity.
Qed.

Lemma expand_listing_Ret py_repr acc listing w tr out tr' :
  expand_listing py_repr acc listing w tr = (Ret out, tr') ->
  exists records, out = (acc ++ records)%list /\ records_of py_repr listing records.
Proof.
  unfold expand_listing. intro H.
  lift_inv H as suite_list Hsl.
  lift_inv H as suites Hit.
  apply (for_fold_collect _ (fun s ys => exists r, ys = [r] /\ snapshot_of py_repr listing s r)) in H.
  - destruct H as (groups & -> & Hgs).
    exists (concat groups). split; [reflexivity |].
    exists suites. split.
    + unfold suite_items. rewrite Hsl. exact Hit.
    + clear - Hgs. induction Hgs as [| s g ss gs (r & -> & Hr) _ IH]; simpl.
      * constructor.
      * constructor; assumption.
  - clear. intros acc x w tr out tr' H.
    bind_inv H as r tr1 Hstep. inversion H; subst.
    exists [r]. split; [reflexivity |].
    exists r. split; [reflexivity |]. exists w, tr, tr'. exact Hstep.
Qed.

(** The suite builder returns, listing by listing, the records of each
    listing. *)
Lemma process_suite_snapshots_Ret py_repr data w tr records tr' :
  process_suite_snapshots py_repr data w tr = (Ret records, tr') ->
  exists listings groups,
    listing_items data = Ret listings /\
    records = concat groups /\
    Forall2 (records_of py_repr) listings groups.
Proof.
  unfold process_suite_snapshots. intro H.
  lift_inv H as listings Hex.
  lift_inv H as items Hit.
  apply (for_fold_collect _ (records_of py_repr)) in H.
  - destruct H as (groups & -> & Hgs).
    exists items, groups. repeat split; [| exact Hgs].
    unfold listing_items. rewrite Hex. exact Hit.
  - intros acc x w0 tr0 out tr0' Hx. eapply expand_listing_Ret. exact Hx.
Qed.

(** A loop returns when its body returns on every item. *)
Lemma for_fold_returns {A S} (body : S -> A -> M S) (P : A -> Prop) :
  (forall acc x w tr, P x -> exists out tr', body acc x w tr = (Ret out, tr')) ->
  forall xs, Forall P xs ->
  forall acc w tr, exists out tr', for_fold body acc xs w tr = (Ret out, tr').
Proof.
  intros Hbody xs HP. induction HP as [| x xs Hx _ IH]; intros acc w tr.
  - exists acc, tr. reflexivity.
  - destruct (Hbody acc x w tr Hx) as (out1 & tr1 & H1).
    destruct (IH out1 w tr1) as (out & tr' & H).
    exists out, tr'. simpl. rewrite bind_run, H1. exact H.
Qed.

Lemma suite_count_dict entries :
  suite_count (VDict entries) =
  py_len (dict_get_default entries "suites" (VList [VDict entries])).
Proof. reflexivity. Qed.

(** The generator sum of line 147 leaves the trace alone and adds one count
    per listing. *)
Lemma sum_loop_Ret items : forall start w tr total tr',
  for_fold (fun total listing => n <- lift (suite_count listing) ;; ret (total + n))
           start items w tr = (Ret total, tr') ->
  tr' = tr /\
  exists counts,
    Forall2 (fun listing n => suite_count listing = Ret n) items counts /\
    total = start + sum_Z counts.
Proof.
  induction items as [| x items IH]; intros start w tr total tr' H.
  - inversion H; subst. split; [reflexivity |].
    exists []. split; [constructor | simpl; lia].
  - simpl in H. bind_inv H as total1 tr1 Hstep.
    lift_inv Hstep as n Hc. inversion Hstep; subst.
    destruct (IH _ _ _ _ _ H) as (-> & counts & Hcs & ->).
    split; [reflexivity |].
    exists (n :: counts). split; [now constructor | simpl; lia].
Qed.

Lemma sum_loop_run items : forall counts start w tr,
  Forall2 (fun listing n => suite_count listing = Ret n) items counts ->
  for_fold (fun total listing => n <- lift (suite_count listing) ;; ret (total + n))
           start items w tr = (Ret (start + sum_Z counts), tr).
Proof.
  induction items as [| x items IH]; intros counts start w tr H;
    inversion H as [| ? n ? counts' Hx Hrest]; subst; simpl.
  - now rewrite Z.add_0_r.
  - rewrite bind_run, bind_run, lift_run, Hx. cbn [ret].
    rewrite (IH counts' _ w tr Hrest). now rewrite Z.add_assoc.
Qed.

(** Where every listing has a count, what is iterated is what was counted. *)
Lemma len_iter_agree listings n items counts :
  py_len listings = Ret n ->
  py_iter listings = Ret items ->
  Forall2 (fun listing c => suite_count listing = Ret c) items counts ->
  n = Z.of_nat (length items).
Proof.
  destruct listings; simpl; intros Hn Hi Hc; try discriminate Hn;
    inversion Hn; inversion Hi; subst; clear Hn Hi.
  - destruct (str_chars s) eqn:Hs.
    + apply str_chars_nil in Hs. subst. reflexivity.
    + inversion Hc; subst. discriminate.
  - reflexivity.
  - destruct entries; [reflexivity |]. inversion Hc; subst. discriminate.
Qed.

(** What the market builder returns, when it returns. *)
Lemma process_market_snapshot_Ret data w tr snapshot tr' :
  process_market_snapshot data w tr = (Ret snapshot, tr') ->
  exists listings counts,
    listing_items data = Ret listings /\
    Forall2 (fun listing n => suite_count listing = Ret n) listings counts /\
    tr' = log tr (EvNow (clock w (count is_now tr))) /\
    snapshot =
      VDict
        [ ("snapshot_date", VStr (clock w (count is_now tr)));
          ("market_area", VStr TARGET_MARKET);
          ("property_type", VStr "Industrial");
          ("total_properties", VInt (Z.of_nat (length listings)));
          ("total_suites", VInt (sum_Z counts));
          ("notes", VStr "Synced from Crexi API");
          ("raw_data", data) ].
Proof.
  unfold process_market_snapshot. intro H.
  lift_inv H as listings Hex.
  bind_inv H as stamp tr1 Hstep. inversion Hstep; subst; clear Hstep.
  lift_inv H as n Hlen.
  lift_inv H as items Hit.
  bind_inv H as total tr2 Hstep.
  apply sum_loop_Ret in Hstep. destruct Hstep as (-> & counts & Hcs & ->).
  inversion H; subst; clear H.
  exists items, counts. repeat split.
  - unfold listing_items. rewrite Hex. exact Hit.
  - exact Hcs.
  - now rewrite (len_iter_agree _ _ _ _ Hlen Hit Hcs).
Qed.

Lemma listing_items_inv data items :
  listing_items data = Ret items ->
  exists listings n,
    extract_listings data = Ret listings /\
    py_iter listings = Ret items /\
    py_len listings = Ret n.
Proof.
  unfold listing_items. destruct (extract_listings data) as [listings |]; [| discriminate].
  intro H. exists listings.
  destruct listings; try discriminate H; eexists; repeat split; try exact H.
Qed.

(** The market builder returns as soon as every listing has a count. *)
Lemma process_market_snapshot_run data listings counts w tr :
  listing_items data = Ret listings ->
  Forall2 (fun listing n => suite_count listing = Ret n) listings counts ->
  process_market_snapshot data w tr =
  (Ret (VDict
     [ ("snapshot_date", VStr (clock w (count is_now tr)));
       ("market_area", VStr TARGET_MARKET);
       ("property_type", VStr "Industrial");
       ("total_properties", VInt (Z.of_nat (length listings)));
       ("total_suites", VInt (sum_Z counts));
       ("notes", VStr "Synced from Crexi API");
       ("raw_data", data) ]),
   log tr (EvNow (clock w (count is_now tr)))).
Proof.
  intros Hitems Hcs.
  destruct (listing_items_inv _ _ Hitems) as (found & n & Hex & Hit & Hlen).
  rewrite (len_iter_agree _ _ _ _ Hlen Hit Hcs) in Hlen.
  unfold process_market_snapshot.
  rewrite bind_run, lift_run, Hex.
  rewrite bind_run. cbn [now_isoformat].
  rewrite bind_run, lift_run, Hlen.
  rewrite bind_run, lift_run, Hit.
  rewrite bind_run, (sum_loop_run _ _ _ _ _ Hcs). reflexivity.
Qed.

Lemma listing_ok_count listing :
  listing_ok listing = true -> exists n, suite_count listing = Ret n.
Proof.
  destruct listing; simpl; try discriminate. intro H.
  rewrite suite_count_dict. unfold dict_get_default.
  destruct (dict_get entries "suites") as [[]|]; try discriminate H;
    eexists; reflexivity.
Qed.

Lemma listings_ok_counts listings :
  forallb listing_ok listings = true ->
  exists counts, Forall2 (fun listing n => suite_count listing = Ret n) listings counts.
Proof.
  induction listings as [| x xs IH]; simpl; intro H.
  - exists []. constructor.
  - apply andb_true_iff in H. destruct H as [Hx Hxs].
    destruct (listing_ok_count _ Hx) as (n & Hn).
    destruct (IH Hxs) as (counts & Hcs).
    exists (n :: counts). now constructor.
Qed.

(** On a payload of the expected shape the market builder returns. *)
Lemma process_market_snapshot_returns data w tr :
  well_shaped data = true ->
  exists snapshot tr', process_market_snapshot data w tr = (Ret snapshot, tr').
Proof.
  unfold well_shaped. intro H.
  destruct (extract_listings data) as [[] |] eqn:Hex; try discriminate H.
  destruct (listings_ok_counts _ H) as (counts & Hcs).
  eexists _, _. eapply process_market_snapshot_run; [| eassumption].
  unfold listing_items. rewrite Hex. reflexivity.
Qed.

Lemma expand_listing_returns py_repr acc listing w tr :
  listing_ok listing = true ->
  exists out tr', expand_listing py_repr acc listing w tr = (Ret out, tr').
Proof.
  destruct listing; simpl; try discriminate. intro H.
  unfold expand_listing, suite_list_of.
  rewrite bind_run, lift_run, py_get_dict. unfold dict_get_default.
  destruct (dict_get entries "suites") as [[]|] eqn:Hs; try discriminate H.
  - rewrite bind_run, lift_run. cbn [py_iter].
    apply (for_fold_returns _ (fun s => is_dict s = true)).
    + clear. intros acc x w tr Hx. destruct x; try discriminate Hx.
      eexists _, _. rewrite bind_run, suite_snapshot_dict. reflexivity.
    + apply Forall_forall. now apply forallb_forall.
  - rewrite bind_run, lift_run. cbn [py_iter].
    eexists _, _. simpl. rewrite bind_run, bind_run, suite_snapshot_dict. reflexivity.
Qed.

(** On a payload of the expected shape the suite builder returns. *)
Lemma process_suite_snapshots_returns py_repr data w tr :
  well_shaped data = true ->
  exists records tr', process_suite_snapshots py_repr data w tr = (Ret records, tr').
Proof.
  unfold well_shaped. intro H.
  destruct (extract_listings data) as [[] |] eqn:Hex; try discriminate H.
  unfold process_suite_snapshots.
  rewrite bind_run, lift_run, Hex, bind_run, lift_run. cbn [py_iter].
  apply (for_fold_returns _ (fun l => listing_ok l = true)).
  - intros acc x w0 tr0 Hx. now apply expand_listing_returns.
  - apply Forall_forall. now apply forallb_forall.
Qed.

(** ** Suite list of a listing (claim C1) *)



(** ** Extraction of the listings (claim C2) *)

(** C2, as stated, fails: with [results] present as an empty array and
    [data] present as a non-empty one, the builders get the empty sequence
    although one of the three keys holds a non-empty array. *)
Lemma extract_listings_empty_results_counterexample :
  extract_listings payload_empty_results = Ret (VList []) /\
  nonempty_array_at payload_empty_results "data" = Some [VDict [("id", VInt 1)]] /\
  extract_listings payload_empty_results
  <> Ret (VList (spec_extract_listings payload_empty_results)).
Proof. repeat split. discriminate. Qed.

(** C2, amended: for every payload object both record builders take as the
    listings the value of the first of the keys [results], [data],
    [listings] that is present, whatever that value is (an empty array
    included), and the empty sequence when none of the three is present.
    What the market builder counts and what the suite builder expands are
    the items of that value. *)
Theorem listings_by_key_presence :
  forall (py_repr : value -> string) (entries : list (string * value)),
    let found :=
      match dict_get entries "results" with
      | Some v => v
      | None =>
          match dict_get entries "data" with
          | Some v => v
          | None =>
              match dict_get entries "listings" with
              | Some v => v
              | None => VList []
              end
          end
      end in
    extract_listings (VDict entries) = Ret found /\
    (forall w tr snapshot tr',
        process_market_snapshot (VDict entries) w tr = (Ret snapshot, tr') ->
        exists items,
          py_iter found = Ret items /\
          py_index snapshot "total_properties" = Ret (VInt (Z.of_nat (length items)))) /\
    (forall w tr records tr',
        process_suite_snapshots py_repr (VDict entries) w tr = (Ret records, tr') ->
        exists items groups,
          py_iter found = Ret items /\
          records = concat groups /\
          Forall2 (records_of py_repr) items groups).
Proof.
  intros py_repr entries found.
  assert (Hex : extract_listings (VDict entries) = Ret found).
  { rewrite extract_listings_dict. unfold found, dict_get_default.
    destruct (dict_get entries "results"); [reflexivity |].
    destruct (dict_get entries "data"); [reflexivity |].
    destruct (dict_get entries "listings"); reflexivity. }
  split; [exact Hex |]. split.
  - intros w tr snapshot tr' H.
    apply process_market_snapshot_Ret in H.
    destruct H as (items & counts & Hitems & _ & _ & ->).
    exists items. split; [| reflexivity].
    unfold listing_items in Hitems. now rewrite Hex in Hitems.
  - intros w tr records tr' H.
    apply process_suite_snapshots_Ret in H.
    destruct H as (items & groups & Hitems & -> & Hgs).
    exists items, groups. repeat split; [| exact Hgs].
    unfold listing_items in Hitems. now rewrite Hex in Hitems.
Qed.

Lemma listings_by_key_presence_witness :
  exists items,
    py_iter (VList [listing_A2]) = Ret items /\
    py_index
      (VDict
         [ ("snapshot_date", VStr "2025-01-01T00:00:00.000000");
           ("market_area", VStr TARGET_MARKET);
           ("property_type", VStr "Industrial");
           ("total_properties", VInt 1);
           ("total_suites", VInt 1);
           ("notes", VStr "Synced from Crexi API");
           ("raw_data", payload_A2) ])
      "total_properties" = Ret (VInt (Z.of_nat (length items))).
Proof.
  destruct (listings_by_key_presence sample_repr [("data", VList [listing_A2])])
    as (_ & Hmarket & _).
  exact (Hmarket sample_world [] _ _ eq_refl).
Defined.

(** ** Counts of the market snapshot (claims C3 and C10) *)

Lemma suite_count_rule_iff listing n :
  suite_count listing = Ret n <-> suite_count_rule listing n.
Proof.
  unfold suite_count_rule. split.
  - destruct listing; try discriminate. rewrite suite_count_dict.
    unfold dict_get_default. intro H. exists entries. split; [reflexivity |].
    destruct (dict_get entries "suites"); [exact H |].
    simpl in H. now inversion H.
  - intros (entries & -> & H). rewrite suite_count_dict. unfold dict_get_default.
    destruct (dict_get entries "suites"); [exact H | now subst].
Qed.

(** C3, as stated, fails: a listing whose [suites] is an empty array adds 0
    to [total_suites], not the minimum of 1 the rule of section 4.3 gives
    it; here one listing, no suite. *)
Lemma total_suites_below_minimum_counterexample :
  exists snapshot tr',
    process_market_snapshot payload_no_suite sample_world [] = (Ret snapshot, tr') /\
    py_index snapshot "total_properties" = Ret (VInt 1) /\
    py_index snapshot "total_suites" = Ret (VInt 0) /\
    spec_total_suites (spec_extract_listings payload_no_suite) = 1.
Proof. eexists _, _. repeat split. Qed.

(** C3, amended: the market builder returns on every payload of the
    expected shape, and whenever it returns, [total_properties] is the
    number of extracted listings and [total_suites] is the sum over the
    listings of the length of what the listing's [suites] key holds when the
    key is present (0 for an empty array) and of 1 when it is absent. *)
Theorem market_snapshot_counts :
  forall (data : value) (w : world) (tr : trace),
    (well_shaped data = true ->
     exists snapshot tr', process_market_snapshot data w tr = (Ret snapshot, tr')) /\
    (forall snapshot tr',
        process_market_snapshot data w tr = (Ret snapshot, tr') ->
        exists listings counts,
          listing_items data = Ret listings /\
          Forall2 suite_count_rule listings counts /\
          py_index snapshot "total_properties" = Ret (VInt (Z.of_nat (length listings))) /\
          py_index snapshot "total_suites" = Ret (VInt (sum_Z counts))).
Proof.
  intros data w tr. split.
  - apply process_market_snapshot_returns.
  - intros snapshot tr' H.
    apply process_market_snapshot_Ret in H.
    destruct H as (listings & counts & Hitems & Hcs & _ & ->).
    exists listings, counts. repeat split; [exact Hitems |].
    clear - Hcs. induction Hcs; constructor; [now apply suite_count_rule_iff | assumption].
Qed.

Lemma market_snapshot_counts_witness :
  exists snapshot,
    (exists tr', process_market_snapshot payload_A1 sample_world [] = (Ret snapshot, tr')) /\
    py_index snapshot "total_properties" = Ret (VInt 1) /\
    py_index snapshot "total_suites" = Ret (VInt 2).
Proof.
  destruct (market_snapshot_counts payload_A1 sample_world []) as [Hret Hcounts].
  destruct (Hret eq_refl) as (snapshot & tr' & Hrun).
  exists snapshot. split; [exists tr'; exact Hrun |].
  destruct (Hcounts _ _ Hrun) as (listings & counts & Hitems & Hrule & Hprops & Hsuites).
  inversion Hitems; subst listings. clear Hitems.
  inversion Hrule as [| ? n ? counts' (entries & Heq & Hn) Hrest]; subst.
  inversion Hrest; subst. inversion Heq; subst entries.
  simpl in Hn. inversion Hn; subst n.
  split; assumption.
Defined.

(** A record is made of a suite object under a listing object. *)
Lemma records_of_count py_repr listing records :
  records_of py_repr listing records ->
  suite_count listing = Ret (Z.of_nat (length records)).
Proof.
  intros (suites & Hitems & Hrecs).
  assert (Hdicts : Forall (fun s => is_dict s = true) suites).
  { clear - Hrecs. induction Hrecs as [| s r ss rs (w & tr & tr' & Hs) _ IH]; constructor.
    - apply suite_snapshot_Ret_inv in Hs. destruct Hs as (le & se & _ & ->). reflexivity.
    - exact IH. }
  apply Forall2_length in Hrecs. rewrite <- Hrecs. clear Hrecs.
  unfold suite_items in Hitems. unfold suite_count.
  destruct (suite_list_of listing) as [suite_list |]; [| discriminate].
  destruct suite_list; try discriminate Hitems; simpl in *; inversion Hitems; subst; clear Hitems.
  - destruct (str_chars s) eqn:Hs.
    + apply str_chars_nil in Hs. subst. reflexivity.
    + inversion Hdicts; subst. discriminate.
  - reflexivity.
  - destruct entries; [reflexivity |]. inversion Hdicts; subst. discriminate.
Qed.

Lemma sum_Z_lengths {B} (groups : list (list B)) :
  sum_Z (map (fun g => Z.of_nat (length g)) groups) = Z.of_nat (length (concat groups)).
Proof.
  induction groups as [| g gs IH]; [reflexivity |].
  simpl. rewrite length_app, IH. lia.
Qed.

(** C10: both builders return on every payload of the expected shape, and
    whenever the suite builder returns, the market builder returns too
    (whatever the clock says at either call) and the number of suite
    records equals the [total_suites] of the market snapshot. *)
Theorem suite_records_match_total_suites :
  forall (py_repr : value -> string) (data : value)
         (w1 : world) (tr1 : trace) (w2 : world) (tr2 : trace),
    (well_shaped data = true ->
     exists records tr1', process_suite_snapshots py_repr data w1 tr1 = (Ret records, tr1')) /\
    (forall records tr1',
        process_suite_snapshots py_repr data w1 tr1 = (Ret records, tr1') ->
        exists snapshot tr2',
          process_market_snapshot data w2 tr2 = (Ret snapshot, tr2') /\
          py_index snapshot "total_suites" = Ret (VInt (Z.of_nat (length records)))).
Proof.
  intros py_repr data w1 tr1 w2 tr2. split.
  - apply process_suite_snapshots_returns.
  - intros records tr1' H.
    apply process_suite_snapshots_Ret in H.
    destruct H as (listings & groups & Hitems & -> & Hgs).
    assert (Hcs : Forall2 (fun listing n => suite_count listing = Ret n) listings
                          (map (fun g => Z.of_nat (length g)) groups)).
    { clear - Hgs. induction Hgs; simpl; constructor;
        [now apply (records_of_count py_repr) | assumption]. }
    eexists _, _. split.
    + eapply process_market_snapshot_run; eassumption.
    + simpl. now rewrite sum_Z_lengths.
Qed.

Lemma suite_records_match_total_suites_witness :
  exists records tr1' snapshot tr2',
    process_suite_snapshots sample_repr payload_A1 sample_world [] = (Ret records, tr1') /\
    length records = 2%nat /\
    process_market_snapshot payload_A1 sample_world [] = (Ret snapshot, tr2') /\
    py_index snapshot "total_suites" = Ret (VInt (Z.of_nat (length records))).
Proof.
  destruct (suite_records_match_total_suites sample_repr payload_A1
              sample_world [] sample_world []) as [Hret Hsame].
  destruct (Hret eq_refl) as (records & tr1' & Hrun).
  destruct (Hsame _ _ Hrun) as (snapshot & tr2' & Hmarket & Htotal).
  exists records, tr1', snapshot, tr2'.
  split; [exact Hrun |]. split; [| split; assumption].
  inversion Hrun. reflexivity.
Defined.

(** ** Fields of the suite records (claims C8 and C9) *)

(** Every record the suite builder returns was made of a suite object under
    one of the extracted listings, itself an object. *)
Lemma suite_records_sources py_repr data w tr records tr' :
  process_suite_snapshots py_repr data w tr = (Ret records, tr') ->
  exists listings,
    listing_items data = Ret listings /\
    Forall (fun record =>
              exists le se,
                In (VDict le) listings /\
                snapshot_of py_repr (VDict le) (VDict se) record)
           records.
Proof.
  intro H. apply process_suite_snapshots_Ret in H.
  destruct H as (listings & groups & Hitems & -> & Hgs).
  exists listings. split; [exact Hitems |]. clear Hitems.
  induction Hgs as [| listing group listings groups Hg _ IH]; simpl.
  - constructor.
  - apply Forall_app. split.
    + destruct Hg as (suites & _ & Hrecs). clear - Hrecs.
      induction Hrecs as [| s r ss rs Hs _ IHr]; constructor; [| exact IHr].
      destruct Hs as (w & tr & tr' & Hs).
      destruct (suite_snapshot_Ret_inv _ _ _ _ _ _ _ Hs) as (le & se & -> & ->).
      exists le, se. split; [now left |]. exists w, tr, tr'. exact Hs.
    + eapply Forall_impl; [| exact IH].
      intros record (le & se & Hin & Hs). exists le, se. split; [now right | exact Hs].
Qed.

(** C8: the suite builder returns on every payload of the expected shape,
    and in every record it returns [crexi_asset_id] and [crexi_suite_id] are
    present and hold a [str]: the [str()] of the listing's [id], else of its
    [assetId], and of the suite's [id], else of its [suiteId]; where neither
    key is there, the identifier is the empty string. *)
Theorem suite_record_identifiers :
  forall (py_repr : value -> string) (data : value) (w : world) (tr : trace),
    (well_shaped data = true ->
     exists records tr', process_suite_snapshots py_repr data w tr = (Ret records, tr')) /\
    (forall records tr',
        process_suite_snapshots py_repr data w tr = (Ret records, tr') ->
        exists listings,
          listing_items data = Ret listings /\
          Forall (identifiers_coerced py_repr listings) records).
Proof.
  intros py_repr data w tr. split; [apply process_suite_snapshots_returns |].
  intros records tr' H. apply suite_records_sources in H.
  destruct H as (listings & Hitems & Hrecs).
  exists listings. split; [exact Hitems |].
  eapply Forall_impl; [| exact Hrecs].
  intros record (le & se & Hin & Hs).
  exists le, se. eexists _, _.
  split; [exact Hin |]. split; [exact Hs |].
  destruct Hs as (w0 & tr0 & tr0' & Hs).
  rewrite suite_snapshot_dict in Hs. inversion Hs; subst record; clear Hs.
  split; [reflexivity |]. split; [reflexivity |].
  split; [reflexivity |]. split; [reflexivity |].
  unfold dict_get_default.
  split; intros -> ->; reflexivity.
Qed.

Lemma suite_record_identifiers_witness :
  exists records tr' listings,
    process_suite_snapshots sample_repr payload_A2 sample_world [] = (Ret records, tr') /\
    listing_items payload_A2 = Ret listings /\
    Forall (identifiers_coerced sample_repr listings) records.
Proof.
  destruct (suite_record_identifiers sample_repr payload_A2 sample_world [])
    as [Hret Hids].
  destruct (Hret eq_refl) as (records & tr' & Hrun).
  destruct (Hids _ _ Hrun) as (listings & Hitems & Hrecs).
  exists records, tr', listings. repeat split; assumption.
Defined.

(** The suite builder pairs suites and records: the records it returns are,
    in order, one for each item of the suite lists of the listings. *)
Lemma records_of_suite_pairs py_repr listings groups :
  Forall2 (records_of py_repr) listings groups ->
  exists suite_lists,
    Forall2 (fun listing suites => suite_items listing = Ret suites) listings suite_lists /\
    Forall2 (fun suite record =>
               exists listing, In listing listings /\ snapshot_of py_repr listing suite record)
            (concat suite_lists) (concat groups).
Proof.
  intro Hgs.
  induction Hgs as [| listing group listings groups (suites & Hsuites & Hrecs) _ IH].
  - exists []. split; constructor.
  - destruct IH as (suite_lists & Hall & Hpairs).
    exists (suites :: suite_lists). split; [now constructor |].
    cbn [concat]. apply Forall2_app.
    + eapply Forall2_impl; [| exact Hrecs].
      intros suite record Hs. exists listing. split; [now left | exact Hs].
    + eapply Forall2_impl; [| exact Hpairs].
      intros suite record (l & Hin & Hs). exists l. split; [now right | exact Hs].
Qed.

(** C9: the suite builder returns on every payload of the expected shape,
    and whenever it returns, every suite object of every listing has its
    record: the records are, in order, one for each item of the suite lists
    of the listings, and the record of a suite keeps the suite as
    [raw_data], carries [None] as [suite_size] when the suite has neither
    [size] nor [squareFeet], and [None] as [lease_rate] when the suite has
    neither [rate] nor [leaseRate]: not 0, not a string. *)
Theorem suite_record_missing_numbers :
  forall (py_repr : value -> string) (data : value) (w : world) (tr : trace),
    (well_shaped data = true ->
     exists records tr', process_suite_snapshots py_repr data w tr = (Ret records, tr')) /\
    (forall records tr',
        process_suite_snapshots py_repr data w tr = (Ret records, tr') ->
        exists listings suite_lists,
          listing_items data = Ret listings /\
          Forall2 (fun listing suites => suite_items listing = Ret suites)
                  listings suite_lists /\
          Forall2 (suite_numbers_propagated py_repr listings)
                  (concat suite_lists) records /\
          Forall (numeric_fields_propagated py_repr listings) records).
Proof.
  intros py_repr data w tr. split; [apply process_suite_snapshots_returns |].
  intros records tr' H.
  pose proof (suite_records_sources _ _ _ _ _ _ H) as (listings' & Hitems' & Hrecs).
  apply process_suite_snapshots_Ret in H.
  destruct H as (listings & groups & Hitems & -> & Hgs).
  rewrite Hitems in Hitems'. inversion Hitems'; subst listings'; clear Hitems'.
  destruct (records_of_suite_pairs _ _ _ Hgs) as (suite_lists & Hall & Hpairs).
  exists listings, suite_lists.
  split; [exact Hitems |]. split; [exact Hall |]. split.
  - eapply Forall2_impl; [| exact Hpairs].
    intros suite record (listing & Hin & Hs).
    destruct Hs as (w0 & tr0 & tr0' & Hs).
    destruct (suite_snapshot_Ret_inv _ _ _ _ _ _ _ Hs) as (le & se & -> & ->).
    exists le, se. split; [exact Hin |]. split; [reflexivity |].
    split; [exists w0, tr0, tr0'; exact Hs |].
    rewrite suite_snapshot_dict in Hs. inversion Hs; subst record; clear Hs.
    split; [reflexivity |]. split; [reflexivity |]. split; [reflexivity |].
    unfold dict_get_default.
    split; intros -> ->; reflexivity.
  - eapply Forall_impl; [| exact Hrecs].
    intros record (le & se & Hin & Hs).
    exists le, se.
    split; [exact Hin |]. split; [exact Hs |].
    destruct Hs as (w0 & tr0 & tr0' & Hs).
    rewrite suite_snapshot_dict in Hs. inversion Hs; subst record; clear Hs.
    split; [reflexivity |]. split; [reflexivity |]. split; [reflexivity |].
    unfold dict_get_default.
    split; intros -> ->; reflexivity.
Qed.

Lemma suite_record_missing_numbers_witness :
  exists records tr' listings,
    process_suite_snapshots sample_repr payload_A1 sample_world [] = (Ret records, tr') /\
    listing_items payload_A1 = Ret listings /\
    Forall2 (suite_numbers_propagated sample_repr listings)
            [ VDict [("id", VStr "S1"); ("size", VInt 1000)];
              VDict [("id", VStr "S2"); ("size", VInt 2000)] ]
            records /\
    Forall (numeric_fields_propagated sample_repr listings) records.
Proof.
  destruct (suite_record_missing_numbers sample_repr payload_A1 sample_world [])
    as [Hret Hnums].
  destruct (Hret eq_refl) as (records & tr' & Hrun).
  destruct (Hnums _ _ Hrun) as (listings & suite_lists & Hitems & Hall & Hpairs & Hrecs).
  exists records, tr', listings.
  split; [exact Hrun |]. split; [exact Hitems |]. split; [| exact Hrecs].
  inversion Hitems; subst listings.
  inversion Hall as [| listing suites ? rest Hsuites Hrest]; subst.
  inversion Hrest; subst. inversion Hsuites; subst suites.
  cbn [concat app] in Hpairs. exact Hpairs.
Defined.

(** The A1 payload of the specification, run: one property, two suites, two
    records with the listing's id and each suite's own id and size; the
    lease rate, which no suite has, is [None]. *)
Example payload_A1_run :
  forall py_repr w tr,
  exists first second tr',
    process_suite_snapshots py_repr payload_A1 w tr = (Ret [first; second], tr') /\
    py_index first "crexi_asset_id" = Ret (VStr "A1") /\
    py_index first "crexi_suite_id" = Ret (VStr "S1") /\
    py_index first "suite_size" = Ret (VInt 1000) /\
    py_index first "lease_rate" = Ret VNone /\
    py_index second "crexi_asset_id" = Ret (VStr "A1") /\
    py_index second "crexi_suite_id" = Ret (VStr "S2") /\
    py_index second "suite_size" = Ret (VInt 2000) /\
    py_index second "lease_rate" = Ret VNone.
Proof. intros. eexists _, _, _. repeat split. Qed.

(** ** Traces *)

Local Open Scope list_scope.

Lemma gets_app tr1 tr2 : gets (tr1 ++ tr2) = (gets tr1 ++ gets tr2)%list.
Proof.
  induction tr1 as [| ev tr1 IH]; [reflexivity |].
  destruct ev; simpl; rewrite IH; reflexivity.
Qed.

Lemma inserts_app tr1 tr2 : inserts (tr1 ++ tr2) = (inserts tr1 ++ inserts tr2)%list.
Proof.
  induction tr1 as [| ev tr1 IH]; [reflexivity |].
  destruct ev; simpl; rewrite IH; reflexivity.
Qed.

Lemma count_app p tr1 tr2 : count p (tr1 ++ tr2) = (count p tr1 + count p tr2)%nat.
Proof. unfold count. now rewrite filter_app, length_app. Qed.

Lemma count_gets tr : count is_get tr = length (gets tr).
Proof.
  unfold count. induction tr as [| ev tr IH]; [reflexivity |].
  destruct ev; simpl; rewrite IH; reflexivity.
Qed.

Lemma count_inserts tr : count is_insert tr = length (inserts tr).
Proof.
  unfold count. induction tr as [| ev tr IH]; [reflexivity |].
  destruct ev; simpl; rewrite IH; reflexivity.
Qed.

Lemma count_log p tr ev :
  count p (log tr ev) = (count p tr + (if p ev then 1 else 0))%nat.
Proof.
  unfold log. rewrite count_app. unfold count. simpl. now destruct (p ev).
Qed.

Lemma count_get_print tr line : count is_get (log tr (EvPrint line)) = count is_get tr.
Proof. rewrite count_log. simpl. lia. Qed.

(** ** The endpoint prober (claims C4 and C5) *)

(** Close a goal [exists evs, snd run = tr ++ evs /\ ...] once the run is a
    chain of logged events. *)
Ltac trace_extended :=
  eexists; cbn; unfold log; repeat rewrite <- app_assoc;
  (split; [reflexivity |]); repeat split.

(** One attempt issues exactly one request, no insert, and ends as the
    answer to that request decides. *)
Lemma attempt_spec base_url endpoint hdrs w tr :
  let c := (base_url, endpoint, hdrs) in
  exists evs,
    snd (attempt base_url endpoint hdrs w tr) = (tr ++ evs)%list /\
    gets evs = [combination_request c] /\
    inserts evs = [] /\
    fst (attempt base_url endpoint hdrs w tr)
    = attempt_outcome c (http w (count is_get tr) (combination_request c)).
Proof.
  intro c. unfold attempt, try_except.
  rewrite bind_run. cbn [print]. rewrite bind_run. cbn [requests_get].
  replace (count is_get (log tr (EvPrint ("    Testing: " ++ base_url ++ endpoint)%string)))
    with (count is_get tr)
    by (rewrite count_log; simpl; lia).
  unfold combination_request, attempt_outcome. cbn [combination_url combination_headers c].
  destruct (http w (count is_get tr) (probe_request (base_url ++ endpoint)%string hdrs))
    as [status_code text json | e].
  - destruct (status_code =? 200).
    + rewrite bind_run. cbn [print]. rewrite bind_run, lift_run.
      destruct json as [data | e].
      * rewrite bind_run, lift_run.
        destruct (received_count data) as [n | e] eqn:Hn.
        -- trace_extended.
        -- destruct (is_RequestException e); trace_extended.
      * destruct (is_RequestException e); trace_extended.
    + destruct (status_code =? 401); [| destruct (status_code =? 403);
                                          [| destruct (status_code =? 404)]];
        trace_extended.
  - cbn [raise]. destruct (is_RequestException e); trace_extended.
Qed.

Lemma probe_scan_none_length w cs : forall n,
  fst (probe_scan w n cs) = Ret None -> snd (probe_scan w n cs) = length cs.
Proof.
  induction cs as [| c cs IH]; intros n H; [reflexivity |].
  simpl in *.
  destruct (attempt_outcome c (http w n (combination_request c))) as [[r |] | e];
    try discriminate H.
  destruct (probe_scan w (S n) cs) as [o k] eqn:Hscan.
  simpl in *. f_equal. specialize (IH (S n)). rewrite Hscan in IH. now apply IH.
Qed.

Lemma probe_scan_le w cs : forall n, (snd (probe_scan w n cs) <= length cs)%nat.
Proof.
  induction cs as [| c cs IH]; intro n; simpl; [lia |].
  destruct (attempt_outcome c (http w n (combination_request c))) as [[r |] | e];
    simpl; try lia.
  specialize (IH (S n)). destruct (probe_scan w (S n) cs). simpl in *. lia.
Qed.

Lemma probe_scan_app w cs1 cs2 : forall n,
  probe_scan w n (cs1 ++ cs2) =
  match fst (probe_scan w n cs1) with
  | Ret None =>
      (fst (probe_scan w (n + length cs1) cs2),
       (length cs1 + snd (probe_scan w (n + length cs1) cs2))%nat)
  | _ => probe_scan w n cs1
  end.
Proof.
  induction cs1 as [| c cs1 IH]; intro n; simpl.
  - rewrite Nat.add_0_r. now destruct (probe_scan w n cs2).
  - destruct (attempt_outcome c (http w n (combination_request c))) as [[r |] | e];
      try reflexivity.
    rewrite IH. replace (S n + length cs1)%nat with (n + S (length cs1))%nat by lia.
    destruct (probe_scan w (S n) cs1) as [[[r |] | e] k]; reflexivity.
Qed.

Lemma probes_attempt base_url endpoint hdrs :
  probes (attempt base_url endpoint hdrs) [(base_url, endpoint, hdrs)].
Proof.
  intros w tr.
  destruct (attempt_spec base_url endpoint hdrs w tr) as (evs & Htr & Hgets & Hins & Hout).
  exists evs. split; [exact Htr |]. split; [exact Hins |].
  rewrite Hout, Hgets. cbn [probe_scan].
  destruct (attempt_outcome _ _) as [[r |] | e]; split; reflexivity.
Qed.

Lemma probes_print line m cs : probes m cs -> probes (print line ;; m) cs.
Proof.
  intros Hm w tr. rewrite bind_run. cbn [print].
  destruct (Hm w (log tr (EvPrint line))) as (evs & Htr & Hins & Hout & Hgets).
  rewrite count_get_print in Hout, Hgets.
  exists (EvPrint line :: evs).
  split; [rewrite Htr; unfold log; now rewrite <- app_assoc |].
  split; [exact Hins |]. split; [exact Hout | exact Hgets].
Qed.

(** A loop with early return over [xs] runs the attempts of its items one
    after the other. *)
Lemma probes_for_return {A} (body : A -> M (option probe_result)) (f : A -> list combination) :
  (forall x, probes (body x) (f x)) ->
  forall xs, probes (for_return body xs) (flat_map f xs).
Proof.
  intros Hbody xs. induction xs as [| x xs IH]; intros w tr.
  - exists []. simpl. rewrite app_nil_r. repeat split.
  - cbn [for_return flat_map]. rewrite bind_run, probe_scan_app.
    destruct (Hbody x w tr) as (evs1 & Htr1 & Hins1 & Hout1 & Hgets1).
    destruct (body x w tr) as [out1 tr1]. simpl in Htr1, Hout1. subst tr1.
    rewrite <- Hout1.
    destruct out1 as [[r |] | e].
    + exists evs1. rewrite firstn_app.
      pose proof (probe_scan_le w (f x) (count is_get tr)) as Hle.
      replace (snd (probe_scan w (count is_get tr) (f x)) - length (f x))%nat
        with 0%nat by lia.
      simpl. rewrite app_nil_r. repeat split; assumption.
    + symmetry in Hout1. apply probe_scan_none_length in Hout1.
      rewrite Hout1, firstn_all in Hgets1.
      destruct (IH w (tr ++ evs1)) as (evs2 & Htr2 & Hins2 & Hout2 & Hgets2).
      rewrite count_app, (count_gets evs1), Hgets1, length_map in Hout2, Hgets2.
      exists (evs1 ++ evs2).
      split; [rewrite Htr2; now rewrite app_assoc |].
      split; [rewrite inserts_app, Hins1, Hins2; reflexivity |].
      split; [exact Hout2 |].
      cbn [snd]. rewrite gets_app, Hgets1, Hgets2, firstn_app.
      rewrite (firstn_all2 (f x)) by lia.
      replace (length (f x) + snd (probe_scan w (count is_get tr + length (f x)) (flat_map f xs))
               - length (f x))%nat
        with (snd (probe_scan w (count is_get tr + length (f x)) (flat_map f xs))) by lia.
      now rewrite map_app.
    + exists evs1. rewrite firstn_app.
      pose proof (probe_scan_le w (f x) (count is_get tr)) as Hle.
      replace (snd (probe_scan w (count is_get tr) (f x)) - length (f x))%nat
        with 0%nat by lia.
      simpl. rewrite app_nil_r. repeat split; assumption.
Qed.

Lemma fetch_loops_probe cfg :
  probes
    (for_return (fun base_url =>
       print (nl ++ "  Trying base URL: " ++ base_url)%string ;;
       for_return (fun endpoint =>
         for_return (fun hdrs => attempt base_url endpoint hdrs) (headers_options cfg))
         endpoint_options)
       base_urls)
    (combinations cfg).
Proof.
  unfold combinations.
  apply probes_for_return. intro base_url. apply probes_print.
  apply probes_for_return. intro endpoint.
  apply probes_for_return. intro hdrs. apply probes_attempt.
Qed.

(** The prober issues the requests of the combinations, in order, up to the
    one that ends the scan, and returns what the scan found. *)
Lemma fetch_crexi_listings_scan cfg w tr :
  exists evs,
    snd (fetch_crexi_listings cfg w tr) = tr ++ evs /\
    inserts evs = [] /\
    gets evs = map combination_request
                   (firstn (snd (probe_scan w (count is_get tr) (combinations cfg)))
                           (combinations cfg)) /\
    fst (fetch_crexi_listings cfg w tr)
    = match fst (probe_scan w (count is_get tr) (combinations cfg)) with
      | Ret (Some r) => Ret r
      | Ret None => Ret (ProbeFailure "No working endpoint found")
      | Raise e => Raise e
      end.
Proof.
  unfold fetch_crexi_listings.
  rewrite bind_run. cbn [print]. rewrite bind_run. cbn [print]. rewrite bind_run.
  match goal with
  | |- context [for_return ?body base_urls ?w0 ?tr0] =>
      destruct (fetch_loops_probe cfg w0 tr0) as (evs & Htr & Hins & Hout & Hgets);
      destruct (for_return body base_urls w0 tr0) as [out tr1]
  end.
  cbn [fst snd] in Htr, Hout. subst tr1.
  rewrite !count_get_print in Hout, Hgets.
  rewrite <- Hout, <- Hgets. clear Hout Hgets.
  destruct out as [[r |] | e];
    eexists;
    (split; [cbn; unfold log; repeat rewrite <- app_assoc; reflexivity |]);
    cbn; rewrite ?inserts_app, ?gets_app, Hins; cbn; rewrite ?app_nil_r;
    repeat split.
Qed.

Lemma received_count_raises data e :
  received_count data = Raise e -> is_RequestException e = false.
Proof.
  unfold received_count.
  destruct data; simpl; intro H; try (inversion H; reflexivity).
  destruct (dict_get_default entries "results" (dict_get_default entries "data" (VList [])));
    simpl in H; inversion H; reflexivity.
Qed.

Lemma recoverable_goes_on c answer :
  recoverable answer = true -> attempt_outcome c answer = Ret None.
Proof.
  destruct answer as [status_code text json | e]; simpl.
  - now destruct (status_code =? 200).
  - now intros ->.
Qed.

(** A 200 whose body decodes never lets the loop go on. *)
Lemma decoded_200_ends c text data :
  attempt_outcome c (Response 200 text (Ret data)) <> Ret None.
Proof.
  simpl. destruct (received_count data) as [n | e] eqn:H; [discriminate |].
  apply received_count_raises in H. rewrite H. discriminate.
Qed.

Lemma probe_scan_all_recoverable w cs : forall n,
  (forall j c, nth_error cs j = Some c ->
               recoverable (http w (n + j) (combination_request c)) = true) ->
  probe_scan w n cs = (Ret None, length cs).
Proof.
  induction cs as [| c cs IH]; intros n H; [reflexivity |].
  simpl. rewrite recoverable_goes_on.
  - rewrite IH; [reflexivity |]. intros j c' Hj.
    replace (S n + j)%nat with (n + S j)%nat by lia. now apply H.
  - specialize (H 0%nat c eq_refl). now rewrite Nat.add_0_r in H.
Qed.

Lemma probe_scan_first_end w cs : forall n k c o,
  nth_error cs k = Some c ->
  (forall j c', (j < k)%nat -> nth_error cs j = Some c' ->
                recoverable (http w (n + j) (combination_request c')) = true) ->
  attempt_outcome c (http w (n + k) (combination_request c)) = o ->
  o <> Ret None ->
  probe_scan w n cs = (o, S k).
Proof.
  induction cs as [| c0 cs IH]; intros n k c o Hk Hbefore Ho Hend.
  - destruct k; discriminate Hk.
  - destruct k as [| k]; simpl in Hk.
    + inversion Hk; subst c0. rewrite Nat.add_0_r in Ho. simpl. rewrite Ho.
      destruct o as [[r |] | e]; try reflexivity. now elim Hend.
    + simpl. rewrite recoverable_goes_on.
      * rewrite (IH (S n) k c o); try assumption; [reflexivity | |].
        -- intros j c' Hj Hc'. replace (S n + j)%nat with (n + S j)%nat by lia.
           apply Hbefore; [lia | exact Hc'].
        -- now replace (S n + k)%nat with (n + S k)%nat by lia.
      * specialize (Hbefore 0%nat c0 (Nat.lt_0_succ k) eq_refl).
        now rewrite Nat.add_0_r in Hbefore.
Qed.

Lemma probe_scan_none_inv w cs : forall n,
  fst (probe_scan w n cs) = Ret None ->
  forall j c, nth_error cs j = Some c ->
              attempt_outcome c (http w (n + j) (combination_request c)) = Ret None.
Proof.
  induction cs as [| c0 cs IH]; intros n H j c Hj.
  - destruct j; discriminate Hj.
  - simpl in H.
    destruct (attempt_outcome c0 (http w n (combination_request c0))) as [[r |] | e] eqn:H0;
      try discriminate H.
    destruct j as [| j]; simpl in Hj.
    + inversion Hj; subst c0. now rewrite Nat.add_0_r.
    + replace (n + S j)%nat with (S n + j)%nat by lia.
      apply IH; [| exact Hj]. now destruct (probe_scan w (S n) cs).
Qed.

(** What the scan finds is a success. *)
Lemma probe_scan_finds_success w cs error : forall n,
  fst (probe_scan w n cs) <> Ret (Some (ProbeFailure error)).
Proof.
  induction cs as [| c cs IH]; intros n Hscan; [discriminate Hscan |].
  simpl in Hscan.
  destruct (attempt_outcome c (http w n (combination_request c)))
    as [[r |] | e] eqn:Hc.
  - simpl in Hscan. inversion Hscan; subst r. clear - Hc.
    unfold attempt_outcome in Hc.
    destruct (http w n (combination_request c)) as [st text [data | e] | e].
    + destruct (st =? 200); [| discriminate Hc].
      destruct (received_count data) as [m | e]; [discriminate Hc |].
      destruct (is_RequestException e); discriminate Hc.
    + destruct (st =? 200); [| discriminate Hc].
      destruct (is_RequestException e); discriminate Hc.
    + destruct (is_RequestException e); discriminate Hc.
  - apply (IH (S n)). now destruct (probe_scan w (S n) cs).
  - discriminate Hscan.
Qed.

Lemma combinations_length cfg : length (combinations cfg) = 36%nat.
Proof. reflexivity. Qed.

(** First match wins: when the answers before the [k]-th are recoverable
    and the [k]-th is a 200 whose body decodes to something line 103 can
    count, the prober issues exactly the first [k + 1] requests and returns
    the URL, headers and body of the [k]-th combination. *)
Lemma prober_first_usable_200 cfg w tr k c text data n :
  nth_error (combinations cfg) k = Some c ->
  (forall j c', (j < k)%nat -> nth_error (combinations cfg) j = Some c' ->
                recoverable (http w (count is_get tr + j) (combination_request c')) = true) ->
  http w (count is_get tr + k) (combination_request c) = Response 200 text (Ret data) ->
  received_count data = Ret n ->
  exists tr',
    fetch_crexi_listings cfg w tr
    = (Ret (ProbeSuccess (combination_url c) (combination_headers c) data), tr') /\
    gets tr' = gets tr ++ map combination_request (firstn (S k) (combinations cfg)).
Proof.
  intros Hk Hbefore Hanswer Hn.
  destruct (fetch_crexi_listings_scan cfg w tr) as (evs & Htr & _ & Hgets & Hout).
  assert (Hscan : probe_scan w (count is_get tr) (combinations cfg)
                  = (Ret (Some (ProbeSuccess (combination_url c) (combination_headers c) data)),
                     S k)).
  { apply (probe_scan_first_end w _ _ k c); try assumption.
    - rewrite Hanswer. simpl. now rewrite Hn.
    - discriminate. }
  rewrite Hscan in Hgets, Hout.
  destruct (fetch_crexi_listings cfg w tr) as [out tr']. cbn [fst snd] in *. subst.
  eexists. split; [reflexivity |]. now rewrite gets_app, Hgets.
Qed.

(** The stub of the specification: 404 for the first five combinations, 200
    for the sixth.  Exactly six requests are made, those of the first six
    combinations in order, and the sixth combination is reported. *)
Example prober_sixth_combination :
  exists tr',
    fetch_crexi_listings sample_config sixth_answers_world []
    = (Ret (ProbeSuccess "https://api.crexi.com/v1/properties"
                         [("api-key", Some "key")]
                         (VDict [("results", VList [])])), tr') /\
    gets tr' = map combination_request (firstn 6 (combinations sample_config)) /\
    length (gets tr') = 6%nat /\
    nth_error (combinations sample_config) 5
    = Some ("https://api.crexi.com", "/v1/properties", [("api-key", Some "key")]).
Proof. eexists. repeat split. Qed.

(** C4, at the failing input: the first combination is answered 200 with
    the body [{"results": null}].  The prober stops there, after one
    request, but it does not return that combination's URL, headers and
    body: the [len()] inside the message of line 103 raises [TypeError],
    which leaves the prober. *)
Theorem prober_raises_on_first_200 :
  exists tr',
    http null_results_world 0
         (combination_request
            ("https://api.crexi.com", "/v1/listings",
             [("Authorization", Some "Bearer key")]))
    = Response 200 ("{" ++ dq ++ "results" ++ dq ++ ": null}")%string
               (Ret (VDict [("results", VNone)])) /\
    fetch_crexi_listings sample_config null_results_world [] = (Raise TypeError, tr') /\
    gets tr' = map combination_request (firstn 1 (combinations sample_config)).
Proof. eexists. repeat split. Qed.

(** C5, as stated, fails: the cross-product has 36 combinations, not 18, and
    after 18 combinations tried without a 200 the prober does not return a
    failure: it goes on to the staging base URL, whose first combination
    wins here. *)
Lemma prober_goes_past_18_counterexample :
  length (combinations sample_config) = 36%nat /\
  length (combinations sample_config) <> 18%nat /\
  exists tr',
    fetch_crexi_listings sample_config nineteenth_answers_world []
    = (Ret (ProbeSuccess "https://stage-api.crexi.com/v1/listings"
                         [("Authorization", Some "Bearer key")]
                         (VDict [("results", VList [])])), tr') /\
    length (gets tr') = 19%nat.
Proof.
  split; [reflexivity |]. split; [discriminate |].
  eexists. split; reflexivity.
Qed.

(** C5, amended: the cross-product over two base URLs, six endpoint paths
    and three header schemes has 36 combinations.  When every one of the 36
    requests ends in a transport failure or a status other than 200, the
    prober issues all 36, in order, and returns the failure result; it never
    returns the failure result before all 36 are issued, nor when one of
    them was answered 200 with a body that decodes; and a run of transport
    failures and non-200 statuses never ends the loop: the next request is
    issued. *)
Theorem prober_exhausts_36_combinations :
  forall (cfg : config) (w : world) (tr : trace),
    let n := count is_get tr in
    let all := combinations cfg in
    (length base_urls = 2%nat /\ length endpoint_options = 6%nat /\
     length (headers_options cfg) = 3%nat /\ length all = 36%nat) /\
    ((forall j c, nth_error all j = Some c ->
                  recoverable (http w (n + j) (combination_request c)) = true) ->
     exists tr',
       fetch_crexi_listings cfg w tr
       = (Ret (ProbeFailure "No working endpoint found"), tr') /\
       gets tr' = gets tr ++ map combination_request all) /\
    (forall error tr',
        fetch_crexi_listings cfg w tr = (Ret (ProbeFailure error), tr') ->
        gets tr' = gets tr ++ map combination_request all /\
        forall j c text data,
          nth_error all j = Some c ->
          http w (n + j) (combination_request c) <> Response 200 text (Ret data)) /\
    (forall k out tr',
        (k < 36)%nat ->
        (forall j c, (j < k)%nat -> nth_error all j = Some c ->
                     recoverable (http w (n + j) (combination_request c)) = true) ->
        fetch_crexi_listings cfg w tr = (out, tr') ->
        exists later,
          gets tr' = gets tr ++ map combination_request (firstn (S k) all) ++ later).
Proof.
  intros cfg w tr n all.
  destruct (fetch_crexi_listings_scan cfg w tr) as (evs & Htr & _ & Hgets & Hout).
  fold n all in Hgets, Hout.
  split; [repeat split |]. split; [| split].
  - intro Hall. apply probe_scan_all_recoverable in Hall.
    rewrite Hall in Hgets, Hout. cbn [fst snd] in Hgets, Hout.
    rewrite firstn_all in Hgets.
    destruct (fetch_crexi_listings cfg w tr) as [out tr']. cbn [fst snd] in *. subst.
    eexists. split; [reflexivity |]. now rewrite gets_app, Hgets.
  - intros error tr' Hrun. rewrite Hrun in Htr, Hout. cbn [fst snd] in Htr, Hout.
    destruct (fst (probe_scan w n all)) as [[r |] | e] eqn:Hscan; try discriminate Hout.
    + inversion Hout; subst r. now apply probe_scan_finds_success in Hscan.
    + pose proof (probe_scan_none_length w all n Hscan) as Hlen.
      rewrite Hlen, firstn_all in Hgets. subst tr'. split.
      * now rewrite gets_app, Hgets.
      * intros j c text data Hj Hanswer.
        pose proof (probe_scan_none_inv w all n Hscan j c Hj) as Hnone.
        rewrite Hanswer in Hnone. now apply decoded_200_ends in Hnone.
  - intros k out tr' Hk Hbefore Hrun.
    rewrite Hrun in Htr. cbn [snd] in Htr. subst tr'.
    assert (Hsplit : all = firstn k all ++ skipn k all) by (now rewrite firstn_skipn).
    assert (Hlenk : length (firstn k all) = k).
    { rewrite length_firstn. change (length all) with 36%nat. lia. }
    assert (Hfirst : probe_scan w n (firstn k all) = (Ret None, k)).
    { rewrite <- Hlenk at 2. apply probe_scan_all_recoverable.
      intros j c Hj.
      assert (Hlt : (j < k)%nat).
      { rewrite <- Hlenk. apply nth_error_Some. now rewrite Hj. }
      apply Hbefore; [exact Hlt |].
      rewrite nth_error_firstn in Hj.
      apply Nat.ltb_lt in Hlt. now rewrite Hlt in Hj. }
    assert (Hscan : (S k <= snd (probe_scan w n all))%nat).
    { rewrite Hsplit, probe_scan_app, Hfirst. cbn [fst snd]. rewrite Hlenk.
      destruct (skipn k all) as [| c rest] eqn:Hskip.
      - apply (f_equal (@length _)) in Hskip. rewrite length_skipn in Hskip.
        change (length all) with 36%nat in Hskip. change (length []) with 0%nat in Hskip.
        lia.
      - simpl. destruct (attempt_outcome c _) as [[r |] | e]; simpl; try lia.
        destruct (probe_scan w (S (n + k)) rest). simpl. lia. }
    exists (map combination_request
                (skipn (S k) (firstn (snd (probe_scan w n all)) all))).
    rewrite gets_app, Hgets, <- map_app. do 2 f_equal.
    rewrite <- (firstn_skipn (S k) (firstn (snd (probe_scan w n all)) all)) at 1.
    f_equal. rewrite firstn_firstn. f_equal. lia.
Qed.

Lemma prober_exhausts_36_combinations_witness :
  exists tr',
    fetch_crexi_listings sample_config sample_world []
    = (Ret (ProbeFailure "No working endpoint found"), tr') /\
    gets tr' = gets [] ++ map combination_request (combinations sample_config).
Proof.
  destruct (prober_exhausts_36_combinations sample_config sample_world [])
    as (_ & Hall & _).
  apply Hall. intros j c _. reflexivity.
Defined.

(** ** The batch persister (claim C6) *)

Lemma py_range_batches n :
  py_range 0 (Z.of_nat n) batch_size
  = map (fun k => batch_size * Z.of_nat k) (seq 0 ((n + 99) / 100)).
Proof.
  unfold py_range, batch_size. f_equal.
  replace (Z.of_nat n - 0 + 100 - 1) with (Z.of_nat (n + 99)) by lia.
  change 100 with (Z.of_nat 100). now rewrite <- Nat2Z.inj_div, Nat2Z.id.
Qed.

Lemma batches_chunks suites :
  batches suites
  = map (fun k => firstn 100 (skipn (100 * k) suites)) (seq 0 ((length suites + 99) / 100)).
Proof.
  unfold batches. rewrite py_range_batches, map_map.
  apply map_ext. intro k. unfold py_slice, batch_size.
  replace (Z.to_nat (100 * Z.of_nat k + 100 - 100 * Z.of_nat k)) with 100%nat by lia.
  replace (Z.to_nat (100 * Z.of_nat k)) with (100 * k)%nat by lia.
  reflexivity.
Qed.

Lemma chunks_shift (suites : list value) m :
  map (fun k => firstn 100 (skipn (100 * k) suites)) (seq 1 m)
  = map (fun k => firstn 100 (skipn (100 * k) (skipn 100 suites))) (seq 0 m).
Proof.
  rewrite <- seq_shift, map_map. apply map_ext. intro k.
  rewrite skipn_skipn. do 2 f_equal. lia.
Qed.

Lemma chunks_concat m : forall suites : list value,
  (length suites <= 100 * m)%nat ->
  concat (map (fun k => firstn 100 (skipn (100 * k) suites)) (seq 0 m)) = suites.
Proof.
  induction m as [| m IH]; intros suites Hlen.
  - destruct suites; [reflexivity | simpl in Hlen; lia].
  - cbn [seq map concat]. rewrite chunks_shift, IH.
    + change (100 * 0)%nat with 0%nat. cbn [skipn]. apply firstn_skipn.
    + rewrite length_skipn. lia.
Qed.

Lemma chunks_lengths m : forall (suites : list value) k batch,
  (100 * m < length suites + 100)%nat ->
  nth_error (map (fun k => firstn 100 (skipn (100 * k) suites)) (seq 0 m)) k = Some batch ->
  (1 <= length batch <= 100)%nat /\ ((S k < m)%nat -> length batch = 100%nat).
Proof.
  intros suites k batch Hm Hk.
  assert (Hlt : (k < m)%nat).
  { rewrite <- (length_seq m 0), <- (length_map (fun k => firstn 100 (skipn (100 * k) suites))).
    apply nth_error_Some. now rewrite Hk. }
  rewrite nth_error_map, nth_error_seq in Hk.
  apply Nat.ltb_lt in Hlt as Hltb. rewrite Hltb in Hk.
  change (Some (firstn 100 (skipn (100 * k) suites)) = Some batch) in Hk.
  assert (Hlen : length batch = Nat.min 100 (length suites - 100 * k)).
  { assert (Hb : firstn 100 (skipn (100 * k) suites) = batch) by congruence.
    rewrite <- Hb. now rewrite length_firstn, length_skipn. }
  lia.
Qed.

Lemma insert_batch_run supabase suites i w tr :
  let payload := VList (py_slice suites i (i + batch_size)) in
  exists evs,
    snd (insert_batch supabase suites i w tr) = tr ++ evs /\
    inserts evs = [("crexi_suite_snapshots", payload)] /\
    fst (insert_batch supabase suites i w tr)
    = match db_insert w (count is_insert tr) "crexi_suite_snapshots" payload with
      | None => Ret tt
      | Some e => Raise e
      end.
Proof.
  intro payload. unfold insert_batch. fold payload.
  rewrite bind_run. unfold table_insert_execute.
  destruct (db_insert w (count is_insert tr) "crexi_suite_snapshots" payload).
  - exists [EvInsert "crexi_suite_snapshots" payload]. repeat split.
  - eexists. cbn [print fst snd]. unfold log. rewrite <- app_assoc.
    split; [reflexivity |]. repeat split.
Qed.

(** The loop of lines 202-205 makes the inserts of its batches in order and
    stops at the first one the database refuses. *)
Lemma batch_loop_run supabase suites idxs : forall w tr,
  let plan :=
    map (fun i => ("crexi_suite_snapshots", VList (py_slice suites i (i + batch_size)))) idxs in
  let run := for_fold (fun _ i => insert_batch supabase suites i) tt idxs w tr in
  exists evs,
    snd run = tr ++ evs /\
    match first_refusal w (count is_insert tr) plan with
    | None => fst run = Ret tt /\ inserts evs = plan
    | Some (k, e) => fst run = Raise e /\ inserts evs = firstn (S k) plan
    end.
Proof.
  induction idxs as [| i idxs IH]; intros w tr plan run.
  - exists []. subst run plan. simpl. rewrite app_nil_r. repeat split.
  - subst run plan. cbn [for_fold map first_refusal]. rewrite bind_run.
    destruct (insert_batch_run supabase suites i w tr) as (evs1 & Htr1 & Hins1 & Hout1).
    destruct (insert_batch supabase suites i w tr) as [out1 tr1]. cbn [fst snd] in Htr1, Hout1.
    subst tr1 out1.
    destruct (db_insert w (count is_insert tr) "crexi_suite_snapshots"
                        (VList (py_slice suites i (i + batch_size)))) as [e |].
    + exists evs1. split; [reflexivity |]. split; [reflexivity | exact Hins1].
    + destruct (IH w (tr ++ evs1)) as (evs2 & Htr2 & Hrest).
      rewrite count_app, (count_inserts evs1), Hins1 in Hrest.
      cbn [length] in Hrest. rewrite Nat.add_1_r in Hrest.
      exists (evs1 ++ evs2). rewrite app_assoc. split; [exact Htr2 |].
      rewrite inserts_app, Hins1.
      destruct (first_refusal w (S (count is_insert tr)) _) as [[k e] |];
        destruct Hrest as [Hout Hins]; rewrite Hins; split; try exact Hout; reflexivity.
Qed.

(** The persister makes the planned inserts in order and stops at the first
    one the database refuses, raising what the database raised. *)
Lemma save_to_supabase_run supabase market suites w tr :
  let plan := planned_inserts market suites in
  let run := save_to_supabase supabase market suites w tr in
  exists evs,
    snd run = tr ++ evs /\
    match first_refusal w (count is_insert tr) plan with
    | None => fst run = Ret tt /\ inserts evs = plan
    | Some (k, e) => fst run = Raise e /\ inserts evs = firstn (S k) plan
    end.
Proof.
  intros plan run. subst plan run.
  unfold save_to_supabase, planned_inserts. cbn [first_refusal].
  rewrite bind_run. cbn [print]. unfold try_except.
  rewrite bind_run. cbn [print]. rewrite bind_run. unfold table_insert_execute.
  rewrite !count_log. cbn [is_insert]. rewrite !Nat.add_0_r.
  destruct (db_insert w (count is_insert tr) "crexi_market_snapshots" market) as [e |].
  - destruct (is_Exception e); eexists; cbn; unfold log; repeat rewrite <- app_assoc;
      (split; [reflexivity |]); repeat split.
  - rewrite bind_run. cbn [print]. rewrite bind_run.
    destruct suites as [| s suites].
    + eexists. cbn. unfold log. repeat rewrite <- app_assoc.
      split; [reflexivity |]. repeat split.
    + rewrite bind_run. cbn [print].
      remember (s :: suites) as all eqn:Hall. fold (batches all).
      unfold batches. rewrite map_map.
      match goal with
      | |- context [for_fold _ tt ?idxs w ?tr0] =>
          destruct (batch_loop_run supabase all idxs w tr0) as (evs & Htr & Hrest);
          destruct (for_fold (fun _ i => insert_batch supabase all i) tt idxs w tr0)
            as [out tr1] eqn:Hloop
      end.
      cbn [fst snd] in Htr, Hrest. subst tr1.
      rewrite !count_log in Hrest. cbn [is_insert] in Hrest.
      rewrite !Nat.add_0_r, Nat.add_1_r in Hrest.
      destruct (first_refusal w (S (count is_insert tr)) _) as [[k e] |];
        destruct Hrest as [-> Hins].
      * destruct (is_Exception e); eexists; cbn [fst snd print raise bind];
          unfold log; repeat rewrite <- app_assoc;
          (split; [reflexivity |]); (split; [reflexivity |]);
          cbn; rewrite ?inserts_app, Hins; cbn; now rewrite ?app_nil_r.
      * eexists; cbn [fst snd print raise bind];
          unfold log; repeat rewrite <- app_assoc;
          (split; [reflexivity |]); (split; [reflexivity |]);
          cbn; rewrite inserts_app, Hins; cbn; now rewrite ?app_nil_r.
Qed.

Lemma first_refusal_app w plan1 plan2 : forall n,
  first_refusal w n (plan1 ++ plan2) =
  match first_refusal w n plan1 with
  | Some r => Some r
  | None =>
      match first_refusal w (n + length plan1) plan2 with
      | Some (k, e) => Some ((length plan1 + k)%nat, e)
      | None => None
      end
  end.
Proof.
  induction plan1 as [| [table payload] plan1 IH]; intro n; simpl.
  - rewrite Nat.add_0_r. now destruct (first_refusal w n plan2) as [[k e] |].
  - destruct (db_insert w n table payload); [reflexivity |].
    rewrite IH. replace (S n + length plan1)%nat with (n + S (length plan1))%nat by lia.
    destruct (first_refusal w (S n) plan1) as [[k e] |]; [reflexivity |].
    now destruct (first_refusal w (n + S (length plan1)) plan2) as [[k e] |].
Qed.

Lemma first_refusal_firstn w plan : forall n k e,
  first_refusal w n plan = Some (k, e) ->
  first_refusal w n (firstn (S k) plan) = Some (k, e) /\
  length (firstn (S k) plan) = S k.
Proof.
  induction plan as [| [table payload] plan IH]; intros n k e H; [discriminate H |].
  simpl in H. cbn [firstn first_refusal length].
  destruct (db_insert w n table payload) as [e0 |].
  - inversion H; subst. split; reflexivity.
  - destruct (first_refusal w (S n) plan) as [[k0 e0] |] eqn:Hrest; [| discriminate H].
    inversion H; subst. destruct (IH _ _ _ Hrest) as [Hfirst Hlen].
    rewrite Hfirst, Hlen. split; reflexivity.
Qed.

Lemma quiet_stops_at_refusal {A} (m : M A) : quiet m -> stops_at_refusal m.
Proof.
  intros Hm w tr. destruct (Hm w tr) as (evs & Htr & Hins).
  exists evs. split; [exact Htr |]. now rewrite Hins.
Qed.

Lemma stops_at_refusal_bind {A B} (m : M A) (k : A -> M B) :
  stops_at_refusal m -> (forall a, stops_at_refusal (k a)) -> stops_at_refusal (bind m k).
Proof.
  intros Hm Hk w tr. rewrite bind_run.
  destruct (Hm w tr) as (evs1 & Htr1 & Hstop1).
  destruct (m w tr) as [[a | e] tr1]; cbn [fst snd] in Htr1, Hstop1; subst tr1.
  - destruct (Hk a w (tr ++ evs1)) as (evs2 & Htr2 & Hstop2).
    exists (evs1 ++ evs2). split; [now rewrite app_assoc |].
    rewrite inserts_app, first_refusal_app.
    destruct (first_refusal w (count is_insert tr) (inserts evs1)) as [[k1 e1] |].
    + destruct Hstop1 as [_ Hcontra]. discriminate Hcontra.
    + rewrite count_app, count_inserts with (tr := evs1) in Hstop2.
      destruct (first_refusal w (count is_insert tr + length (inserts evs1)) (inserts evs2))
        as [[k2 e2] |]; [| exact I].
      destruct Hstop2 as [Hlen Hout]. split; [rewrite length_app; lia | exact Hout].
  - exists evs1. split; [reflexivity |].
    destruct (first_refusal w (count is_insert tr) (inserts evs1)) as [[k1 e1] |]; [| exact I].
    destruct Hstop1 as [Hlen Hout]. inversion Hout; subst e1. split; [exact Hlen | reflexivity].
Qed.

Lemma save_to_supabase_stops supabase market suites : stops_at_refusal (save_to_supabase supabase market suites).
Proof.
  intros w tr. destruct (save_to_supabase_run supabase market suites w tr) as (evs & Htr & Hrun).
  exists evs. split; [exact Htr |].
  destruct (first_refusal w (count is_insert tr) (planned_inserts market suites))
    as [[k e] |] eqn:Hplan.
  - destruct Hrun as [Hout Hins]. rewrite Hins.
    destruct (first_refusal_firstn _ _ _ _ _ Hplan) as [-> Hlen].
    split; [now rewrite Hlen | exact Hout].
  - destruct Hrun as [_ ->]. now rewrite Hplan.
Qed.

(** *** Computations that insert nothing *)

Lemma quiet_ret {A} (a : A) : quiet (ret a).
Proof. intros w tr. exists []. now rewrite app_nil_r. Qed.

Lemma quiet_raise {A} (e : exn) : quiet (@raise A e).
Proof. intros w tr. exists []. now rewrite app_nil_r. Qed.

Lemma quiet_lift {A} (o : outcome A) : quiet (lift o).
Proof. destruct o; [apply quiet_ret | apply quiet_raise]. Qed.

Lemma quiet_print line : quiet (print line).
Proof. intros w tr. exists [EvPrint line]. split; reflexivity. Qed.

Lemma quiet_now : quiet now_isoformat.
Proof. intros w tr. eexists [_]. split; reflexivity. Qed.

Lemma quiet_bind {A B} (m : M A) (k : A -> M B) :
  quiet m -> (forall a, quiet (k a)) -> quiet (bind m k).
Proof.
  intros Hm Hk w tr. rewrite bind_run.
  destruct (Hm w tr) as (evs1 & Htr1 & Hins1).
  destruct (m w tr) as [[a | e] tr1]; cbn [snd] in Htr1; subst tr1.
  - destruct (Hk a w (tr ++ evs1)) as (evs2 & Htr2 & Hins2).
    exists (evs1 ++ evs2). split; [now rewrite app_assoc |].
    now rewrite inserts_app, Hins1, Hins2.
  - exists evs1. split; [reflexivity | exact Hins1].
Qed.

Lemma quiet_for_fold {A S} (body : S -> A -> M S) xs :
  (forall acc x, quiet (body acc x)) -> forall acc, quiet (for_fold body acc xs).
Proof.
  intro Hbody. induction xs as [| x xs IH]; intro acc; simpl.
  - apply quiet_ret.
  - apply quiet_bind; [apply Hbody | exact IH].
Qed.

Create HintDb quiet.
#[local] Hint Resolve quiet_ret quiet_raise quiet_lift quiet_print quiet_now
  quiet_bind quiet_for_fold : quiet.

Lemma quiet_validate_environment cfg : quiet (validate_environment cfg).
Proof.
  unfold validate_environment, sys_exit.
  destruct (missing_names cfg); auto 10 with quiet.
Qed.

Lemma quiet_get_supabase_client cfg : quiet (get_supabase_client cfg).
Proof.
  intros w tr. unfold get_supabase_client.
  destruct (create_client w (SUPABASE_URL cfg) (SUPABASE_KEY cfg));
    eexists [_]; split; reflexivity.
Qed.

Lemma quiet_fetch_crexi_listings cfg : quiet (fetch_crexi_listings cfg).
Proof.
  intros w tr. destruct (fetch_crexi_listings_scan cfg w tr) as (evs & Htr & Hins & _).
  exists evs. split; assumption.
Qed.

Lemma quiet_process_market_snapshot data : quiet (process_market_snapshot data).
Proof. unfold process_market_snapshot. auto 20 with quiet. Qed.

Lemma quiet_process_suite_snapshots py_repr data : quiet (process_suite_snapshots py_repr data).
Proof.
  unfold process_suite_snapshots, expand_listing, suite_snapshot.
  auto 40 with quiet.
Qed.

#[local] Hint Resolve quiet_validate_environment quiet_get_supabase_client
  quiet_fetch_crexi_listings quiet_process_market_snapshot
  quiet_process_suite_snapshots : quiet.

(** In a run of the whole script, the first insert the database refuses is
    the last insert made, and the script ends with what the database
    raised. *)
Lemma main_stops_at_refusal py_repr cfg : stops_at_refusal (main py_repr cfg).
Proof.
  unfold main, sys_exit.
  repeat (apply stops_at_refusal_bind;
          [apply quiet_stops_at_refusal; auto with quiet | intros _]).
  apply stops_at_refusal_bind; [apply quiet_stops_at_refusal; auto with quiet |].
  intro supabase.
  apply stops_at_refusal_bind; [apply quiet_stops_at_refusal; auto with quiet | intros _].
  apply stops_at_refusal_bind; [apply quiet_stops_at_refusal; auto with quiet |].
  intros [endpoint hdrs data | error].
  - apply stops_at_refusal_bind; [apply quiet_stops_at_refusal; auto with quiet | intros _].
    apply stops_at_refusal_bind; [apply quiet_stops_at_refusal; auto with quiet |].
    intro market.
    apply stops_at_refusal_bind; [apply quiet_stops_at_refusal; auto with quiet |].
    intro suites.
    apply stops_at_refusal_bind; [apply quiet_stops_at_refusal; auto with quiet |].
    intro total_properties.
    apply stops_at_refusal_bind; [apply quiet_stops_at_refusal; auto with quiet | intros _].
    apply stops_at_refusal_bind; [apply quiet_stops_at_refusal; auto with quiet | intros _].
    apply stops_at_refusal_bind; [apply save_to_supabase_stops | intros _].
    apply quiet_stops_at_refusal. auto 40 with quiet.
  - apply quiet_stops_at_refusal. auto with quiet.
Qed.

(** C6: the persister makes the market-snapshot insert first, then one
    insert per batch, in order, and stops at the first insert the database
    refuses, raising what the database raised; so a refused market insert
    leaves no suite insert, and a refused batch leaves no later batch.  The
    batches are the suite records cut, in order, into runs of 100, only the
    last of which may be shorter: 100, 100, 50 for 250 records.  In a run of
    the whole script the refused insert is the last insert made and the
    script ends with the very exception the database raised. *)
Theorem persister_order_and_abort :
  forall (py_repr : value -> string) (cfg : config) (supabase : client)
         (market : value) (suites : list value) (w : world) (tr : trace),
    let plan := planned_inserts market suites in
    let run := save_to_supabase supabase market suites w tr in
    (exists evs,
        snd run = tr ++ evs /\
        match first_refusal w (count is_insert tr) plan with
        | None => fst run = Ret tt /\ inserts evs = plan
        | Some (k, e) => fst run = Raise e /\ inserts evs = firstn (S k) plan
        end) /\
    plan = ("crexi_market_snapshots", market)
           :: map (fun batch => ("crexi_suite_snapshots", VList batch)) (batches suites) /\
    concat (batches suites) = suites /\
    (forall k batch,
        nth_error (batches suites) k = Some batch ->
        (1 <= length batch <= 100)%nat /\
        ((S k < length (batches suites))%nat -> length batch = 100%nat)) /\
    (length suites = 250%nat ->
     map (@length value) (batches suites) = [100; 100; 50]%nat) /\
    stops_at_refusal (main py_repr cfg).
Proof.
  intros py_repr cfg supabase market suites w tr plan run.
  split; [apply save_to_supabase_run |]. split; [reflexivity |].
  assert (Hdiv : (length suites <= 100 * ((length suites + 99) / 100)
                  /\ 100 * ((length suites + 99) / 100) < length suites + 100)%nat).
  { pose proof (Nat.div_mod_eq (length suites + 99) 100) as Heq.
    pose proof (Nat.mod_upper_bound (length suites + 99) 100) as Hlt. lia. }
  split; [| split; [| split]].
  - rewrite batches_chunks. apply chunks_concat. lia.
  - intros k batch Hk. rewrite batches_chunks in *.
    rewrite length_map, length_seq. eapply chunks_lengths; [| exact Hk]. lia.
  - intro H250. rewrite batches_chunks, H250.
    change ((250 + 99) / 100)%nat with 3%nat.
    cbn [seq map]. rewrite !length_firstn, !length_skipn, H250. reflexivity.
  - apply main_stops_at_refusal.
Qed.

Lemma persister_order_and_abort_witness :
  map (@length value) (batches (repeat VNone 250)) = [100; 100; 50]%nat.
Proof.
  destruct (persister_order_and_abort sample_repr sample_config sample_client VNone
              (repeat VNone 250)
              sample_world []) as (_ & _ & _ & _ & H250 & _).
  apply H250. apply repeat_length.
Defined.

(** 250 suite records and a database that accepts everything, run: one
    market insert, then three batch inserts of 100, 100 and 50 records. *)
Example save_to_supabase_250 :
  exists tr' first second third,
    save_to_supabase sample_client (VDict []) (repeat VNone 250) sample_world [] = (Ret tt, tr') /\
    inserts tr'
    = [ ("crexi_market_snapshots", VDict []);
        ("crexi_suite_snapshots", VList first);
        ("crexi_suite_snapshots", VList second);
        ("crexi_suite_snapshots", VList third) ] /\
    (length first, length second, length third) = (100, 100, 50)%nat.
Proof. eexists _, _, _, _. repeat split. Qed.

(** A refused market insert, run: one insert, no suite insert, and the
    exception of the database comes out as it is. *)
Example save_to_supabase_refused_market :
  exists tr',
    save_to_supabase sample_client (VDict []) (repeat VNone 250) refusing_world []
    = (Raise (OtherException "APIError" "permission denied"), tr') /\
    inserts tr' = [("crexi_market_snapshots", VDict [])].
Proof. eexists. split; reflexivity. Qed.

(** ** The configuration loader (claim C7) *)

Lemma missing_names_unset cfg : missing_names cfg = unset_names cfg.
Proof.
  unfold missing_names, unset_names, append_if_not. cbn [required_variables filter snd].
  destruct (env_not (CREXI_API_KEY cfg)), (env_not (SUPABASE_URL cfg)),
    (env_not (SUPABASE_KEY cfg)); reflexivity.
Qed.

(** C7: when k >= 1 of the three required variables are unset or empty, the
    script prints, after its banner, one message that lists exactly those k
    names, then the help lines, and exits with status 1; nothing else is
    done: no client is created, no request is sent, nothing is inserted. *)
Theorem missing_variables_abort :
  forall (py_repr : value -> string) (cfg : config) (w : world) (tr : trace),
    (1 <= length (unset_names cfg))%nat ->
    let evs :=
      [ EvPrint (str_repeat "=" 60);
        EvPrint "🏭 Crexi to Supabase Sync - Los Angeles Industrial Listings";
        EvPrint (str_repeat "=" 60);
        EvPrint ("❌ Missing required environment variables: "
                 ++ str_join ", " (unset_names cfg))%string;
        EvPrint (nl ++ "Please set them in your environment or .env file:")%string;
        EvPrint "  export CREXI_API_KEY='your-api-key'";
        EvPrint "  export SUPABASE_URL='your-supabase-url'";
        EvPrint "  export SUPABASE_KEY='your-supabase-key'" ] in
    missing_names cfg = unset_names cfg /\
    (forall name,
        In name (unset_names cfg) <->
        exists variable,
          In (name, variable) required_variables /\ env_not (variable cfg) = true) /\
    main py_repr cfg w tr = (Raise (SystemExit 1), tr ++ evs) /\
    filter is_network evs = [] /\
    SystemExit 1 <> SystemExit 0.
Proof.
  intros py_repr cfg w tr Hk evs.
  split; [apply missing_names_unset |]. split; [| split; [| split]].
  - intro name. unfold unset_names. rewrite in_map_iff. split.
    + intros ([name' variable] & <- & Hin). apply filter_In in Hin.
      destruct Hin as [Hin Hnot]. exists variable. split; assumption.
    + intros (variable & Hin & Hnot). exists (name, variable).
      split; [reflexivity |]. apply filter_In. split; assumption.
  - unfold main. rewrite !bind_run. cbn [print]. rewrite !bind_run.
    unfold validate_environment. rewrite missing_names_unset.
    destruct (unset_names cfg) as [| name names] eqn:Hnames;
      [simpl in Hk; lia |].
    subst evs. cbn. unfold log. repeat rewrite <- app_assoc. reflexivity.
  - reflexivity.
  - discriminate.
Qed.

Lemma missing_variables_abort_witness :
  main sample_repr url_only_config sample_world []
  = (Raise (SystemExit 1),
     [ EvPrint (str_repeat "=" 60);
       EvPrint "🏭 Crexi to Supabase Sync - Los Angeles Industrial Listings";
       EvPrint (str_repeat "=" 60);
       EvPrint "❌ Missing required environment variables: CREXI_API_KEY, SUPABASE_KEY";
       EvPrint (nl ++ "Please set them in your environment or .env file:")%string;
       EvPrint "  export CREXI_API_KEY='your-api-key'";
       EvPrint "  export SUPABASE_URL='your-supabase-url'";
       EvPrint "  export SUPABASE_KEY='your-supabase-key'" ]).
Proof.
  destruct (missing_variables_abort sample_repr url_only_config sample_world [])
    as (_ & _ & Hrun & _).
  - simpl. lia.
  - exact Hrun.
Defined.

(** ** Further properties of the prober *)

Lemma probe_scan_at_least_one w n c cs : (1 <= snd (probe_scan w n (c :: cs)))%nat.
Proof.
  simpl. destruct (attempt_outcome c (http w n (combination_request c))) as [[r |] | e];
    simpl; try lia.
  destruct (probe_scan w (S n) cs). simpl. lia.
Qed.

Lemma Forall_prefix {A} (P : A -> Prop) (xs : list A) : forall k,
  Forall P xs -> Forall P (firstn k xs).
Proof.
  induction xs as [| x xs IH]; intros k H.
  - now rewrite firstn_nil.
  - destruct k; [constructor |]. inversion H; subst. simpl. constructor; auto.
Qed.

Lemma combinations_probe_shaped cfg :
  Forall probe_shaped (map combination_request (combinations cfg)).
Proof. unfold probe_shaped. cbn. repeat constructor. Qed.

(** X1: whatever the server answers, and however the prober ends (with a
    result, a failure or an exception), the requests it has sent are the
    first [k] combinations in the fixed order, for some [k] between 1 and
    36, each with the fixed query parameters, the 10-second timeout and one
    header; the prober inserts nothing. *)
Theorem prober_requests_are_a_prefix :
  forall (cfg : config) (w : world) (tr : trace),
  exists k evs,
    snd (fetch_crexi_listings cfg w tr) = tr ++ evs /\
    (1 <= k <= 36)%nat /\
    gets evs = map combination_request (firstn k (combinations cfg)) /\
    Forall probe_shaped (gets evs) /\
    inserts evs = [].
Proof.
  intros cfg w tr.
  destruct (fetch_crexi_listings_scan cfg w tr) as (evs & Htr & Hins & Hgets & _).
  exists (snd (probe_scan w (count is_get tr) (combinations cfg))), evs.
  split; [exact Htr |]. split; [| split; [exact Hgets | split; [| exact Hins]]].
  - split.
    + change (combinations cfg) with
        (hd (CREXI_BASE_URL, "/v1/listings"%string, []) (combinations cfg)
         :: tl (combinations cfg)).
      apply probe_scan_at_least_one.
    + apply (probe_scan_le w (combinations cfg)).
  - rewrite Hgets, <- firstn_map. apply Forall_prefix, combinations_probe_shaped.
Qed.

(** How the prober ends, from how the scan of the combinations ends. *)
Lemma fetch_of_scan cfg w tr o k :
  probe_scan w (count is_get tr) (combinations cfg) = (o, k) ->
  exists tr',
    fetch_crexi_listings cfg w tr
    = (match o with
       | Ret (Some r) => Ret r
       | Ret None => Ret (ProbeFailure "No working endpoint found")
       | Raise e => Raise e
       end, tr') /\
    gets tr' = gets tr ++ map combination_request (firstn k (combinations cfg)).
Proof.
  intro Hscan.
  destruct (fetch_crexi_listings_scan cfg w tr) as (evs & Htr & _ & Hgets & Hout).
  rewrite Hscan in Hgets, Hout. cbn [fst snd] in Hgets, Hout.
  destruct (fetch_crexi_listings cfg w tr) as [out tr']. cbn [fst snd] in *. subst.
  eexists. split; [reflexivity |]. now rewrite gets_app, Hgets.
Qed.

Lemma probe_scan_all_none w cs : forall n,
  (forall j c, nth_error cs j = Some c ->
               attempt_outcome c (http w (n + j) (combination_request c)) = Ret None) ->
  probe_scan w n cs = (Ret None, length cs).
Proof.
  induction cs as [| c cs IH]; intros n H; [reflexivity |].
  simpl. pose proof (H 0%nat c eq_refl) as H0. rewrite Nat.add_0_r in H0. rewrite H0.
  rewrite IH; [reflexivity |]. intros j c' Hj.
  replace (S n + j)%nat with (n + S j)%nat by lia. now apply H.
Qed.

(** X2: only the [RequestException] family is swallowed: when the answers before
    the [k]-th are recoverable and the [k]-th attempt meets any other
    exception, out of [requests.get] or out of [response.json()] on a 200,
    the prober ends there with that very exception, after [k + 1]
    requests. *)
Theorem prober_lets_other_exceptions_through :
  forall (cfg : config) (w : world) (tr : trace) (k : nat) (c : combination) (e : exn),
    nth_error (combinations cfg) k = Some c ->
    (forall j c', (j < k)%nat -> nth_error (combinations cfg) j = Some c' ->
                  recoverable (http w (count is_get tr + j) (combination_request c')) = true) ->
    (http w (count is_get tr + k) (combination_request c) = RequestRaises e \/
     exists text,
       http w (count is_get tr + k) (combination_request c) = Response 200 text (Raise e)) ->
    is_RequestException e = false ->
    exists tr',
      fetch_crexi_listings cfg w tr = (Raise e, tr') /\
      gets tr' = gets tr ++ map combination_request (firstn (S k) (combinations cfg)).
Proof.
  intros cfg w tr k c e Hk Hbefore Hanswer He.
  apply (fetch_of_scan cfg w tr (Raise e) (S k)).
  apply (probe_scan_first_end w _ _ k c); try assumption; [| discriminate].
  destruct Hanswer as [-> | (text & ->)]; simpl; now rewrite He.
Qed.

Lemma prober_lets_other_exceptions_through_witness :
  exists tr',
    fetch_crexi_listings sample_config interrupted_world []
    = (Raise (BaseExceptionOther "KeyboardInterrupt"), tr') /\
    gets tr' = gets [] ++ map combination_request (firstn 1 (combinations sample_config)).
Proof.
  apply (prober_lets_other_exceptions_through sample_config interrupted_world [] 0
           ("https://api.crexi.com", "/v1/listings", [("Authorization", Some "Bearer key")])%string).
  - reflexivity.
  - intros j c' Hj. lia.
  - left. reflexivity.
  - reflexivity.
Defined.

(** X3: [response.json()] is called inside the [try]: a 200 whose body fails to
    decode with an exception of the [RequestException] family counts as a
    failed attempt.  When every attempt ends in a transport failure, a
    status other than 200, or such a 200, the prober sends all 36 requests
    and returns the failure result. *)
Theorem prober_swallows_undecodable_200 :
  forall (cfg : config) (w : world) (tr : trace),
    (forall j c,
        nth_error (combinations cfg) j = Some c ->
        let answer := http w (count is_get tr + j) (combination_request c) in
        recoverable answer = true \/
        exists text e,
          answer = Response 200 text (Raise e) /\ is_RequestException e = true) ->
    exists tr',
      fetch_crexi_listings cfg w tr = (Ret (ProbeFailure "No working endpoint found"), tr') /\
      gets tr' = gets tr ++ map combination_request (combinations cfg).
Proof.
  intros cfg w tr Hall.
  destruct (fetch_of_scan cfg w tr (Ret None) (length (combinations cfg))) as (tr' & Hrun & Hgets).
  - apply probe_scan_all_none. intros j c Hj.
    destruct (Hall j c Hj) as [Hrec | (text & e & Hanswer & He)].
    + now apply recoverable_goes_on.
    + rewrite Hanswer. simpl. now rewrite He.
  - exists tr'. split; [exact Hrun |]. now rewrite firstn_all in Hgets.
Qed.

Lemma prober_swallows_undecodable_200_witness :
  exists tr',
    fetch_crexi_listings sample_config undecodable_world []
    = (Ret (ProbeFailure "No working endpoint found"), tr') /\
    gets tr' = gets [] ++ map combination_request (combinations sample_config).
Proof.
  apply (prober_swallows_undecodable_200 sample_config undecodable_world []).
  intros j c _. right. exists "<html>"%string, (RequestException "Expecting value").
  split; reflexivity.
Defined.

(** ** Further properties of the record builders *)

Lemma clock_only_ret {A} (a : A) : clock_only (ret a).
Proof.
  intros w tr. exists []. rewrite app_nil_r. repeat split; [constructor |].
  intros e H. discriminate H.
Qed.

Lemma clock_only_lift {A} (o : outcome A) :
  (forall e, o = Raise e -> e = TypeError \/ e = AttributeError) -> clock_only (lift o).
Proof.
  intros Ho w tr. exists []. rewrite lift_run, app_nil_r. repeat split; [constructor |].
  exact Ho.
Qed.

Lemma clock_only_now : clock_only now_isoformat.
Proof.
  intros w tr. eexists [_]. repeat split; [repeat constructor |].
  intros e H. discriminate H.
Qed.

Lemma clock_only_bind {A B} (m : M A) (k : A -> M B) :
  clock_only m -> (forall a, clock_only (k a)) -> clock_only (bind m k).
Proof.
  intros Hm Hk w tr. rewrite bind_run.
  destruct (Hm w tr) as (evs1 & Htr1 & Hnow1 & Hexn1).
  destruct (m w tr) as [[a | e] tr1]; cbn [fst snd] in Htr1, Hexn1; subst tr1.
  - destruct (Hk a w (tr ++ evs1)) as (evs2 & Htr2 & Hnow2 & Hexn2).
    exists (evs1 ++ evs2). rewrite app_assoc.
    split; [exact Htr2 |]. split; [now apply Forall_app | exact Hexn2].
  - exists evs1. split; [reflexivity |]. split; [exact Hnow1 |].
    intros e' H. inversion H; subst e'. now apply Hexn1.
Qed.

Lemma clock_only_for_fold {A S} (body : S -> A -> M S) xs :
  (forall acc x, clock_only (body acc x)) -> forall acc, clock_only (for_fold body acc xs).
Proof.
  intro Hbody. induction xs as [| x xs IH]; intro acc; simpl.
  - apply clock_only_ret.
  - apply clock_only_bind; [apply Hbody | exact IH].
Qed.

Lemma py_get_raises obj key default e :
  py_get obj key default = Raise e -> e = TypeError \/ e = AttributeError.
Proof. destruct obj; simpl; intro H; inversion H; now right. Qed.

Lemma py_len_raises obj e : py_len obj = Raise e -> e = TypeError \/ e = AttributeError.
Proof. destruct obj; simpl; intro H; inversion H; now left. Qed.

Lemma py_iter_raises obj e : py_iter obj = Raise e -> e = TypeError \/ e = AttributeError.
Proof. destruct obj; simpl; intro H; inversion H; now left. Qed.

Lemma extract_listings_raises data e :
  extract_listings data = Raise e -> e = TypeError \/ e = AttributeError.
Proof. destruct data; simpl; intro H; inversion H; now right. Qed.

Lemma suite_list_of_raises listing e :
  suite_list_of listing = Raise e -> e = TypeError \/ e = AttributeError.
Proof. apply py_get_raises. Qed.

Lemma suite_count_raises listing e :
  suite_count listing = Raise e -> e = TypeError \/ e = AttributeError.
Proof.
  unfold suite_count. destruct (suite_list_of listing) eqn:H.
  - apply py_len_raises.
  - intro H'. inversion H'; subst. now apply suite_list_of_raises in H.
Qed.

Create HintDb clock.
#[local] Hint Resolve py_get_raises py_len_raises py_iter_raises extract_listings_raises
  suite_list_of_raises suite_count_raises : clock.

Ltac clock_step :=
  first
    [ apply clock_only_bind; [| intro]
    | apply clock_only_ret
    | apply clock_only_now
    | apply clock_only_for_fold; intros
    | apply clock_only_lift; intros ? ?; eauto with clock ].

(** X4: the two record builders touch nothing but the clock: on any payload
    whatever, they print nothing, send nothing, insert nothing, and what they
    raise, if they raise, is a [TypeError] or an [AttributeError]. *)
Theorem builders_only_read_the_clock :
  forall (py_repr : value -> string) (data : value),
    clock_only (process_market_snapshot data) /\
    clock_only (process_suite_snapshots py_repr data).
Proof.
  intros py_repr data. split.
  - unfold process_market_snapshot. repeat clock_step.
  - unfold process_suite_snapshots, expand_listing, suite_snapshot. repeat clock_step.
Qed.

Lemma clock_readings_S w n k :
  clock_readings w n (S k) = clock w n :: clock_readings w (S n) k.
Proof.
  unfold clock_readings. cbn [seq map]. rewrite Nat.add_0_r. f_equal.
  rewrite <- seq_shift, map_map. apply map_ext. intro i. f_equal. lia.
Qed.

Lemma clock_readings_app w n a b :
  clock_readings w n (a + b) = clock_readings w n a ++ clock_readings w (n + a) b.
Proof.
  revert n. induction a as [| a IH]; intro n.
  - simpl. now rewrite Nat.add_0_r.
  - cbn [Nat.add]. rewrite !clock_readings_S, IH. cbn [app]. do 3 f_equal. lia.
Qed.

Lemma clock_readings_length w n k : length (clock_readings w n k) = k.
Proof. unfold clock_readings. now rewrite length_map, length_seq. Qed.

Lemma count_now_stamps tr stamps :
  count is_now (tr ++ map EvNow stamps) = (count is_now tr + length stamps)%nat.
Proof.
  rewrite count_app. f_equal. unfold count.
  induction stamps as [| s stamps IH]; [reflexivity |]. simpl. now rewrite IH.
Qed.

Lemma stamped_refl w tr acc : stamped w tr acc acc tr.
Proof. exists []. simpl. now rewrite !app_nil_r. Qed.

Lemma stamped_trans w tr1 acc1 tr2 acc2 tr3 acc3 :
  stamped w tr1 acc1 acc2 tr2 -> stamped w tr2 acc2 acc3 tr3 -> stamped w tr1 acc1 acc3 tr3.
Proof.
  intros (r1 & -> & -> & Hd1) (r2 & -> & -> & Hd2).
  rewrite count_now_stamps, clock_readings_length in Hd2 |- *.
  exists (r1 ++ r2). cbn zeta.
  rewrite length_app, clock_readings_app, !map_app, Hd1, Hd2, !app_assoc.
  repeat split.
Qed.

Lemma stamped_for_fold {A} (body : list value -> A -> M (list value)) :
  (forall acc x w tr out tr', body acc x w tr = (Ret out, tr') -> stamped w tr acc out tr') ->
  forall xs acc w tr out tr',
    for_fold body acc xs w tr = (Ret out, tr') -> stamped w tr acc out tr'.
Proof.
  intros Hbody xs. induction xs as [| x xs IH]; intros acc w tr out tr' H.
  - inversion H; subst. apply stamped_refl.
  - simpl in H. bind_inv H as acc1 tr1 Hstep.
    eapply stamped_trans; [eapply Hbody; exact Hstep | eapply IH; exact H].
Qed.

Lemma suite_snapshot_stamped py_repr listing suite acc w tr out tr' :
  (snapshot <- suite_snapshot py_repr listing suite ;; ret (acc ++ [snapshot])) w tr
  = (Ret out, tr') ->
  stamped w tr acc out tr'.
Proof.
  intro H. bind_inv H as record tr1 Hstep. inversion H; subst out tr1; clear H.
  destruct (suite_snapshot_Ret_inv _ _ _ _ _ _ _ Hstep) as (le & se & -> & ->).
  rewrite suite_snapshot_dict in Hstep. inversion Hstep; subst; clear Hstep.
  eexists [_]. cbn zeta. cbn [length]. rewrite clock_readings_S.
  repeat split.
Qed.

Lemma process_suite_snapshots_stamped py_repr data w tr records tr' :
  process_suite_snapshots py_repr data w tr = (Ret records, tr') ->
  stamped w tr [] records tr'.
Proof.
  unfold process_suite_snapshots. intro H.
  lift_inv H as listings Hex. lift_inv H as items Hit.
  apply (stamped_for_fold (expand_listing py_repr)) in H; [exact H |].
  clear. intros acc listing w tr out tr' H. unfold expand_listing in H.
  lift_inv H as suite_list Hsl. lift_inv H as suites Hit.
  eapply stamped_for_fold; [| exact H].
  clear. intros acc suite w tr out tr'. apply suite_snapshot_stamped.
Qed.

(** X5: the clock is read once per record, when the record is built, not once
    per run: whenever the suite builder returns, all it has done is read the
    clock as many times as it returns records, and the [snapshot_date] of
    each record is the reading made for it, in order.  The builder returns
    on every payload of the expected shape. *)
Theorem suite_records_dated_one_by_one :
  forall (py_repr : value -> string) (data : value) (w : world) (tr : trace),
    (well_shaped data = true ->
     exists records tr', process_suite_snapshots py_repr data w tr = (Ret records, tr')) /\
    (forall records tr',
        process_suite_snapshots py_repr data w tr = (Ret records, tr') ->
        let stamps := clock_readings w (count is_now tr) (length records) in
        tr' = tr ++ map EvNow stamps /\
        map (fun record => py_index record "snapshot_date") records
        = map (fun stamp => Ret (VStr stamp)) stamps).
Proof.
  intros py_repr data w tr. split; [apply process_suite_snapshots_returns |].
  intros records tr' H. apply process_suite_snapshots_stamped in H.
  destruct H as (recs & Hout & Htr & Hdates). simpl in Hout. subst recs.
  split; assumption.
Qed.

Lemma suite_records_dated_one_by_one_witness :
  exists records tr',
    process_suite_snapshots sample_repr payload_A1 sample_world [] = (Ret records, tr') /\
    tr' = map EvNow (clock_readings sample_world 0 (length records)).
Proof.
  destruct (suite_records_dated_one_by_one sample_repr payload_A1 sample_world [])
    as [Hret Hdated].
  destruct (Hret eq_refl) as (records & tr' & Hrun).
  exists records, tr'. split; [exact Hrun |].
  exact (proj1 (Hdated _ _ Hrun)).
Defined.

Lemma snapshot_of_raw_data py_repr listing suite record :
  snapshot_of py_repr listing suite record -> py_index record "raw_data" = Ret suite.
Proof.
  intros (w & tr & tr' & H).
  destruct (suite_snapshot_Ret_inv _ _ _ _ _ _ _ H) as (le & se & -> & ->).
  rewrite suite_snapshot_dict in H. inversion H. reflexivity.
Qed.

Lemma records_of_suite_lists py_repr listings groups :
  Forall2 (records_of py_repr) listings groups ->
  exists suite_lists,
    Forall2 (fun listing suites => suite_items listing = Ret suites) listings suite_lists /\
    map (fun record => py_index record "raw_data") (concat groups)
    = map Ret (concat suite_lists).
Proof.
  intro Hgs.
  induction Hgs as [| listing group listings groups (suites & Hsuites & Hrecs) _ IH].
  - exists []. split; [constructor | reflexivity].
  - destruct IH as (suite_lists & Hall & Hraw).
    exists (suites :: suite_lists). split; [now constructor |].
    cbn [concat]. rewrite !map_app, Hraw. f_equal.
    clear - Hrecs. induction Hrecs as [| s r ss rs Hs _ IHr]; [reflexivity |].
    cbn [map]. now rewrite IHr, (snapshot_of_raw_data _ _ _ _ Hs).
Qed.

(** X6: order is kept and nothing is dropped: whenever the suite builder
    returns, its records are, listing after listing in the order of the
    listings, one per item of each listing's suite list in the order of
    that list, and the [raw_data] of each record is that very item.  The
    builder returns on every payload of the expected shape. *)
Theorem suite_records_keep_order :
  forall (py_repr : value -> string) (data : value) (w : world) (tr : trace),
    (well_shaped data = true ->
     exists records tr', process_suite_snapshots py_repr data w tr = (Ret records, tr')) /\
    (forall records tr',
        process_suite_snapshots py_repr data w tr = (Ret records, tr') ->
        exists listings suite_lists,
          listing_items data = Ret listings /\
          Forall2 (fun listing suites => suite_items listing = Ret suites)
                  listings suite_lists /\
          map (fun record => py_index record "raw_data") records
          = map Ret (concat suite_lists)).
Proof.
  intros py_repr data w tr. split; [apply process_suite_snapshots_returns |].
  intros records tr' H. apply process_suite_snapshots_Ret in H.
  destruct H as (listings & groups & Hitems & -> & Hgs).
  destruct (records_of_suite_lists _ _ _ Hgs) as (suite_lists & Hall & Hraw).
  exists listings, suite_lists. repeat split; assumption.
Qed.

Lemma suite_records_keep_order_witness :
  exists records tr' suite_lists,
    process_suite_snapshots sample_repr payload_A1 sample_world [] = (Ret records, tr') /\
    map (fun record => py_index record "raw_data") records = map Ret (concat suite_lists).
Proof.
  destruct (suite_records_keep_order sample_repr payload_A1 sample_world [])
    as [Hret Horder].
  destruct (Hret eq_refl) as (records & tr' & Hrun).
  destruct (Horder _ _ Hrun) as (listings & suite_lists & _ & _ & Hraw).
  exists records, tr', suite_lists. split; assumption.
Defined.

Lemma records_of_own_suite py_repr listing group :
  records_of py_repr listing group -> own_suite_record py_repr listing group.
Proof.
  intros (suites & Hsuites & Hrecs) le -> Hnone.
  unfold suite_items, suite_list_of in Hsuites. rewrite py_get_dict in Hsuites.
  unfold dict_get_default in Hsuites. rewrite Hnone in Hsuites.
  inversion Hsuites; subst suites; clear Hsuites.
  inversion Hrecs as [| ? record ? rest Hrecord Hrest]; subst.
  inversion Hrest; subst. exists record. split; [reflexivity |].
  split; [now apply (snapshot_of_raw_data py_repr (VDict le)) |].
  intros v Hid. destruct Hrecord as (w & tr & tr' & H).
  rewrite suite_snapshot_dict in H. inversion H; subst record; clear H.
  unfold dict_get_default. rewrite Hid. split; reflexivity.
Qed.

(** X7: a listing without a [suites] key is its own suite: whenever the suite
    builder returns, such a listing has given exactly one record, whose
    [raw_data] is the listing itself, and when the listing has an [id], that
    one value is both the record's [crexi_asset_id] and its
    [crexi_suite_id].  The builder returns on every payload of the expected
    shape. *)
Theorem listing_without_suites_is_its_own_suite :
  forall (py_repr : value -> string) (data : value) (w : world) (tr : trace),
    (well_shaped data = true ->
     exists records tr', process_suite_snapshots py_repr data w tr = (Ret records, tr')) /\
    (forall records tr',
        process_suite_snapshots py_repr data w tr = (Ret records, tr') ->
        exists listings groups,
          listing_items data = Ret listings /\
          records = concat groups /\
          Forall2 (own_suite_record py_repr) listings groups).
Proof.
  intros py_repr data w tr. split; [apply process_suite_snapshots_returns |].
  intros records tr' H. apply process_suite_snapshots_Ret in H.
  destruct H as (listings & groups & Hitems & -> & Hgs).
  exists listings, groups. repeat split; [exact Hitems |].
  clear - Hgs. induction Hgs; constructor; [now apply records_of_own_suite | assumption].
Qed.

Lemma listing_without_suites_is_its_own_suite_witness :
  exists records tr' listings groups,
    process_suite_snapshots sample_repr payload_A2 sample_world [] = (Ret records, tr') /\
    listing_items payload_A2 = Ret listings /\
    records = concat groups /\
    Forall2 (own_suite_record sample_repr) listings groups.
Proof.
  destruct (listing_without_suites_is_its_own_suite sample_repr payload_A2 sample_world [])
    as [Hret Hown].
  destruct (Hret eq_refl) as (records & tr' & Hrun).
  destruct (Hown _ _ Hrun) as (listings & groups & Hitems & Hrecords & Hgs).
  exists records, tr', listings, groups. repeat split; assumption.
Defined.

(** X8: presence decides, not the value: whenever the suite builder returns,
    each record takes every field from the key it looks up first when that
    key is present ([id], [size], [rate], and the listing's [address],
    [city], [state], [zip]), even when the key holds null: an [id] of null
    gives the identifier "None", not the alternate [assetId].  The builder
    returns on every payload of the expected shape. *)
Theorem suite_record_preferred_keys :
  forall (py_repr : value -> string) (data : value) (w : world) (tr : trace),
    (well_shaped data = true ->
     exists records tr', process_suite_snapshots py_repr data w tr = (Ret records, tr')) /\
    (forall records tr',
        process_suite_snapshots py_repr data w tr = (Ret records, tr') ->
        exists listings,
          listing_items data = Ret listings /\
          Forall (preferred_keys_win py_repr listings) records).
Proof.
  intros py_repr data w tr. split; [apply process_suite_snapshots_returns |].
  intros records tr' H. apply suite_records_sources in H.
  destruct H as (listings & Hitems & Hrecs).
  exists listings. split; [exact Hitems |].
  eapply Forall_impl; [| exact Hrecs].
  intros record (le & se & Hin & Hs).
  exists le, se. split; [exact Hin |]. split; [exact Hs |].
  destruct Hs as (w0 & tr0 & tr0' & Hs).
  rewrite suite_snapshot_dict in Hs. inversion Hs; subst record; clear Hs.
  unfold dict_get_default.
  repeat split; try (intros v Hv; cbn; now rewrite Hv).
  intro Hv. cbn. now rewrite Hv.
Qed.

Lemma suite_record_preferred_keys_witness :
  exists records tr' listings,
    process_suite_snapshots sample_repr payload_A1 sample_world [] = (Ret records, tr') /\
    listing_items payload_A1 = Ret listings /\
    Forall (preferred_keys_win sample_repr listings) records.
Proof.
  destruct (suite_record_preferred_keys sample_repr payload_A1 sample_world [])
    as [Hret Hkeys].
  destruct (Hret eq_refl) as (records & tr' & Hrun).
  destruct (Hkeys _ _ Hrun) as (listings & Hitems & Hrecs).
  exists records, tr', listings. repeat split; assumption.
Defined.

(** X9: fallbacks and defaults: whenever the suite builder returns, each record
    takes [address], [city] and [state] from the suite when the listing
    lacks them, [zip] from the suite's [zipCode] when the listing lacks
    [zip], and [None] when the suite lacks them too; [rate_type], [status]
    and [property_type] default to "Monthly", "Active" and "Industrial";
    [market_area] is always "Los Angeles".  The builder returns on every
    payload of the expected shape. *)
Theorem suite_record_fallbacks :
  forall (py_repr : value -> string) (data : value) (w : world) (tr : trace),
    (well_shaped data = true ->
     exists records tr', process_suite_snapshots py_repr data w tr = (Ret records, tr')) /\
    (forall records tr',
        process_suite_snapshots py_repr data w tr = (Ret records, tr') ->
        exists listings,
          listing_items data = Ret listings /\
          Forall (fallbacks_and_defaults py_repr listings) records).
Proof.
  intros py_repr data w tr. split; [apply process_suite_snapshots_returns |].
  intros records tr' H. apply suite_records_sources in H.
  destruct H as (listings & Hitems & Hrecs).
  exists listings. split; [exact Hitems |].
  eapply Forall_impl; [| exact Hrecs].
  intros record (le & se & Hin & Hs).
  exists le, se. split; [exact Hin |]. split; [exact Hs |].
  destruct Hs as (w0 & tr0 & tr0' & Hs).
  rewrite suite_snapshot_dict in Hs. inversion Hs; subst record; clear Hs.
  repeat split; try (intro Hv; cbn; unfold dict_get_default at 1; now rewrite Hv).
Qed.

Lemma suite_record_fallbacks_witness :
  exists records tr' listings,
    process_suite_snapshots sample_repr payload_A1 sample_world [] = (Ret records, tr') /\
    listing_items payload_A1 = Ret listings /\
    Forall (fallbacks_and_defaults sample_repr listings) records.
Proof.
  destruct (suite_record_fallbacks sample_repr payload_A1 sample_world [])
    as [Hret Hfall].
  destruct (Hret eq_refl) as (records & tr' & Hrun).
  destruct (Hfall _ _ Hrun) as (listings & Hitems & Hrecs).
  exists records, tr', listings. repeat split; assumption.
Defined.

Lemma py_len_nonneg obj n : py_len obj = Ret n -> 0 <= n.
Proof. destruct obj; simpl; intro H; inversion H; lia. Qed.

Lemma suite_counts_nonneg listings counts :
  Forall2 (fun listing n => suite_count listing = Ret n) listings counts ->
  0 <= sum_Z counts.
Proof.
  induction 1 as [| listing n listings counts Hn _ IH]; simpl; [lia |].
  unfold suite_count in Hn. destruct (suite_list_of listing); [| discriminate].
  apply py_len_nonneg in Hn. lia.
Qed.

Lemma suite_counts_all_one listings counts :
  Forall2 (fun listing n => suite_count listing = Ret n) listings counts ->
  Forall (fun listing => forall le, listing = VDict le -> dict_get le "suites" = None)
         listings ->
  sum_Z counts = Z.of_nat (length listings).
Proof.
  induction 1 as [| listing n listings counts Hn _ IH]; intro Hall; [reflexivity |].
  inversion Hall as [| ? ? Hlisting Hrest]; subst.
  cbn [sum_Z fold_right length]. fold (sum_Z counts). rewrite (IH Hrest).
  destruct listing; try discriminate Hn.
  rewrite suite_count_dict in Hn. unfold dict_get_default in Hn.
  rewrite (Hlisting entries eq_refl) in Hn. simpl in Hn. inversion Hn. lia.
Qed.

(** X10: the counts of the market snapshot: whenever the market builder returns,
    it has read the clock once and nothing else, the snapshot keeps the
    whole payload as [raw_data], both counts are non-negative integers, and
    when no listing has a [suites] key the two counts are equal.  The
    builder returns on every payload of the expected shape. *)
Theorem market_snapshot_totals :
  forall (data : value) (w : world) (tr : trace),
    (well_shaped data = true ->
     exists snapshot tr', process_market_snapshot data w tr = (Ret snapshot, tr')) /\
    (forall snapshot tr',
        process_market_snapshot data w tr = (Ret snapshot, tr') ->
        exists listings properties suites,
          listing_items data = Ret listings /\
          tr' = tr ++ [EvNow (clock w (count is_now tr))] /\
          py_index snapshot "snapshot_date" = Ret (VStr (clock w (count is_now tr))) /\
          py_index snapshot "raw_data" = Ret data /\
          py_index snapshot "total_properties" = Ret (VInt properties) /\
          py_index snapshot "total_suites" = Ret (VInt suites) /\
          0 <= properties /\ 0 <= suites /\
          (Forall (fun listing =>
                     forall le, listing = VDict le -> dict_get le "suites" = None)
                  listings ->
           suites = properties)).
Proof.
  intros data w tr. split; [apply process_market_snapshot_returns |].
  intros snapshot tr' H. apply process_market_snapshot_Ret in H.
  destruct H as (listings & counts & Hitems & Hcs & -> & ->).
  exists listings, (Z.of_nat (length listings)), (sum_Z counts).
  repeat split; try assumption; try lia.
  - now apply (suite_counts_nonneg listings).
  - now apply suite_counts_all_one.
Qed.

Lemma market_snapshot_totals_witness :
  exists snapshot tr',
    process_market_snapshot payload_A2 sample_world [] = (Ret snapshot, tr') /\
    py_index snapshot "total_properties" = Ret (VInt 1) /\
    py_index snapshot "total_suites" = Ret (VInt 1).
Proof.
  destruct (market_snapshot_totals payload_A2 sample_world []) as [Hret Htotals].
  destruct (Hret eq_refl) as (snapshot & tr' & Hrun).
  exists snapshot, tr'. split; [exact Hrun |].
  destruct (Htotals _ _ Hrun)
    as (listings & properties & suites & Hitems & _ & _ & _ & Hp & Hs & _ & _ & Hsame).
  inversion Hitems; subst listings.
  assert (Heq : suites = properties).
  { apply Hsame. repeat constructor. intros le Hle. inversion Hle. reflexivity. }
  subst suites. inversion Hrun; subst snapshot. split; reflexivity.
Defined.

(** ** Further properties of the persister *)

Lemma first_refusal_all_accepted w plan : forall n,
  (forall i table payload, db_insert w i table payload = None) ->
  first_refusal w n plan = None.
Proof.
  induction plan as [| [table payload] plan IH]; intros n Hdb; [reflexivity |].
  simpl. now rewrite Hdb, IH.
Qed.

Lemma batches_length suites : length (batches suites) = ((length suites + 99) / 100)%nat.
Proof. now rewrite batches_chunks, length_map, length_seq. Qed.

(** X11: the number of database calls: when the database accepts every insert,
    the persister returns after one insert of the market snapshot followed
    by one insert per started hundred of suite records, that is
    1 + ceil(n / 100) inserts for n records; with no suite record at all it
    makes the market insert alone. *)
Theorem persister_insert_count :
  forall (supabase : client) (market : value) (suites : list value) (w : world) (tr : trace),
    (forall i table payload, db_insert w i table payload = None) ->
    exists evs,
      save_to_supabase supabase market suites w tr = (Ret tt, tr ++ evs) /\
      inserts evs = planned_inserts market suites /\
      length (inserts evs) = S ((length suites + 99) / 100) /\
      (suites = [] -> inserts evs = [("crexi_market_snapshots", market)]).
Proof.
  intros supabase market suites w tr Hdb.
  destruct (save_to_supabase_run supabase market suites w tr) as (evs & Htr & Hrun).
  rewrite (first_refusal_all_accepted w _ _ Hdb) in Hrun. destruct Hrun as [Hout Hins].
  exists evs. split.
  - destruct (save_to_supabase supabase market suites w tr) as [out tr'].
    cbn [fst snd] in *. now subst.
  - split; [exact Hins |]. rewrite Hins. split.
    + unfold planned_inserts. cbn [length]. now rewrite length_map, batches_length.
    + intros ->. reflexivity.
Qed.

Lemma persister_insert_count_witness :
  exists evs,
    save_to_supabase sample_client (VDict []) (repeat VNone 250) sample_world []
    = (Ret tt, [] ++ evs) /\
    length (inserts evs) = 4%nat.
Proof.
  destruct (persister_insert_count sample_client (VDict []) (repeat VNone 250)
              sample_world []) as (evs & Hrun & _ & Hlen & _).
  - reflexivity.
  - exists evs. split; [exact Hrun |]. rewrite Hlen, repeat_length. reflexivity.
Defined.

(** When the database refuses a batch, the loop of lines 202-205 ends right
    after the refused insert. *)
Lemma batch_loop_refused supabase suites idxs : forall w tr k e,
  first_refusal w (count is_insert tr)
    (map (fun i => ("crexi_suite_snapshots"%string,
                    VList (py_slice suites i (i + batch_size)))) idxs)
  = Some (k, e) ->
  exists before payload,
    for_fold (fun _ i => insert_batch supabase suites i) tt idxs w tr
    = (Raise e, tr ++ before ++ [EvInsert "crexi_suite_snapshots" payload]) /\
    db_insert w (count is_insert (tr ++ before)) "crexi_suite_snapshots" payload = Some e.
Proof.
  induction idxs as [| i idxs IH]; intros w tr k e Hfirst; [discriminate Hfirst |].
  cbn [map first_refusal] in Hfirst. cbn [for_fold]. rewrite bind_run.
  unfold insert_batch at 1. rewrite bind_run. unfold table_insert_execute.
  destruct (db_insert w (count is_insert tr) "crexi_suite_snapshots"
                      (VList (py_slice suites i (i + batch_size)))) as [e0 |] eqn:Hdb.
  - inversion Hfirst; subst. exists [], (VList (py_slice suites i (i + batch_size))).
    rewrite app_nil_r. split; [reflexivity | exact Hdb].
  - destruct (first_refusal w (S (count is_insert tr)) _) as [[k' e'] |] eqn:Hrest;
      [| discriminate Hfirst].
    inversion Hfirst; subst k e. cbn [print].
    match goal with
    | |- context [for_fold _ tt idxs w ?tr1] =>
        destruct (IH w tr1 k' e') as (before & payload & Hrun & Hrefused)
    end.
    + rewrite !count_log. cbn [is_insert]. rewrite Nat.add_0_r, Nat.add_1_r. exact Hrest.
    + rewrite Hrun. eexists (_ :: _ :: before), payload.
      unfold log in *. rewrite <- !app_assoc in *. cbn [app] in *.
      split; [reflexivity | exact Hrefused].
Qed.

(** X12: the [except Exception] clause: when the database refuses an insert with
    [e], the persister raises [e] itself, the refused insert is the last
    thing it asked of the database, and what follows on the console is the
    message "Error saving to Supabase" with [str(e)] when [e] is an
    [Exception], and nothing when it is not (a [KeyboardInterrupt], a
    [SystemExit]). *)
Theorem persister_reports_exceptions_only :
  forall (supabase : client) (market : value) (suites : list value)
         (w : world) (tr : trace) (k : nat) (e : exn),
    first_refusal w (count is_insert tr) (planned_inserts market suites) = Some (k, e) ->
    exists before table payload,
      save_to_supabase supabase market suites w tr
      = (Raise e,
         tr ++ before ++ EvInsert table payload
            :: (if is_Exception e
                then [EvPrint (nl ++ "❌ Error saving to Supabase: " ++ exn_str e)%string]
                else [])) /\
      db_insert w (count is_insert (tr ++ before)) table payload = Some e.
Proof.
  intros supabase market suites w tr k e Hfirst.
  unfold planned_inserts in Hfirst. cbn [first_refusal] in Hfirst.
  unfold save_to_supabase. rewrite bind_run. cbn [print]. unfold try_except.
  rewrite bind_run. cbn [print]. rewrite bind_run. unfold table_insert_execute.
  rewrite !count_log. cbn [is_insert]. rewrite !Nat.add_0_r.
  destruct (db_insert w (count is_insert tr) "crexi_market_snapshots" market)
    as [e0 |] eqn:Hdb.
  - inversion Hfirst; subst e0.
    eexists [_; _], "crexi_market_snapshots"%string, market. split.
    + destruct (is_Exception e); cbn; unfold log; rewrite <- ?app_assoc; reflexivity.
    + rewrite count_app. unfold count at 2. cbn. now rewrite Nat.add_0_r.
  - destruct (first_refusal w (S (count is_insert tr)) _) as [[k' e'] |] eqn:Hrest;
      [| discriminate Hfirst].
    inversion Hfirst; subst k e.
    rewrite bind_run. cbn [print]. rewrite bind_run.
    destruct suites as [| s suites]; [discriminate Hrest |].
    rewrite bind_run. cbn [print].
    remember (s :: suites) as all eqn:Hall.
    unfold batches in Hrest. rewrite map_map in Hrest.
    match goal with
    | |- context [for_fold _ tt ?idxs w ?tr0] =>
        destruct (batch_loop_refused supabase all idxs w tr0 k' e')
          as (before & payload & Hrun & Hrefused)
    end.
    + rewrite !count_log. cbn [is_insert]. rewrite !Nat.add_0_r, Nat.add_1_r. exact Hrest.
    + rewrite Hrun. eexists (_ :: _ :: _ :: _ :: _ :: before),
                            "crexi_suite_snapshots"%string, payload.
      unfold log in *. split.
      * destruct (is_Exception e'); [rewrite bind_run; cbn [print raise]; unfold log |];
          repeat (rewrite <- app_assoc || rewrite <- app_comm_cons); reflexivity.
      * repeat (rewrite <- app_assoc in Hrefused || rewrite <- app_comm_cons in Hrefused).
        exact Hrefused.
Qed.

Lemma persister_reports_exceptions_only_witness :
  exists before table payload,
    save_to_supabase sample_client (VDict []) (repeat VNone 250) refusing_world []
    = (Raise (OtherException "APIError" "permission denied"),
       [] ++ before ++ EvInsert table payload
          :: [EvPrint (nl ++ "❌ Error saving to Supabase: permission denied")%string]).
Proof.
  destruct (persister_reports_exceptions_only sample_client (VDict []) (repeat VNone 250)
              refusing_world [] 0 (OtherException "APIError" "permission denied") eq_refl)
    as (before & table & payload & Hrun & _).
  exists before, table, payload. exact Hrun.
Defined.

(** ** Further properties of the whole script *)

Lemma follows_plan_of_quiet {A} (m : M A) : quiet m -> follows_plan m.
Proof.
  intros Hm w tr. destruct (Hm w tr) as (evs & Htr & Hins).
  exists evs, VNone, [], 0%nat. split; [exact Htr | exact Hins].
Qed.

Lemma follows_plan_after_quiet {A B} (m : M A) (k : A -> M B) :
  quiet m -> (forall a, follows_plan (k a)) -> follows_plan (bind m k).
Proof.
  intros Hm Hk w tr. rewrite bind_run.
  destruct (Hm w tr) as (evs1 & Htr1 & Hins1).
  destruct (m w tr) as [[a | e] tr1]; cbn [snd] in Htr1; subst tr1.
  - destruct (Hk a w (tr ++ evs1)) as (evs2 & market & suites & j & Htr2 & Hins2).
    exists (evs1 ++ evs2), market, suites, j. rewrite app_assoc. split; [exact Htr2 |].
    now rewrite inserts_app, Hins1.
  - exists evs1, VNone, [], 0%nat. split; [reflexivity | exact Hins1].
Qed.

Lemma follows_plan_then_quiet {A B} (m : M A) (k : A -> M B) :
  follows_plan m -> (forall a, quiet (k a)) -> follows_plan (bind m k).
Proof.
  intros Hm Hk w tr. rewrite bind_run.
  destruct (Hm w tr) as (evs1 & market & suites & j & Htr1 & Hins1).
  destruct (m w tr) as [[a | e] tr1]; cbn [snd] in Htr1; subst tr1.
  - destruct (Hk a w (tr ++ evs1)) as (evs2 & Htr2 & Hins2).
    exists (evs1 ++ evs2), market, suites, j. rewrite app_assoc. split; [exact Htr2 |].
    now rewrite inserts_app, Hins2, app_nil_r.
  - exists evs1, market, suites, j. split; [reflexivity | exact Hins1].
Qed.

Lemma save_to_supabase_follows_plan supabase market suites :
  follows_plan (save_to_supabase supabase market suites).
Proof.
  intros w tr. destruct (save_to_supabase_run supabase market suites w tr) as (evs & Htr & Hrun).
  destruct (first_refusal w (count is_insert tr) (planned_inserts market suites))
    as [[k e] |].
  - exists evs, market, suites, (S k). split; [exact Htr | apply Hrun].
  - exists evs, market, suites, (length (planned_inserts market suites)).
    split; [exact Htr |]. rewrite firstn_all. apply Hrun.
Qed.

(** X13: nothing is written out of order: however a run of the whole script ends
    (missing variables, no endpoint, a malformed payload, a refused insert,
    success), the inserts it has made are the first few of one plan: one
    market snapshot into [crexi_market_snapshots], then batches of suite
    snapshots into [crexi_suite_snapshots]. *)
Theorem main_inserts_follow_the_plan :
  forall (py_repr : value -> string) (cfg : config) (w : world) (tr : trace),
  exists evs market suites j,
    snd (main py_repr cfg w tr) = tr ++ evs /\
    inserts evs = firstn j (planned_inserts market suites).
Proof.
  intros py_repr cfg. change (follows_plan (main py_repr cfg)).
  unfold main, sys_exit.
  repeat (apply follows_plan_after_quiet; [auto with quiet | intros _]).
  apply follows_plan_after_quiet; [auto with quiet |]. intro supabase.
  apply follows_plan_after_quiet; [auto with quiet | intros _].
  apply follows_plan_after_quiet; [auto with quiet |].
  intros [endpoint hdrs data | error].
  - apply follows_plan_after_quiet; [auto with quiet | intros _].
    apply follows_plan_after_quiet; [auto with quiet |]. intro market.
    apply follows_plan_after_quiet; [auto with quiet |]. intro suites.
    apply follows_plan_after_quiet; [auto with quiet |]. intro total_properties.
    apply follows_plan_after_quiet; [auto with quiet | intros _].
    apply follows_plan_after_quiet; [auto with quiet | intros _].
    apply follows_plan_then_quiet; [apply save_to_supabase_follows_plan |].
    intros _. auto 40 with quiet.
  - apply follows_plan_of_quiet. auto with quiet.
Qed.

(** Run the script from its banner to the creation of the client. *)
Ltac main_opening Hvalid :=
  unfold main;
  rewrite bind_run; cbn [print];
  rewrite bind_run; cbn [print];
  rewrite bind_run; cbn [print];
  rewrite bind_run; unfold validate_environment at 1;
  rewrite missing_names_unset, Hvalid; cbn [ret];
  rewrite bind_run; cbn [print];
  rewrite bind_run; unfold get_supabase_client at 1.

Ltac trace_norm :=
  unfold log; repeat (rewrite <- app_assoc || rewrite <- app_comm_cons).

(** X14: the client comes first: with the three variables set, when
    [create_client] raises, the script ends with that exception right after
    its banner, before any request is sent, the clock read or anything
    inserted. *)
Theorem main_stops_without_client :
  forall (py_repr : value -> string) (cfg : config) (w : world) (tr : trace) (e : exn),
    unset_names cfg = [] ->
    create_client w (SUPABASE_URL cfg) (SUPABASE_KEY cfg) = Some e ->
    main py_repr cfg w tr = (Raise e, tr ++ opening_events cfg) /\
    gets (opening_events cfg) = [] /\
    inserts (opening_events cfg) = [] /\
    count is_now (opening_events cfg) = 0%nat.
Proof.
  intros py_repr cfg w tr e Hvalid Hclient. split; [| repeat split].
  main_opening Hvalid. rewrite Hclient. unfold opening_events. trace_norm. reflexivity.
Qed.

Lemma main_stops_without_client_witness :
  main sample_repr sample_config no_client_world []
  = (Raise (OtherException "SupabaseException" "Invalid URL"),
     [] ++ opening_events sample_config).
Proof.
  apply (main_stops_without_client sample_repr sample_config no_client_world []);
    reflexivity.
Defined.

Lemma count_get_opening cfg tr :
  count is_get
    (log (log (log (log (log (log tr (EvPrint (str_repeat "=" 60)))
                             (EvPrint "🏭 Crexi to Supabase Sync - Los Angeles Industrial Listings"))
                        (EvPrint (str_repeat "=" 60)))
                   (EvPrint (nl ++ "📊 Connecting to Supabase...")%string))
              (EvCreateClient (SUPABASE_URL cfg) (SUPABASE_KEY cfg)))
         (EvPrint "✅ Connected to Supabase"))
  = count is_get tr.
Proof. rewrite !count_log. cbn [is_get]. lia. Qed.

(** X15: no endpoint, no data: with the three variables set and the client
    created, when every one of the 36 requests ends in a transport failure
    or a status other than 200, the script sends the 36 requests, in order,
    and exits with status 1 without inserting anything. *)
Theorem main_exits_without_endpoint :
  forall (py_repr : value -> string) (cfg : config) (w : world) (tr : trace),
    unset_names cfg = [] ->
    create_client w (SUPABASE_URL cfg) (SUPABASE_KEY cfg) = None ->
    (forall j c,
        nth_error (combinations cfg) j = Some c ->
        recoverable (http w (count is_get tr + j) (combination_request c)) = true) ->
    exists tr',
      main py_repr cfg w tr = (Raise (SystemExit 1), tr') /\
      gets tr' = gets tr ++ map combination_request (combinations cfg) /\
      inserts tr' = inserts tr.
Proof.
  intros py_repr cfg w tr Hvalid Hclient Hall.
  main_opening Hvalid. rewrite Hclient.
  rewrite bind_run; cbn [print]. rewrite bind_run.
  match goal with
  | |- context [fetch_crexi_listings cfg w ?tr0] =>
      pose proof (count_get_opening cfg tr) as Hcount;
      destruct (fetch_of_scan cfg w tr0 (Ret None) (length (combinations cfg)))
        as (tr1 & Hrun & Hgets);
      [ rewrite Hcount; now apply probe_scan_all_recoverable |];
      destruct (quiet_fetch_crexi_listings cfg w tr0) as (evs & Htr & Hins);
      rewrite Hrun in Htr |- *; cbn [snd] in Htr
  end.
  rewrite bind_run; cbn [print]. unfold sys_exit. cbn [raise].
  eexists. split; [reflexivity |].
  rewrite firstn_all in Hgets. unfold log at 1 2.
  rewrite gets_app, inserts_app, Hgets. cbn [gets inserts]. rewrite !app_nil_r.
  split.
  - f_equal. unfold log. rewrite !gets_app. cbn [gets]. now rewrite !app_nil_r.
  - rewrite Htr, inserts_app, Hins, app_nil_r.
    unfold log. rewrite !inserts_app. cbn [inserts]. now rewrite !app_nil_r.
Qed.

Lemma main_exits_without_endpoint_witness :
  exists tr',
    main sample_repr sample_config sample_world [] = (Raise (SystemExit 1), tr') /\
    gets tr' = gets [] ++ map combination_request (combinations sample_config) /\
    inserts tr' = inserts [].
Proof.
  apply (main_exits_without_endpoint sample_repr sample_config sample_world []).
  - reflexivity.
  - reflexivity.
  - intros j c _. reflexivity.
Defined.

Lemma sends_nothing_ret {A} (a : A) : sends_nothing (ret a).
Proof. intros w tr. exists []. now rewrite app_nil_r. Qed.

Lemma sends_nothing_raise {A} (e : exn) : sends_nothing (@raise A e).
Proof. intros w tr. exists []. now rewrite app_nil_r. Qed.

Lemma sends_nothing_print line : sends_nothing (print line).
Proof. intros w tr. exists [EvPrint line]. split; reflexivity. Qed.

Lemma sends_nothing_insert supabase table payload :
  sends_nothing (table_insert_execute supabase table payload).
Proof.
  intros w tr. unfold table_insert_execute.
  destruct (db_insert w (count is_insert tr) table payload);
    exists [EvInsert table payload]; split; reflexivity.
Qed.

Lemma sends_nothing_bind {A B} (m : M A) (k : A -> M B) :
  sends_nothing m -> (forall a, sends_nothing (k a)) -> sends_nothing (bind m k).
Proof.
  intros Hm Hk w tr. rewrite bind_run.
  destruct (Hm w tr) as (evs1 & Htr1 & Hgets1).
  destruct (m w tr) as [[a | e] tr1]; cbn [snd] in Htr1; subst tr1.
  - destruct (Hk a w (tr ++ evs1)) as (evs2 & Htr2 & Hgets2).
    exists (evs1 ++ evs2). rewrite app_assoc. split; [exact Htr2 |].
    now rewrite gets_app, Hgets1, Hgets2.
  - exists evs1. split; [reflexivity | exact Hgets1].
Qed.

Lemma sends_nothing_for_fold {A S} (body : S -> A -> M S) xs :
  (forall acc x, sends_nothing (body acc x)) ->
  forall acc, sends_nothing (for_fold body acc xs).
Proof.
  intro Hbody. induction xs as [| x xs IH]; intro acc; simpl.
  - apply sends_nothing_ret.
  - apply sends_nothing_bind; [apply Hbody | exact IH].
Qed.

Lemma sends_nothing_try_except {A} (m : M A) caught handler :
  sends_nothing m -> (forall e, sends_nothing (handler e)) ->
  sends_nothing (try_except m caught handler).
Proof.
  intros Hm Hh w tr. unfold try_except.
  destruct (Hm w tr) as (evs1 & Htr1 & Hgets1).
  destruct (m w tr) as [[a | e] tr1]; cbn [snd] in Htr1; subst tr1.
  - exists evs1. split; [reflexivity | exact Hgets1].
  - destruct (caught e).
    + destruct (Hh e w (tr ++ evs1)) as (evs2 & Htr2 & Hgets2).
      exists (evs1 ++ evs2). rewrite app_assoc. split; [exact Htr2 |].
      now rewrite gets_app, Hgets1, Hgets2.
    + exists evs1. split; [reflexivity | exact Hgets1].
Qed.

Lemma save_to_supabase_sends_nothing supabase market suites :
  sends_nothing (save_to_supabase supabase market suites).
Proof.
  unfold save_to_supabase, insert_batch.
  apply sends_nothing_bind; [apply sends_nothing_print | intros _].
  apply sends_nothing_try_except.
  - repeat (apply sends_nothing_bind;
            [first [apply sends_nothing_print | apply sends_nothing_insert] | intros _]).
    apply sends_nothing_bind; [| intros _; apply sends_nothing_print].
    destruct suites; [apply sends_nothing_ret |].
    apply sends_nothing_bind; [apply sends_nothing_print | intros _].
    apply sends_nothing_for_fold. intros _ i.
    apply sends_nothing_bind; [apply sends_nothing_insert | intros _; apply sends_nothing_print].
  - intro e. apply sends_nothing_bind; [apply sends_nothing_print | intros _].
    apply sends_nothing_raise.
Qed.

Lemma clock_only_sends_nothing_and_quiet evs :
  Forall (fun ev => is_now ev = true) evs -> gets evs = [] /\ inserts evs = [].
Proof.
  induction 1 as [| ev evs Hev _ [IHg IHi]]; [split; reflexivity |].
  destruct ev; try discriminate Hev. simpl. split; assumption.
Qed.

Lemma gets_stamps stamps : gets (map EvNow stamps) = [].
Proof. induction stamps; [reflexivity | exact IHstamps]. Qed.

Lemma inserts_stamps stamps : inserts (map EvNow stamps) = [].
Proof. induction stamps; [reflexivity | exact IHstamps]. Qed.

Lemma well_shaped_received_count data :
  well_shaped data = true -> exists n, received_count data = Ret n.
Proof.
  unfold well_shaped, received_count. destruct data; try discriminate.
  rewrite extract_listings_dict, !py_get_dict. unfold dict_get_default.
  destruct (dict_get entries "results") as [[] |]; try discriminate;
    try (intros _; eexists; reflexivity).
  destruct (dict_get entries "data") as [[] |]; try discriminate;
    intros _; eexists; reflexivity.
Qed.

(** The market snapshot that goes with the records of the suite builder. *)
Lemma market_snapshot_of_records py_repr data w1 tr1 records tr1' w tr :
  process_suite_snapshots py_repr data w1 tr1 = (Ret records, tr1') ->
  exists listings : list value,
    process_market_snapshot data w tr =
    (Ret (VDict
       [ ("snapshot_date", VStr (clock w (count is_now tr)));
         ("market_area", VStr TARGET_MARKET);
         ("property_type", VStr "Industrial");
         ("total_properties", VInt (Z.of_nat (length listings)));
         ("total_suites", VInt (Z.of_nat (length records)));
         ("notes", VStr "Synced from Crexi API");
         ("raw_data", data) ]),
     log tr (EvNow (clock w (count is_now tr)))).
Proof.
  intro H. apply process_suite_snapshots_Ret in H.
  destruct H as (listings & groups & Hitems & -> & Hgs).
  assert (Hcs : Forall2 (fun listing n => suite_count listing = Ret n) listings
                        (map (fun g : list value => Z.of_nat (length g)) groups)).
  { clear - Hgs. induction Hgs; simpl; constructor;
      [now apply (records_of_count py_repr) | assumption]. }
  exists listings. rewrite <- sum_Z_lengths.
  now apply process_market_snapshot_run.
Qed.

(** X16: end to end: with the three variables set and the client created, when
    the answers before the [k]-th are recoverable, the [k]-th is a 200 whose
    body is a payload of the expected shape, and the database accepts every
    insert, the script returns; it has sent exactly the first [k + 1]
    requests and has inserted exactly the plan made of what its two builders
    return on that payload: the market snapshot, which keeps the payload as
    [raw_data] and whose [total_suites] is the number of suite records, then
    the suite records in batches. *)
Theorem main_syncs_what_it_fetched :
  forall (py_repr : value -> string) (cfg : config) (w : world) (tr : trace)
         (k : nat) (c : combination) (text : string) (data : value),
    unset_names cfg = [] ->
    create_client w (SUPABASE_URL cfg) (SUPABASE_KEY cfg) = None ->
    nth_error (combinations cfg) k = Some c ->
    (forall j c', (j < k)%nat -> nth_error (combinations cfg) j = Some c' ->
                  recoverable (http w (count is_get tr + j) (combination_request c')) = true) ->
    http w (count is_get tr + k) (combination_request c) = Response 200 text (Ret data) ->
    well_shaped data = true ->
    (forall i table payload, db_insert w i table payload = None) ->
    exists market records tr',
      main py_repr cfg w tr = (Ret tt, tr') /\
      gets tr' = gets tr ++ map combination_request (firstn (S k) (combinations cfg)) /\
      inserts tr' = inserts tr ++ planned_inserts market records /\
      (exists trm trm', process_market_snapshot data w trm = (Ret market, trm')) /\
      (exists trs trs', process_suite_snapshots py_repr data w trs = (Ret records, trs')) /\
      py_index market "raw_data" = Ret data /\
      py_index market "total_suites" = Ret (VInt (Z.of_nat (length records))).
Proof.
  intros py_repr cfg w tr k c text data Hvalid Hclient Hk Hbefore Hanswer Hshape Hdb.
  destruct (well_shaped_received_count data Hshape) as (n & Hn).
  main_opening Hvalid. rewrite Hclient.
  rewrite bind_run; cbn [print]. rewrite bind_run.
  (* the probe *)
  match goal with
  | |- context [fetch_crexi_listings cfg w ?tr0] =>
      pose proof (count_get_opening cfg tr) as Hcount;
      destruct (prober_first_usable_200 cfg w tr0 k c text data n Hk)
        as (tr1 & Hfetch & Hgets);
      [ rewrite Hcount; exact Hbefore | rewrite Hcount; exact Hanswer | exact Hn |];
      destruct (quiet_fetch_crexi_listings cfg w tr0) as (evs1 & Htr1 & Hins1);
      rewrite Hfetch in Htr1 |- *; cbn [snd] in Htr1;
      assert (Hins_tr1 : inserts tr1 = inserts tr)
        by (rewrite Htr1, inserts_app, Hins1; unfold log; rewrite !inserts_app;
            cbn [inserts]; now rewrite !app_nil_r);
      assert (Hgets_tr1 : gets tr1
                          = gets tr ++ map combination_request (firstn (S k) (combinations cfg)))
        by (rewrite Hgets; unfold log; rewrite !gets_app; cbn [gets];
            now rewrite !app_nil_r);
      clear Htr1 Hgets Hins1 evs1
  end.
  rewrite bind_run; cbn [print]. rewrite bind_run.
  (* the builders *)
  match goal with
  | |- context [process_market_snapshot data w ?tr2] =>
      destruct (process_suite_snapshots_returns py_repr data w
                  (log tr2 (EvNow (clock w (count is_now tr2)))) Hshape)
        as (records & tr3 & Hsuites);
      destruct (market_snapshot_of_records py_repr data _ _ _ _ w tr2 Hsuites)
        as (listings & Hmarket);
      rewrite Hmarket
  end.
  rewrite bind_run, Hsuites.
  pose proof (process_suite_snapshots_stamped _ _ _ _ _ _ Hsuites) as (recs & Hrecs & Htr3 & _).
  cbn [app] in Hrecs. subst recs.
  simpl (py_index _ _). rewrite bind_run, lift_run.
  rewrite bind_run; cbn [print]. rewrite bind_run; cbn [print]. rewrite bind_run.
  (* the persister *)
  match goal with
  | |- context [save_to_supabase ?client ?market records w ?tr4] =>
      destruct (save_to_supabase_run client market records w tr4) as (evs4 & Htr4 & Hrun4);
      destruct (save_to_supabase_sends_nothing client market records w tr4)
        as (evs4' & Htr4' & Hgets4);
      rewrite (first_refusal_all_accepted w _ _ Hdb) in Hrun4;
      destruct Hrun4 as [Hout4 Hins4];
      destruct (save_to_supabase client market records w tr4) as [out4 tr5];
      cbn [fst snd] in Htr4, Htr4', Hout4; subst out4;
      rewrite Htr4 in Htr4'; apply app_inv_head in Htr4'; subst evs4'
  end.
  rewrite bind_run; cbn [print]. rewrite bind_run; cbn [print].
  rewrite bind_run; cbn [print]. rewrite bind_run; cbn [print].
  rewrite bind_run; cbn [print]. rewrite bind_run, lift_run.
  rewrite bind_run; cbn [print]. rewrite bind_run; cbn [print].
  rewrite bind_run, lift_run.
  rewrite bind_run; cbn [print]. cbn [print].
  eexists _, records, _. split; [reflexivity |].
  subst tr5 tr3.
  split; [| split; [| split; [| split; [| split]]]].
  - unfold log. rewrite !gets_app, Hgets4, gets_stamps, Hgets_tr1. cbn [gets].
    now rewrite !app_nil_r.
  - unfold log. rewrite !inserts_app, Hins4, inserts_stamps, Hins_tr1.
    cbn [inserts]. now rewrite !app_nil_r.
  - eexists _, _. exact Hmarket.
  - eexists _, _. exact Hsuites.
  - reflexivity.
  - reflexivity.
Qed.

Lemma main_syncs_what_it_fetched_witness :
  exists market records tr',
    main sample_repr sample_config serving_world [] = (Ret tt, tr') /\
    gets tr' = gets [] ++ map combination_request (firstn 1 (combinations sample_config)) /\
    inserts tr' = inserts [] ++ planned_inserts market records /\
    py_index market "total_suites" = Ret (VInt (Z.of_nat (length records))).
Proof.
  destruct (main_syncs_what_it_fetched sample_repr sample_config serving_world [] 0
              ("https://api.crexi.com", "/v1/listings", [("Authorization", Some "Bearer key")])%string
              ""%string payload_A1)
    as (market & records & tr' & Hrun & Hgets & Hins & _ & _ & _ & Htotal).
  - reflexivity.
  - reflexivity.
  - reflexivity.
  - intros j c' Hj. lia.
  - reflexivity.
  - reflexivity.
  - intros i table payload. reflexivity.
  - exists market, records, tr'. repeat split; assumption.
Defined.

(** The A1 payload served on the first request, run end to end: one request,
    the clock read three times, and two inserts, a market snapshot counting
    one property and two suites, then one batch of two suite records. *)
Example main_run_on_payload_A1 :
  exists tr' market first second,
    main sample_repr sample_config serving_world [] = (Ret tt, tr') /\
    length (gets tr') = 1%nat /\
    count is_now tr' = 3%nat /\
    inserts tr' = [ ("crexi_market_snapshots", market);
                    ("crexi_suite_snapshots", VList [first; second]) ] /\
    py_index market "total_properties" = Ret (VInt 1) /\
    py_index market "total_suites" = Ret (VInt 2) /\
    py_index market "snapshot_date" = Ret (VStr "2025-01-01T00:00:00") /\
    py_index first "snapshot_date" = Ret (VStr "2025-01-01T00:00:01") /\
    py_index second "snapshot_date" = Ret (VStr "2025-01-01T00:00:02") /\
    py_index second "crexi_suite_id" = Ret (VStr "S2").
Proof. eexists _, _, _, _. repeat split. Qed.

(** X17: a payload the builders cannot read aborts the run before anything is
    written: with the three variables set and the client created, when the
    prober returns a payload on which the market builder raises, or on which
    it returns and the suite builder raises, the script ends with that
    exception and has inserted nothing. *)
Theorem main_aborts_on_unreadable_payload :
  forall (py_repr : value -> string) (cfg : config) (w : world) (tr : trace)
         (k : nat) (c : combination) (text : string) (data : value) (n : Z) (e : exn),
    unset_names cfg = [] ->
    create_client w (SUPABASE_URL cfg) (SUPABASE_KEY cfg) = None ->
    nth_error (combinations cfg) k = Some c ->
    (forall j c', (j < k)%nat -> nth_error (combinations cfg) j = Some c' ->
                  recoverable (http w (count is_get tr + j) (combination_request c')) = true) ->
    http w (count is_get tr + k) (combination_request c) = Response 200 text (Ret data) ->
    received_count data = Ret n ->
    ((forall w' tr', fst (process_market_snapshot data w' tr') = Raise e) \/
     ((forall w' tr', exists market, fst (process_market_snapshot data w' tr') = Ret market) /\
      (forall w' tr', fst (process_suite_snapshots py_repr data w' tr') = Raise e))) ->
    exists tr',
      main py_repr cfg w tr = (Raise e, tr') /\
      inserts tr' = inserts tr.
Proof.
  intros py_repr cfg w tr k c text data n e Hvalid Hclient Hk Hbefore Hanswer Hn Hraises.
  main_opening Hvalid. rewrite Hclient.
  rewrite bind_run; cbn [print]. rewrite bind_run.
  match goal with
  | |- context [fetch_crexi_listings cfg w ?tr0] =>
      pose proof (count_get_opening cfg tr) as Hcount;
      destruct (prober_first_usable_200 cfg w tr0 k c text data n Hk)
        as (tr1 & Hfetch & Hgets);
      [ rewrite Hcount; exact Hbefore | rewrite Hcount; exact Hanswer | exact Hn |];
      destruct (quiet_fetch_crexi_listings cfg w tr0) as (evs1 & Htr1 & Hins1);
      rewrite Hfetch in Htr1 |- *; cbn [snd] in Htr1;
      assert (Hins_tr1 : inserts tr1 = inserts tr)
        by (rewrite Htr1, inserts_app, Hins1; unfold log; rewrite !inserts_app;
            cbn [inserts]; now rewrite !app_nil_r);
      clear Htr1 Hgets Hins1 evs1
  end.
  rewrite bind_run; cbn [print]. rewrite bind_run.
  match goal with
  | |- context [process_market_snapshot data w ?tr2] =>
      destruct (quiet_process_market_snapshot data w tr2) as (evs2 & Htr2 & Hins2);
      destruct (process_market_snapshot data w tr2) as [out2 tr3] eqn:Hmarket;
      cbn [snd] in Htr2
  end.
  assert (Hins_tr3 : inserts tr3 = inserts tr).
  { rewrite Htr2, inserts_app, Hins2. unfold log. rewrite inserts_app, Hins_tr1.
    cbn [inserts]. now rewrite !app_nil_r. }
  destruct Hraises as [Hm | [Hm Hs]].
  - specialize (Hm w (log tr1 (EvPrint (nl ++ "🔄 Processing API response...")%string))).
    rewrite Hmarket in Hm. cbn [fst] in Hm. subst out2.
    exists tr3. split; [reflexivity | exact Hins_tr3].
  - destruct (Hm w (log tr1 (EvPrint (nl ++ "🔄 Processing API response...")%string)))
      as (market & Hret).
    rewrite Hmarket in Hret. cbn [fst] in Hret. subst out2.
    rewrite bind_run.
    destruct (quiet_process_suite_snapshots py_repr data w tr3) as (evs3 & Htr3 & Hins3).
    specialize (Hs w tr3).
    destruct (process_suite_snapshots py_repr data w tr3) as [out3 tr4].
    cbn [fst snd] in Hs, Htr3. subst out3.
    exists tr4. split; [reflexivity |].
    now rewrite Htr3, inserts_app, Hins3, app_nil_r.
Qed.

Lemma main_aborts_on_unreadable_payload_witness :
  exists tr',
    main sample_repr sample_config malformed_world [] = (Raise AttributeError, tr') /\
    inserts tr' = inserts [].
Proof.
  apply (main_aborts_on_unreadable_payload sample_repr sample_config malformed_world [] 0
           ("https://api.crexi.com", "/v1/listings", [("Authorization", Some "Bearer key")])%string
           ""%string payload_number_listing 1 AttributeError).
  - reflexivity.
  - reflexivity.
  - reflexivity.
  - intros j c' Hj. lia.
  - reflexivity.
  - reflexivity.
  - left. intros w' tr'. reflexivity.
Defined.
